(** * FoM emulator: grid loader, strategy-table loader and emulator

    A shallow embedding of [static/fom_emulator/fom_emulator.py].

    - Python floats and numpy [float64] values are binary64 numbers: they are
      the primitive floats of the kernel, with their IEEE 754 operations.
    - Python [str] values are [string]s: the bytes of the UTF-8 encoding of
      their code points. Substring tests, equality and splitting on an ASCII
      separator are the same on the bytes as on the code points; the [str]
      methods the script uses ([in], [split], [strip]) are written out below,
      [strip] with the white space of Unicode.
    - A raised exception is the [Raise] case of [result]; nothing in the
      script catches one.
    - The module-level variable [renorm_value] is the one field of [globals],
      threaded through [emulate_fom].
    - The builtins [float(str)] and [int(str)], scipy's [interp2d], the
      matplotlib block of [emulate_fom] and numpy's conversion of integers
      beyond [int64] are parameters of the development. *)

From Stdlib Require Import Bool Arith ZArith Lia List Ascii String Floats QArith.
Import ListNotations.

Set Warnings "-inexact-float".

Local Open Scope string_scope.
Local Open Scope list_scope.
Local Open Scope nat_scope.

(** ** Exceptions *)

Inductive exn : Type :=
| ValueError (msg : string)
| IndexError
| IOError
| OverflowError.

Inductive result (A : Type) : Type :=
| Ok (a : A)
| Raise (e : exn).

Arguments Ok {A} a.
Arguments Raise {A} e.

Definition bind {A B : Type} (r : result A) (k : A -> result B) : result B :=
  match r with
  | Ok a => k a
  | Raise e => Raise e
  end.

Notation "x <- r ;; k" := (bind r (fun x => k))
  (at level 61, r at next level, right associativity).

Notation "' p <- r ;; k" := (bind r (fun x => match x with p => k end))
  (at level 61, p pattern, r at next level, right associativity).

Definition is_ok {A : Type} (r : result A) : bool :=
  match r with Ok _ => true | Raise _ => false end.

(** ** Python [str] operations *)

Module Str.

(** [needle in hay]. *)
Fixpoint contains (needle hay : string) : bool :=
  String.prefix needle hay ||
  match hay with
  | EmptyString => false
  | String _ hay' => contains needle hay'
  end.

(** [s.split(sep)] for a one-character separator: never the empty list. *)
Fixpoint split (sep : ascii) (s : string) : list string :=
  match s with
  | EmptyString => [EmptyString]
  | String c s' =>
      if Ascii.eqb c sep then EmptyString :: split sep s'
      else match split sep s' with
           | [] => [String c EmptyString]
           | w :: ws => String c w :: ws
           end
  end.

(** The white space of [str.strip()], [str.isspace] of Python 3, by the
    length of its UTF-8 encoding. One byte: U+0009 to U+000D, U+001C to
    U+001F and U+0020. *)
Definition is_space (c : ascii) : bool :=
  let n := nat_of_ascii c in
  ((9 <=? n) && (n <=? 13)) || ((28 <=? n) && (n <=? 32)).

(** Two bytes: U+0085 (C2 85) and U+00A0 (C2 A0). *)
Definition is_space2 (c d : ascii) : bool :=
  (nat_of_ascii c =? 194) &&
  ((nat_of_ascii d =? 133) || (nat_of_ascii d =? 160)).

(** Three bytes: U+1680 (E1 9A 80), U+2000 to U+200A (E2 80 80 to E2 80 8A),
    U+2028 and U+2029 (E2 80 A8, E2 80 A9), U+202F (E2 80 AF), U+205F
    (E2 81 9F) and U+3000 (E3 80 80). *)
Definition is_space3 (c d e : ascii) : bool :=
  let c := nat_of_ascii c in
  let d := nat_of_ascii d in
  let e := nat_of_ascii e in
  ((c =? 225) && (d =? 154) && (e =? 128)) ||
  ((c =? 226) && (d =? 128) &&
   (((128 <=? e) && (e <=? 138)) || (e =? 168) || (e =? 169) || (e =? 175))) ||
  ((c =? 226) && (d =? 129) && (e =? 159)) ||
  ((c =? 227) && (d =? 128) && (e =? 128)).

(** [s.lstrip()]: the leading white-space characters are dropped. *)
Fixpoint lstrip (s : string) : string :=
  match s with
  | EmptyString => EmptyString
  | String c s1 =>
      if is_space c then lstrip s1
      else
        match s1 with
        | EmptyString => s
        | String d s2 =>
            if is_space2 c d then lstrip s2
            else
              match s2 with
              | EmptyString => s
              | String e s3 => if is_space3 c d e then lstrip s3 else s
              end
        end
  end.

(** [s.rstrip()]: the longest suffix made of white-space characters is
    dropped, that is, every suffix that [lstrip] empties. *)
Fixpoint rstrip (s : string) : string :=
  match s with
  | EmptyString => EmptyString
  | String c s' =>
      match lstrip s with
      | EmptyString => EmptyString
      | _ => String c (rstrip s')
      end
  end.

(** [s.strip()]. *)
Definition strip (s : string) : string := rstrip (lstrip s).

End Str.

(** ** Python [list] and numpy array operations *)

Module Py.

(** [l.index(x)] on a list of strings: the first position, or [ValueError]. *)
Fixpoint index (l : list string) (x : string) : result nat :=
  match l with
  | [] => Raise (ValueError ("'" ++ x ++ "' is not in list"))
  | y :: l' =>
      if String.eqb y x then Ok 0
      else i <- index l' x ;; Ok (S i)
  end.

(** [l[i]] for [0 <= i]: the element, or [IndexError]. *)
Definition item {A : Type} (l : list A) (i : nat) : result A :=
  match nth_error l i with
  | Some a => Ok a
  | None => Raise IndexError
  end.

(** A loop that appends one computed value per element. *)
Fixpoint for_each {A B : Type} (body : A -> result B) (l : list A)
  : result (list B) :=
  match l with
  | [] => Ok []
  | a :: l' =>
      b <- body a ;;
      bs <- for_each body l' ;;
      Ok (b :: bs)
  end.

End Py.

Module Np.

(** In-place update of position [i] along one axis, [IndexError] when [i]
    is outside the axis; the update of the element may itself raise. *)
Fixpoint update {A : Type} (i : nat) (f : A -> result A) (l : list A)
  : result (list A) :=
  match l, i with
  | [], _ => Raise IndexError
  | a :: l', 0 => a' <- f a ;; Ok (a' :: l')
  | a :: l', S i' => r <- update i' f l' ;; Ok (a :: r)
  end.

Section Array.
Context {A : Type}.

Definition array3 : Type := list (list (list A)).

(** [np.zeros((n0, n1, n2))], for the given zero. *)
Definition full3 (n0 n1 n2 : nat) (z : A) : array3 :=
  repeat (repeat (repeat z n2) n1) n0.

(** [a[i, j, k]] read with in-range indices. *)
Definition get3 (z : A) (a : array3) (i j k : nat) : A :=
  nth k (nth j (nth i a []) []) z.

(** [a[i, j, k] = v]: numpy checks every index against its axis. *)
Definition set3 (a : array3) (i j k : nat) (v : A) : result array3 :=
  update i (update j (update k (fun _ => Ok v))) a.

(** [a[:, :, k]]. *)
Definition slice2 (z : A) (a : array3) (k : nat) : list (list A) :=
  map (map (fun cell => nth k cell z)) a.

(** The shape [(n0, n1, n2)]. *)
Definition shaped (n0 n1 n2 : nat) (a : array3) : Prop :=
  List.length a = n0 /\
  Forall (fun row => List.length row = n1 /\
                     Forall (fun cell => List.length cell = n2) row) a.

End Array.

Arguments array3 A : clear implicits.

(** An element read back from [np.array(names)] for a list of [str]: the
    array has a fixed-width unicode dtype padded with NUL, and reading an
    element drops its trailing NUL characters. *)
Fixpoint str_item (s : string) : string :=
  match s with
  | EmptyString => EmptyString
  | String c s' =>
      match str_item s' with
      | EmptyString =>
          if Ascii.eqb c Ascii.zero then EmptyString else String c EmptyString
      | t => String c t
      end
  end.

Definition in_int64 (x : Z) : bool :=
  ((- 2 ^ 63 <=? x) && (x <? 2 ^ 63))%Z.

(** The entries of [np.array(l)] for a list of Python [int]s, as integers.
    When every entry fits [int64] the array holds the entries themselves.
    Otherwise numpy picks [uint64], [float64] or [object] from the values,
    differently from version to version, and the entry made from [x] is
    [wide l x]. The array always has one entry per element of [l]. *)
Definition int_array (wide : list Z -> Z -> Z) (l : list Z) : list Z :=
  if forallb in_int64 l then l else map (wide l) l.

End Np.

(** ** Module-level constants of the script *)

Definition year_vals : list string := ["Y1"; "Y3"; "Y6"; "Y10"].

(** [fake_area = False] and [renorm_strategy = 'kraken_2026'] are the values
    the script is shipped with; the functions below take both as arguments. *)
Definition fake_area : bool := false.
Definition renorm_strategy : option string := Some "kraken_2026".

(** [areas], shape (3, 4): three grid values for each of the four years. *)
Definition areas : list (list float) :=
  [ [7.5 * 1000; 10 * 1000; 10 * 1000; 10 * 1000];
    [13 * 1000; 15 * 1000; 15 * 1000; 15 * 1000];
    [16 * 1000; 20 * 1000; 20 * 1000; 20 * 1000] ]%float.

(** [depths], shape (3, 4). *)
Definition depths : list (list float) :=
  [ [24.9; 25.5; 25.9; 26.3];
    [25.2; 25.8; 26.1; 26.5];
    [25.5; 26.1; 26.3; 26.7] ]%float.

(** [a[i, j]] of a two-dimensional array, read with in-range indices. *)
Definition get2 {A : Type} (z : A) (a : list (list A)) (i j : nat) : A :=
  nth j (nth i a []) z.

(** Lines 263-264: the grid coordinates of one year as (3, 3) arrays,
    [plot_areas] constant along its rows and [plot_depths] along its
    columns. *)
Definition plot_areas (year_ind : nat) : list (list float) :=
  map (fun row => repeat (nth year_ind row 0%float) 3) areas.

Definition plot_depths (year_ind : nat) : list (list float) :=
  repeat (map (fun row => nth year_ind row 0%float) depths) 3.

Definition husni_metric : list (string * list float) :=
  [ ("rolling_10yrs_opsim", [19.17009607686149; 67.03196; 140.13828; 233.02816]);
    ("rolling_mix_10yrs_opsim", [17.827055447412253; 62.7963; 133.4886; 223.60182]);
    ("baseline2018a", [14.59823342079436; 65.08548; 147.00488; 258.2933]);
    ("colossus_2664", [13.983119554695064; 64.04174; 143.77374; 252.1407]);
    ("colossus_2665", [14.675119972692409; 65.4227; 145.51038; 257.6914]);
    ("colossus_2667", [14.156289402581807; 67.01718; 150.84012; 267.87976]);
    ("kraken_2026", [15.50727567502652; 67.57038; 150.43662; 267.03468]);
    ("kraken_2035", [15.751901825752723; 67.16228; 147.68512; 262.56644]);
    ("kraken_2036", [15.746321613278274; 54.3136; 111.16146; 216.34454]);
    ("kraken_2042", [16.66430918416413; 72.25023000920037; 162.07506150123004; 283.98536]);
    ("kraken_2044", [10.745318502725427; 49.68256; 114.5921; 201.4586]);
    ("mothra_2045", [30.52469022205864; 57.79377338482163; 107.63368; 181.36768]);
    ("nexus_2097", [11.600585597575709; 49.2615; 105.93476; 196.6197]);
    ("pontus_2002", [11.785008704101049; 51.90274; 113.13634; 200.76312]);
    ("pontus_2489", [24.132090956403378; 96.123; 208.12806; 369.85366]);
    ("alt_sched", [19.97984; 56.72922; 112.04002; 185.9261]);
    ("alt_sched_rolling", [37.47584628358029; 53.85072; 109.68314; 184.13812]);
    ("pontus_2502", [15.488642770841723; 62.17139085035306; 129.36377275455092; 210.57829565913184]);
    ("mothra_2049", [24.335122196054208; 45.69528; 103.20514; 188.75324]) ]%float.

(** [husni_metric[name]], [None] when [name not in husni_metric.keys()]. *)
Fixpoint dict_get {V : Type} (d : list (string * V)) (key : string) : option V :=
  match d with
  | [] => None
  | (k, v) :: d' => if String.eqb k key then Some v else dict_get d' key
  end.

(** [int(x)] of a float: truncation toward zero; [int(nan)] and [int(inf)]
    raise. *)
Definition int_of_float (x : float) : result Z :=
  match Prim2SF x with
  | S754_zero _ => Ok 0%Z
  | S754_infinity _ => Raise OverflowError
  | S754_nan => Raise (ValueError "cannot convert float NaN to integer")
  | S754_finite s m e =>
      let mag := match e with
                 | Z0 => Zpos m
                 | Zpos p => Z.shiftl (Zpos m) (Zpos p)
                 | Zneg p => Z.shiftr (Zpos m) (Zpos p)
                 end in
      Ok (if s then Z.opp mag else mag)
  end.

(** The process-wide mutable state: the memoised renormalisation value. *)
Record globals : Type := { renorm_value : float }.

Definition initial_globals : globals := {| renorm_value := (-100.0)%float |}.

(** The files the script sees: [glob.glob] of a pattern, [os.path.exists]
    of a path, and the lines of a file as
    [[line.rstrip('\n') for line in open(path)]] yields them ([None] when
    [open] raises its [OSError]: a path can exist and still not open). The
    files that open hold text in the encoding [open] reads them with. *)
Record filesystem : Type := {
  glob : string -> list string;
  path_exists : string -> bool;
  read_lines : string -> option (list string)
}.

(** [os.path.join(a, b)] for a relative [b]. *)
Definition path_join (a b : string) : string :=
  match a with
  | EmptyString => b
  | _ => if String.eqb (String.substring (String.length a - 1) 1 a) "/"
         then a ++ b else a ++ "/" ++ b
  end.

(** [open(path)] read line by line; [IOError] is Python 3's [OSError]. *)
Definition open_lines (fs : filesystem) (path : string) : result (list string) :=
  match read_lines fs path with
  | Some lines => Ok lines
  | None => Raise IOError
  end.

(** ** The fake-area rescaling (lines 121-130 of the script)

    Six stores in sequence, each reading the array as the stores before it
    left it. The number type and its product and quotient are arguments, so
    that the same statements can be read over binary64 and over exact
    rationals. *)

Section FakeArea.
Context {F : Type}.
Variable zero : F.
Variables mul div : F -> F -> F.
Variable areas_tab : list (list F).

Definition fake_area_rescale (fom_arr : Np.array3 F) (year_ind : nat)
  : result (Np.array3 F) :=
  let A r := get2 zero areas_tab r year_ind in
  let G a i j := Np.get3 zero a i j year_ind in
  a1 <- Np.set3 fom_arr 1 0 year_ind (div (mul (G fom_arr 0 0) (A 1)) (A 0)) ;;
  a2 <- Np.set3 a1 2 0 year_ind (div (mul (G a1 0 0) (A 2)) (A 0)) ;;
  a3 <- Np.set3 a2 0 1 year_ind (div (mul (G a2 1 1) (A 0)) (A 1)) ;;
  a4 <- Np.set3 a3 2 1 year_ind (div (mul (G a3 1 1) (A 2)) (A 1)) ;;
  a5 <- Np.set3 a4 0 2 year_ind (div (mul (G a4 2 2) (A 0)) (A 2)) ;;
  Np.set3 a5 1 2 year_ind (div (mul (G a5 2 2) (A 1)) (A 2)).

End FakeArea.

(** ** The three functions of the script *)

Section Program.

(** [float(s)] and [int(s)] on strings: [None] is their [ValueError]. *)
Variable py_float : string -> option float.
Variable py_int : string -> option Z.

(** numpy's conversion of the entries of an integer list that does not fit
    [int64] (see [Np.int_array]). *)
Variable np_wide : list Z -> Z -> Z.

(** [scipy.interpolate.interp2d(x, y, z, bounds_error=False)]: the fitted
    interpolant, called as [f(a, d)[0]]. *)
Variable interp2d :
  list (list float) -> list (list float) -> list (list float) ->
  float -> float -> float.

(** The matplotlib block of [emulate_fom] (lines 199-245), with the
    evaluation of the interpolant on the grid's own coordinates (line 178)
    that only this block reads: it writes image files and binds only names
    the rest of the function never reads; [Some e] when it raises [e]. Its
    arguments are [figpref], [area_vals], [depth_vals], [niexp], the
    interpolant and [tmp_renorm_value]. *)
Variable diagnostic_plots :
  string -> list float -> list float -> list Z ->
  (float -> float -> float) -> float -> option exn.

Definition float_of_string (s : string) : result float :=
  match py_float s with
  | Some x => Ok x
  | None => Raise (ValueError "could not convert string to float")
  end.

Definition int_of_string (s : string) : result Z :=
  match py_int s with
  | Some n => Ok n
  | None => Raise (ValueError "invalid literal for int()")
  end.

(** *** load_foms *)

(** Lines 81-85: does the file name hold another year's token, one that is
    not itself part of [year_str]? *)
Definition other_found (year_str file_name : string) : bool :=
  fold_left
    (fun found tmp_year_str =>
       if negb (String.eqb tmp_year_str year_str)
          && negb (Str.contains tmp_year_str year_str)
       then if Str.contains tmp_year_str file_name then true else found
       else found)
    year_vals false.

(** Lines 77-93: the scan of the directory listing for one year. *)
Fixpoint find_file_loop (dir year_str : string) (file_list : list string)
    (my_file : option string) : result (option string) :=
  match file_list with
  | [] => Ok my_file
  | file_name :: rest =>
      if Str.contains year_str file_name then
        if negb (other_found year_str file_name) then
          match my_file with
          | None => find_file_loop dir year_str rest (Some file_name)
          | Some found =>
              if negb (String.eqb found file_name) then
                Raise (ValueError ("Year " ++ year_str
                                   ++ " found more than once in dir "
                                   ++ dir ++ "!"))
              else find_file_loop dir year_str rest my_file
          end
        else find_file_loop dir year_str rest my_file
      else find_file_loop dir year_str rest my_file
  end.

(** Lines 76-95. *)
Definition find_year_file (dir year_str : string) (file_list : list string)
  : result string :=
  my_file <- find_file_loop dir year_str file_list None ;;
  match my_file with
  | None => Raise (ValueError ("Year " ++ year_str ++ " not found in dir "
                               ++ dir ++ "!"))
  | Some file_name => Ok file_name
  end.

(** Line 112: [float(line.split('=')[1])]. *)
Definition line_fom (line : string) : result float :=
  piece <- Py.item (Str.split "=" line) 1 ;;
  float_of_string piece.

(** Lines 109-114: one store per qualifying line. *)
Fixpoint fill_loop (grep_str : string) (year_ind : nat) (lines : list string)
    (fom_arr : Np.array3 float) (n_found : nat)
  : result (Np.array3 float * nat) :=
  match lines with
  | [] => Ok (fom_arr, n_found)
  | line :: rest =>
      if Str.contains grep_str line then
        tmp_fom <- line_fom line ;;
        fom_arr' <- Np.set3 fom_arr (n_found / 3) (n_found mod 3) year_ind
                      tmp_fom ;;
        fill_loop grep_str year_ind rest fom_arr' (n_found + 1)
      else fill_loop grep_str year_ind rest fom_arr n_found
  end.

(** Lines 75-130: the body of the loop over the years. *)
Definition load_year (fs : filesystem) (dir : string) (prior fake_area : bool)
    (file_list : list string) (fom_arr : Np.array3 float) (year_str : string)
  : result (Np.array3 float) :=
  my_file <- find_year_file dir year_str file_list ;;
  lines <- open_lines fs my_file ;;
  let grep_str := if prior then "incl" else "excl" in
  year_ind <- Py.index year_vals year_str ;;
  ' (fom_arr1, n_found) <- fill_loop grep_str year_ind lines fom_arr 0 ;;
  if fake_area then
    fake_area_rescale 0%float PrimFloat.mul PrimFloat.div areas
      fom_arr1 year_ind
  else Ok fom_arr1.

Fixpoint load_years (fs : filesystem) (dir : string) (prior fake_area : bool)
    (file_list : list string) (fom_arr : Np.array3 float)
    (years : list string) : result (Np.array3 float) :=
  match years with
  | [] => Ok fom_arr
  | year_str :: rest =>
      fom_arr' <- load_year fs dir prior fake_area file_list fom_arr year_str ;;
      load_years fs dir prior fake_area file_list fom_arr' rest
  end.

Definition load_foms (fs : filesystem) (dir : string) (prior fake_area : bool)
  : result (Np.array3 float) :=
  let file_list := glob fs (path_join dir "*") in
  let fom_arr := Np.full3 3 3 (List.length year_vals) 0%float in
  load_years fs dir prior fake_area file_list fom_arr year_vals.

(** What the loader reads for one year, used to state its properties: the
    values on the qualifying lines of the file it selects, in file order. *)
Definition year_values (fs : filesystem) (dir : string) (prior : bool)
    (year_str : string) : result (list float) :=
  my_file <- find_year_file dir year_str (glob fs (path_join dir "*")) ;;
  lines <- open_lines fs my_file ;;
  Py.for_each line_fom
    (filter (Str.contains (if prior then "incl" else "excl")) lines).

(** *** load_strategy_table *)

(** Lines 153-160: the visit count of one row. *)
Definition parse_niexp (year_ind : nat) (tmp_vals : list string) : result Z :=
  if (List.length tmp_vals =? 14)
     && negb (String.eqb (nth 13 tmp_vals "") "")
  then
    field <- Py.item tmp_vals 13 ;;
    int_of_string (Str.strip field)
  else
    name <- Py.item tmp_vals 1 ;;
    match dict_get husni_metric (Str.strip name) with
    | Some per_year =>
        entry <- Py.item per_year year_ind ;;
        int_of_float entry
    | None => Ok 0%Z
    end.

(** Lines 149-160: one row of the table. *)
Definition parse_row (year_ind : nat) (line : string)
  : result (string * float * float * Z) :=
  let tmp_vals := Str.split "|" line in
  name <- Py.item tmp_vals 1 ;;
  area_field <- Py.item tmp_vals 3 ;;
  area <- float_of_string (Str.strip area_field) ;;
  depth_field <- Py.item tmp_vals 4 ;;
  median_depth <- float_of_string (Str.strip depth_field) ;;
  niexp <- parse_niexp year_ind tmp_vals ;;
  Ok (Str.strip name, area, median_depth, niexp).

(** Lines 135-163. The four lists are returned as numpy arrays (line 163):
    the names are read back through [Np.str_item], the floats are kept as
    they are and the visit counts go through [Np.int_array]. *)
Definition load_strategy_table (fs : filesystem) (year_str : string)
  : result (list string * list float * list float * list Z) :=
  let infile := ("./strategy_table_" ++ year_str ++ ".txt")%string in
  if negb (path_exists fs infile) then
    Raise (ValueError ("Cannot find file " ++ infile ++ " for year "
                       ++ year_str ++ "!"))
  else
    lines <- open_lines fs infile ;;
    year_ind <- Py.index year_vals year_str ;;
    rows <- Py.for_each (parse_row year_ind) lines ;;
    Ok (map (fun r => Np.str_item (fst (fst (fst r)))) rows,
        map (fun r => snd (fst (fst r))) rows,
        map (fun r => snd (fst r)) rows,
        Np.int_array np_wide (map snd rows)).

(** *** emulate_fom *)

(** Lines 180-195: the divisor of this call and the module variable after
    it. *)
Definition renormalize (renorm_strategy : option string)
    (f : float -> float -> float) (area_vals depth_vals : list float)
    (strategy_name : option (list string)) (g : globals)
  : result float * globals :=
  match renorm_strategy with
  | Some renorm_name =>
      if (0 <? renorm_value g)%float then (Ok (renorm_value g), g)
      else
        match strategy_name with
        | None => (Raise (ValueError "No strategy list was passed in!"), g)
        | Some names =>
            match
              tmp_ind <- Py.index names renorm_name ;;
              a <- Py.item area_vals tmp_ind ;;
              d <- Py.item depth_vals tmp_ind ;;
              Ok (f a d)
            with
            | Ok v => (Ok v, {| renorm_value := v |})
            | Raise e => (Raise e, g)
            end
        end
  | None => (Ok 1%float, g)
  end.

(** Lines 247-250. *)
Definition fom_loop (f : float -> float -> float)
    (area_vals depth_vals : list float) (tmp_renorm_value : float)
  : result (list float) :=
  Py.for_each
    (fun ind =>
       a <- Py.item area_vals ind ;;
       d <- Py.item depth_vals ind ;;
       Ok (f a d / tmp_renorm_value)%float)
    (seq 0 (List.length area_vals)).

Definition emulate_fom (renorm_strategy : option string)
    (area_vals depth_vals : list float)
    (grid_area_vals grid_depth_vals grid_fom_vals : list (list float))
    (niexp : list Z) (figpref : option string)
    (strategy_name : option (list string)) (g : globals)
  : result (list float) * globals :=
  let f := interp2d grid_area_vals grid_depth_vals grid_fom_vals in
  match renormalize renorm_strategy f area_vals depth_vals strategy_name g with
  | (Raise e, g') => (Raise e, g')
  | (Ok tmp_renorm_value, g') =>
      match
        match figpref with
        | Some pref =>
            diagnostic_plots pref area_vals depth_vals niexp f
              tmp_renorm_value
        | None => None
        end
      with
      | Some e => (Raise e, g')
      | None => (fom_loop f area_vals depth_vals tmp_renorm_value, g')
      end
  end.

(** A process makes a sequence of calls; each call's arguments: *)
Record call : Type := {
  c_area_vals : list float;
  c_depth_vals : list float;
  c_grid_area_vals : list (list float);
  c_grid_depth_vals : list (list float);
  c_grid_fom_vals : list (list float);
  c_niexp : list Z;
  c_figpref : option string;
  c_strategy_name : option (list string)
}.

Definition do_call (renorm_strategy : option string) (c : call) (g : globals)
  : result (list float) * globals :=
  emulate_fom renorm_strategy (c_area_vals c) (c_depth_vals c)
    (c_grid_area_vals c) (c_grid_depth_vals c) (c_grid_fom_vals c)
    (c_niexp c) (c_figpref c) (c_strategy_name c) g.

(** The module variable after a sequence of calls, whatever each returned. *)
Definition after_calls (renorm_strategy : option string) (cs : list call)
    (g : globals) : globals :=
  fold_left (fun g c => snd (do_call renorm_strategy c g)) cs g.

End Program.

(** ** area_depth_func (lines 165-171)

    The rows [x[0,:]] and [x[1,:]] of a two-dimensional array, each divided
    by its element 4, combined elementwise. numpy's elementwise power
    [array ** c] is a parameter. *)

Section AreaDepth.

Variable np_power : float -> float -> float.

Definition area_depth_func (x : list (list float)) (a b c : float)
  : result (list float) :=
  areas_row <- Py.item x 0 ;;
  depths_row <- Py.item x 1 ;;
  area_0 <- Py.item areas_row 4 ;;
  let area_renorm := map (fun v => (v / area_0)%float) areas_row in
  depth_0 <- Py.item depths_row 4 ;;
  let depth_renorm := map (fun v => (v / depth_0)%float) depths_row in
  Ok (map (fun p => ((a + b * fst p) * np_power (snd p) c)%float)
        (combine depth_renorm area_renorm)).

End AreaDepth.

(** ** The script body (lines 253-352)

    The two loads, then for every year the strategy table and the one or two
    calls of [emulate_fom]. The figures of lines 265-316 and the ranking and
    printing of lines 331-352 leave no value behind; they are parameters
    that say whether they raise. The values the loop binds for a year are
    kept in a [year_result]. *)

Record year_result : Type := {
  tmp_strat : list string;
  tmp_area : list float;
  tmp_depth : list float;
  tmp_niexp : list Z;
  emulated_fom_noprior : list float;
  emulated_fom_prior : option (list float)
}.

Section Script.

Variable py_float : string -> option float.
Variable py_int : string -> option Z.
Variable np_wide : list Z -> Z -> Z.
Variable interp2d :
  list (list float) -> list (list float) -> list (list float) ->
  float -> float -> float.
Variable diagnostic_plots :
  string -> list float -> list float -> list Z ->
  (float -> float -> float) -> float -> option exn.

(** Lines 265-316 for one year: [Some e] when a figure raises [e]. *)
Variable year_figures :
  bool -> nat -> Np.array3 float -> Np.array3 float -> option exn.

(** Lines 331-352 for one year: [Some e] when the ranking or a [print]
    raises [e]. *)
Variable print_ranking : bool -> option string -> year_result -> option exn.

(** Lines 263-352: the body of the loop over the years. *)
Definition script_year (fake_area : bool) (renorm_strategy : option string)
    (fs : filesystem) (foms_prior foms_noprior : Np.array3 float)
    (year_ind : nat) (g : globals) : result year_result * globals :=
  match year_figures fake_area year_ind foms_prior foms_noprior with
  | Some e => (Raise e, g)
  | None =>
      match
        year_str <- Py.item year_vals year_ind ;;
        table <- load_strategy_table py_float py_int np_wide fs year_str ;;
        Ok (year_str, table)
      with
      | Raise e => (Raise e, g)
      | Ok (year_str, (strat, area, depth, niexp)) =>
          match
            emulate_fom interp2d diagnostic_plots renorm_strategy area depth
              (plot_areas year_ind) (plot_depths year_ind)
              (Np.slice2 0%float foms_noprior year_ind) niexp
              (Some ("test_noprior_" ++ year_str)%string) (Some strat) g
          with
          | (Raise e, g1) => (Raise e, g1)
          | (Ok noprior, g1) =>
              let finish (prior : option (list float)) (g2 : globals) :=
                let r := {| tmp_strat := strat; tmp_area := area;
                            tmp_depth := depth; tmp_niexp := niexp;
                            emulated_fom_noprior := noprior;
                            emulated_fom_prior := prior |} in
                match print_ranking fake_area renorm_strategy r with
                | Some e => (Raise e, g2)
                | None => (Ok r, g2)
                end in
              if fake_area then finish None g1
              else
                match
                  emulate_fom interp2d diagnostic_plots renorm_strategy area
                    depth (plot_areas year_ind) (plot_depths year_ind)
                    (Np.slice2 0%float foms_prior year_ind) niexp
                    (Some ("test_prior_" ++ year_str)%string) (Some strat) g1
                with
                | (Raise e, g2) => (Raise e, g2)
                | (Ok prior, g2) => finish (Some prior) g2
                end
          end
      end
  end.

Fixpoint script_years (fake_area : bool) (renorm_strategy : option string)
    (fs : filesystem) (foms_prior foms_noprior : Np.array3 float)
    (years : list nat) (g : globals)
  : result (list year_result) * globals :=
  match years with
  | [] => (Ok [], g)
  | year_ind :: rest =>
      match
        script_year fake_area renorm_strategy fs foms_prior foms_noprior
          year_ind g
      with
      | (Raise e, g1) => (Raise e, g1)
      | (Ok r, g1) =>
          match
            script_years fake_area renorm_strategy fs foms_prior foms_noprior
              rest g1
          with
          | (Raise e, g2) => (Raise e, g2)
          | (Ok rs, g2) => (Ok (r :: rs), g2)
          end
      end
  end.

(** Lines 253-352, run in a fresh process. *)
Definition script (fake_area : bool) (renorm_strategy : option string)
    (fs : filesystem) : result (list year_result) * globals :=
  match
    foms_prior <- load_foms py_float fs "FoM" true fake_area ;;
    foms_noprior <- load_foms py_float fs "FoM" false fake_area ;;
    Ok (foms_prior, foms_noprior)
  with
  | Raise e => (Raise e, initial_globals)
  | Ok (foms_prior, foms_noprior) =>
      script_years fake_area renorm_strategy fs foms_prior foms_noprior
        (seq 0 (List.length year_vals)) initial_globals
  end.

End Script.

(** ** Readers of plain decimal literals

    Instances of the two builtins on which the model can be run: they read
    an optional sign and decimal digits (with an optional fraction for
    floats) and reject everything else. On the literals it accepts (digits
    that fit in 53 bits, at most 15 of them after the point)
    [float_of_decimal] is the correctly rounded value, as [float] is: both
    operands of its one division are exact. *)

Module Decimal.

Definition digit (c : ascii) : option Z :=
  let n := nat_of_ascii c in
  if (48 <=? n) && (n <=? 57) then Some (Z.of_nat (n - 48)) else None.

(** The digits of [s] read after the accumulator [acc]; the number of
    digits read is added to [k]. *)
Fixpoint digits (s : string) (acc : Z) (k : nat) : option (Z * nat * string) :=
  match s with
  | EmptyString => Some (acc, k, EmptyString)
  | String c s' =>
      match digit c with
      | Some d => digits s' (10 * acc + d)%Z (S k)
      | None => Some (acc, k, s)
      end
  end.

Definition signed (s : string) : bool * string :=
  match s with
  | String "-" s' => (true, s')
  | String "+" s' => (false, s')
  | _ => (false, s)
  end.

Definition int_of_decimal (s : string) : option Z :=
  let (neg, body) := signed s in
  match digits body 0%Z 0 with
  | Some (n, S _, EmptyString) => Some (if neg then Z.opp n else n)
  | _ => None
  end.

Definition float_of_Z (n : Z) : float := of_uint63 (Uint63.of_Z n).

Definition float_of_decimal (s : string) : option float :=
  let (neg, body) := signed (Str.strip s) in
  match digits body 0%Z 0 with
  | Some (n, S _, rest) =>
      let finish (m : Z) (frac : nat) :=
        if (m <? 2 ^ 53)%Z && (frac <=? 15) then
          let x := (float_of_Z m / float_of_Z (10 ^ Z.of_nat frac))%float in
          Some (if neg then (- x)%float else x)
        else None in
      match rest with
      | EmptyString => finish n 0
      | String "." rest' =>
          match digits rest' n 0 with
          | Some (m, frac, EmptyString) => finish m frac
          | _ => None
          end
      | _ => None
      end
  | _ => None
  end.

End Decimal.

(** ** Vocabulary of the statements about the grid loader *)

(** [x * a / b], evaluated left to right in binary64 as lines 121-130 do. *)
Definition rescaled (x a b : float) : float := (x * a / b)%float.

(** What one year's load leaves in slice [yi], given the values [vals] of
    the qualifying lines and the array before the load: cell number [n] in
    row-major order holds the [n]-th value, or what it held before when the
    file has no [n]-th qualifying line. *)
Definition filled (vals : list float) (before : Np.array3 float) (yi n : nat)
  : float :=
  if n <? List.length vals then nth n vals 0%float
  else Np.get3 0%float before (n / 3) (n mod 3) yi.

(** [out] holds one value per entry of [area_vals], in order: the interpolant
    at that entry's area and depth divided by [c]. *)
Definition divided_by (f : float -> float -> float)
    (area_vals depth_vals : list float) (c : float) (out : list float)
  : Prop :=
  List.length out = List.length area_vals /\
  forall i a d,
    nth_error area_vals i = Some a -> nth_error depth_vals i = Some d ->
    nth_error out i = Some (f a d / c)%float.

(** The test of lines 79-86 on one file name: it holds the year's token and
    no other year's token (tokens that are part of the requested one are not
    looked for). *)
Definition qualifies (year_str file_name : string) : bool :=
  Str.contains year_str file_name && negb (other_found year_str file_name).

(** The token of year number [yi]. *)
Definition year_token (yi : nat) : string := nth yi year_vals "".

(** [x / y == a / b] over exact rationals. *)
Definition same_ratio (x y a b : Q) : Prop := (x / y == a / b)%Q.

(** Year number [yi] can be loaded: the file selected for it has the values
    [vals yi] on its qualifying lines, at most nine of them. *)
Definition year_fits (py_float : string -> option float) (fs : filesystem)
    (dir : string) (prior : bool) (vals : nat -> list float) (yi : nat)
  : Prop :=
  yi < 4 /\
  year_values py_float fs dir prior (nth yi year_vals "") = Ok (vals yi) /\
  List.length (vals yi) <= 9.

Definition slice_spec (fake_area : bool) (vals : list float) (yi : nat)
    (before after : Np.array3 float) : Prop :=
  let G i j := Np.get3 0%float after i j yi in
  let A r := get2 0%float areas r yi in
  if fake_area then
    G 0 0 = filled vals before yi 0 /\
    G 1 1 = filled vals before yi 4 /\
    G 2 2 = filled vals before yi 8 /\
    G 1 0 = rescaled (G 0 0) (A 1) (A 0) /\
    G 2 0 = rescaled (G 0 0) (A 2) (A 0) /\
    G 0 1 = rescaled (G 1 1) (A 0) (A 1) /\
    G 2 1 = rescaled (G 1 1) (A 2) (A 1) /\
    G 0 2 = rescaled (G 2 2) (A 0) (A 2) /\
    G 1 2 = rescaled (G 2 2) (A 1) (A 2)
  else
    forall n, n < 9 -> G (n / 3) (n mod 3) = filled vals before yi n.

(** The interpolant the script fits for year [yi] on a loaded array
    (lines 263-264 and 322-329). *)
Definition year_interp
    (interp2d : list (list float) -> list (list float) -> list (list float) ->
                float -> float -> float)
    (foms : Np.array3 float) (yi : nat) : float -> float -> float :=
  interp2d (plot_areas yi) (plot_depths yi) (Np.slice2 0%float foms yi).

(** Both emulated lists of year [yi] in [r] are their year's interpolant
    divided by [v]. *)
Definition year_divided
    (interp2d : list (list float) -> list (list float) -> list (list float) ->
                float -> float -> float)
    (foms_prior foms_noprior : Np.array3 float) (v : float) (yi : nat)
    (r : year_result) : Prop :=
  divided_by (year_interp interp2d foms_noprior yi) (tmp_area r) (tmp_depth r)
    v (emulated_fom_noprior r) /\
  forall p, emulated_fom_prior r = Some p ->
    divided_by (year_interp interp2d foms_prior yi) (tmp_area r) (tmp_depth r)
      v p.

(** ** Sample inputs *)

Module Sample.

(** A stand-in for the fitted interpolant on grids whose nine values are
    all equal: it returns that common value everywhere, as an interpolant
    of constant data does. *)
Definition flat_interp (x y z : list (list float)) (a d : float) : float :=
  get2 0%float z 0 0.

Definition no_plots (pref : string) (a d : list float) (n : list Z)
    (f : float -> float -> float) (r : float) : option exn := None.

Definition flat_grid (v : float) : list (list float) :=
  repeat (repeat v 3) 3.

(** The nine lines [<tag>_fom=10.0] ... [<tag>_fom=90.0]. *)
Definition grid_lines (tag : string) : list string :=
  map (fun v => tag ++ "_fom=" ++ v)%string
    ["10.0"; "20.0"; "30.0"; "40.0"; "50.0"; "60.0"; "70.0"; "80.0"; "90.0"].

Definition year_files : list string :=
  ["FoM/foms_Y1.txt"; "FoM/foms_Y3.txt"; "FoM/foms_Y6.txt"; "FoM/foms_Y10.txt"].

(** A directory with one file per year, every file holding [lines]. *)
Definition fs_with (lines : list string) : filesystem := {|
  glob := fun pat => if String.eqb pat "FoM/*" then year_files else [];
  path_exists := fun path => existsb (String.eqb path) year_files;
  read_lines := fun path =>
    if existsb (String.eqb path) year_files then Some lines else None
|}.

(** Nine lines for each prior mode, after a header. *)
Definition fs_nine : filesystem :=
  fs_with ("# FoM grid" :: grid_lines "incl" ++ grid_lines "excl").

(** A tenth qualifying line. *)
Definition fs_ten : filesystem :=
  fs_with (grid_lines "excl" ++ ["excl_fom=100.0"]).

(** Only four qualifying lines. *)
Definition fs_four : filesystem :=
  fs_with (firstn 4 (grid_lines "excl")).

(** The nine lines for year Y1 only; the files of the other years hold no
    qualifying line. *)
Definition fs_first_year : filesystem := {|
  glob := fun pat => if String.eqb pat "FoM/*" then year_files else [];
  path_exists := fun path => existsb (String.eqb path) year_files;
  read_lines := fun path =>
    if String.eqb path "FoM/foms_Y1.txt" then Some (grid_lines "excl")
    else if existsb (String.eqb path) year_files then Some ["# no values"]
    else None
|}.

(** The diagonal of the grid 10.0 ... 90.0 with other values around it. *)
Definition fs_other_off_diagonal : filesystem :=
  fs_with (map (fun v => "excl_fom=" ++ v)%string
             ["10.0"; "1.0"; "2.0"; "3.0"; "50.0"; "4.0"; "5.0"; "6.0";
              "90.0"]).

Definition ten_to_ninety : list float :=
  [10; 20; 30; 40; 50; 60; 70; 80; 90]%float.

(** A call for two strategies on a grid whose nine values are [v]; the
    reference strategy is the second of the list. *)
Definition year_call (v : float) : call := {|
  c_area_vals := [18000; 15000]%float;
  c_depth_vals := [25.1; 26]%float;
  c_grid_area_vals := plot_areas 0;
  c_grid_depth_vals := plot_depths 0;
  c_grid_fom_vals := flat_grid v;
  c_niexp := [14; 15]%Z;
  c_figpref := None;
  c_strategy_name := Some ["baseline2018a"; "kraken_2026"]
|}.

(** A strategy table for year Y1: a row with a fourteenth field, a row
    without one whose strategy is in the hardcoded table, and a row whose
    strategy is unknown. *)
Definition table_lines : list string :=
  [ "| baseline2018a | a | 18000.0 | 25.1 |5|6|7|8|9|10|11|12| 42 ";
    "| kraken_2026 | a | 15000.0 | 26.0 |";
    "| my_strategy | a | 14000.0 | 25.5 |" ].

Definition fs_table : filesystem := {|
  glob := fun _ => [];
  path_exists := fun path => String.eqb path "./strategy_table_Y1.txt";
  read_lines := fun path =>
    if String.eqb path "./strategy_table_Y1.txt" then Some table_lines
    else None
|}.

(** The same table with a blank line before its last row. *)
Definition fs_table_blank : filesystem := {|
  glob := fun _ => [];
  path_exists := fun path => String.eqb path "./strategy_table_Y1.txt";
  read_lines := fun path =>
    if String.eqb path "./strategy_table_Y1.txt"
    then Some (firstn 2 table_lines ++ "" :: [nth 2 table_lines ""])
    else None
|}.

(** A table file that exists and cannot be opened. *)
Definition fs_table_locked : filesystem := {|
  glob := fun _ => [];
  path_exists := fun path => String.eqb path "./strategy_table_Y1.txt";
  read_lines := fun _ => None
|}.

(** The no-break space U+00A0 and the ideographic space U+3000, in UTF-8. *)
Definition nbsp : string :=
  String (ascii_of_nat 194) (String (ascii_of_nat 160) EmptyString).

Definition ideographic_space : string :=
  String (ascii_of_nat 227)
    (String (ascii_of_nat 128) (String (ascii_of_nat 128) EmptyString)).

(** A table whose second count does not fit [int64], and a name that ends
    in a NUL character. *)
Definition table_wide : list string :=
  [ "| baseline2018a | a | 18000.0 | 25.1 |5|6|7|8|9|10|11|12| 5 ";
    "| kraken_2026 | a | 15000.0 | 26.0 |5|6|7|8|9|10|11|12| 9223372036854775809 ";
    ("| my_strategy" ++ String Ascii.zero " | a | 14000.0 | 25.5 |")%string ].

Definition fs_table_wide : filesystem := {|
  glob := fun _ => [];
  path_exists := fun path => String.eqb path "./strategy_table_Y1.txt";
  read_lines := fun path =>
    if String.eqb path "./strategy_table_Y1.txt" then Some table_wide
    else None
|}.

(** numpy's [float64] for the integer lists that need it: every entry is
    rounded to the nearest binary64 number. For integers of 64 bits that is
    the integer with the 53 leading bits of [x], rounded to even. *)
Definition as_float64 (l : list Z) (x : Z) : Z :=
  let bits := (Z.log2 (Z.abs x) + 1)%Z in
  if (bits <=? 53)%Z then x
  else
    let sh := (bits - 53)%Z in
    let q := Z.shiftr (Z.abs x) sh in
    let r := (Z.abs x - Z.shiftl q sh)%Z in
    let half := Z.shiftl 1 (sh - 1)%Z in
    let q' := if (half <? r)%Z || ((half =? r)%Z && Z.odd q)
              then (q + 1)%Z else q in
    (Z.sgn x * Z.shiftl q' sh)%Z.

(** The same grid and the areas of the script as exact rationals, the grid
    repeated for every year. *)
Definition grid_q : Np.array3 Q :=
  map (map (fun v => repeat v 4))
    [[10; 20; 30]; [40; 50; 60]; [70; 80; 90]]%Q.

(** The grid 10.0 ... 90.0 in every year, as a loaded array. *)
Definition grid_f : Np.array3 float :=
  map (map (fun v => repeat v 4))
    [[10; 20; 30]; [40; 50; 60]; [70; 80; 90]]%float.

Definition areas_q : list (list Q) :=
  [ [7500; 10000; 10000; 10000];
    [13000; 15000; 15000; 15000];
    [16000; 20000; 20000; 20000] ]%Q.

(** A conversion that leaves integers beyond [int64] as they are, as an
    array of dtype [object] does. *)
Definition exact_ints (l : list Z) (x : Z) : Z := x.

(** [x ** 1.0]. *)
Definition first_power (x c : float) : float := x.

(** Figures and printing that do not raise. *)
Definition no_figures (fake_area : bool) (year_ind : nat)
    (foms_prior foms_noprior : Np.array3 float) : option exn := None.

Definition quiet_ranking (fake_area : bool) (renorm_strategy : option string)
    (r : year_result) : option exn := None.

Definition table_files : list string :=
  ["./strategy_table_Y1.txt"; "./strategy_table_Y3.txt";
   "./strategy_table_Y6.txt"; "./strategy_table_Y10.txt"].

(** A working directory for the whole script: the grid files of [fs_nine]
    and the table [table_lines] for every year. *)
Definition fs_script : filesystem := {|
  glob := glob fs_nine;
  path_exists := fun path =>
    existsb (String.eqb path) table_files || path_exists fs_nine path;
  read_lines := fun path =>
    if existsb (String.eqb path) table_files then Some table_lines
    else read_lines fs_nine path
|}.

(** A (2, 5) argument of [area_depth_func]. *)
Definition area_depth_x : list (list float) :=
  [ [7500; 10000; 13000; 15000; 16000];
    [24.9; 25.2; 25.5; 25.8; 26.1] ]%float.

End Sample.

(** * Properties *)

(** ** The model on sample inputs *)

Example split_fields :
  Str.split "|" "|kraken_2026|a|18000.0|25.1|"
  = [""; "kraken_2026"; "a"; "18000.0"; "25.1"; ""].
Proof. reflexivity. Qed.

Example strip_blanks : Str.strip "  25.1 " = "25.1".
Proof. reflexivity. Qed.

Example year_tokens_nest :
  Str.contains "Y1" "Y10" = true /\ Str.contains "Y10" "Y1" = false.
Proof. split; reflexivity. Qed.

Example int_of_float_truncates :
  int_of_float 15.50727567502652%float = Ok 15%Z /\
  int_of_float (-2.75)%float = Ok (-2)%Z /\
  int_of_float 267.03468%float = Ok 267%Z.
Proof. repeat split; vm_compute; reflexivity. Qed.

Example areas_values :
  areas = [ [7500; 10000; 10000; 10000];
            [13000; 15000; 15000; 15000];
            [16000; 20000; 20000; 20000] ]%float.
Proof. vm_compute. reflexivity. Qed.

Example find_year_file_Y10 :
  find_year_file "FoM" "Y10" Sample.year_files = Ok "FoM/foms_Y10.txt".
Proof. reflexivity. Qed.

Example find_year_file_twice :
  find_year_file "FoM" "Y3" ["FoM/a_Y3.txt"; "FoM/b_Y3.txt"]
  = Raise (ValueError "Year Y3 found more than once in dir FoM!").
Proof. reflexivity. Qed.

Example find_year_file_both_tokens :
  find_year_file "FoM" "Y1" ["FoM/foms_Y1_Y10.txt"]
  = Raise (ValueError "Year Y1 not found in dir FoM!").
Proof. reflexivity. Qed.

Example load_strategy_table_sample :
  load_strategy_table Decimal.float_of_decimal Decimal.int_of_decimal
    Sample.exact_ints Sample.fs_table "Y1"
  = Ok (["baseline2018a"; "kraken_2026"; "my_strategy"],
        [18000; 15000; 14000]%float, [25.1; 26; 25.5]%float,
        [42; 15; 0]%Z).
Proof. vm_compute. reflexivity. Qed.

Example load_strategy_table_missing :
  load_strategy_table Decimal.float_of_decimal Decimal.int_of_decimal
    Sample.exact_ints Sample.fs_table "Y3"
  = Raise (ValueError "Cannot find file ./strategy_table_Y3.txt for year Y3!").
Proof. reflexivity. Qed.

Example load_strategy_table_unreadable :
  load_strategy_table Decimal.float_of_decimal Decimal.int_of_decimal
    Sample.exact_ints Sample.fs_table_locked "Y1"
  = Raise IOError.
Proof. reflexivity. Qed.

Example strip_unicode_spaces :
  Str.strip (Sample.nbsp ++ " kraken_2026" ++ Sample.ideographic_space
             ++ Sample.nbsp)
  = "kraken_2026".
Proof. reflexivity. Qed.

Example parse_row_no_break_space :
  parse_row Decimal.float_of_decimal Decimal.int_of_decimal 0
    ("| kraken_2026" ++ Sample.nbsp ++ "| a | 15000.0 | 26.0 |")
  = Ok ("kraken_2026", 15000%float, 26%float, 15%Z).
Proof. vm_compute. reflexivity. Qed.

Example load_strategy_table_wide :
  load_strategy_table Decimal.float_of_decimal Decimal.int_of_decimal
    Sample.as_float64 Sample.fs_table_wide "Y1"
  = Ok (["baseline2018a"; "kraken_2026"; "my_strategy"],
        [18000; 15000; 14000]%float, [25.1; 26; 25.5]%float,
        [5; 9223372036854775808; 0]%Z).
Proof. vm_compute. reflexivity. Qed.

(** ** The string operations *)

Lemma prefix_app (n h : string) :
  String.prefix n h = true <-> exists post, h = (n ++ post)%string.
Proof.
  revert h. induction n as [|c n IH]; intros h; simpl.
  - split; [intros _; now exists h | intros _; now destruct h].
  - destruct h as [|c' h]; [split; [discriminate | intros [? H]; discriminate]|].
    cbn [String.prefix]. destruct (Ascii.ascii_dec c c') as [e|Hne].
    + subst c'. rewrite IH. split; intros [post H]; exists post; congruence.
    + split; [discriminate | intros [? H]; congruence].
Qed.

(** [Str.contains] is Python's [in]: the needle occurs somewhere in the
    haystack. *)
Lemma contains_spec (n h : string) :
  Str.contains n h = true <->
  exists pre post, h = (pre ++ n ++ post)%string.
Proof.
  induction h as [|c h IH].
  - cbn [Str.contains]. rewrite orb_false_r, prefix_app. split.
    + intros [post H]. now exists EmptyString, post.
    + intros ([|? ?] & post & H); [now exists post | discriminate].
  - cbn [Str.contains]. rewrite orb_true_iff, prefix_app, IH. split.
    + intros [[post H] | (pre & post & H)].
      * now exists EmptyString, post.
      * exists (String c pre), post. simpl. now rewrite H.
    + intros ([|c' pre] & post & H).
      * left. now exists post.
      * right. exists pre, post. simpl in H. congruence.
Qed.

Lemma split_nonempty (sep : ascii) (s : string) : Str.split sep s <> [].
Proof.
  destruct s as [|c s]; [discriminate|]. cbn [Str.split].
  destruct (Ascii.eqb c sep); [discriminate|].
  destruct (Str.split sep s); discriminate.
Qed.

(** [Str.split] cuts at every separator and nowhere else: joining the pieces
    with the separator gives the string back, and no piece holds the
    separator. *)
Lemma split_join (sep : ascii) (s : string) :
  String.concat (String sep EmptyString) (Str.split sep s) = s.
Proof.
  induction s as [|c s IH]; [reflexivity|]. cbn [Str.split].
  pose proof (split_nonempty sep s) as Hne.
  destruct (Str.split sep s) as [|w ws]; [contradiction|].
  destruct (Ascii.eqb c sep) eqn:E.
  - apply Ascii.eqb_eq in E. subst c.
    cbn [String.concat]. cbn [String.concat] in IH. rewrite IH. reflexivity.
  - destruct ws as [|w' ws]; simpl in *; now rewrite IH.
Qed.

Lemma split_pieces (sep : ascii) (s : string) :
  Forall (fun w => Str.contains (String sep EmptyString) w = false)
    (Str.split sep s).
Proof.
  induction s as [|c s IH]; [repeat constructor|]. cbn [Str.split].
  destruct (Ascii.eqb c sep) eqn:E.
  - constructor; [reflexivity | exact IH].
  - pose proof (split_nonempty sep s) as Hne.
    destruct (Str.split sep s) as [|w ws]; [contradiction|].
    inversion IH as [|? ? Hw Hws]; subst.
    constructor; [|exact Hws]. cbn [Str.contains String.prefix].
    destruct (Ascii.ascii_dec sep c) as [->|_].
    + now rewrite Ascii.eqb_refl in E.
    + exact Hw.
Qed.

(** ** Arrays *)

Lemma update_inv {A : Type} (i : nat) (f : A -> result A) (l l' : list A) :
    Np.update i f l = Ok l' ->
    exists a a',
      nth_error l i = Some a /\ f a = Ok a' /\
      List.length l' = List.length l /\
      nth_error l' i = Some a' /\
      forall n, n <> i -> nth_error l' n = nth_error l n.
  Proof.
    revert i l'. induction l as [|x l IH]; intros [|i] l' H; simpl in H;
      try discriminate.
    - destruct (f x) as [x'|] eqn:Hf; simpl in H; [|discriminate].
      injection H as <-. exists x, x'. repeat split; auto.
      intros [|n] Hn; [congruence | reflexivity].
    - destruct (Np.update i f l) as [r|] eqn:Hu; simpl in H; [|discriminate].
      injection H as <-. destruct (IH _ _ Hu) as (a & a' & H1 & H2 & H3 & H4 & H5).
      exists a, a'. repeat split; simpl; auto.
      intros [|n] Hn; simpl; auto.
  Qed.

Lemma update_ok {A : Type} (i : nat) (f : A -> result A) (l : list A) (a a' : A) :
    nth_error l i = Some a -> f a = Ok a' -> exists l', Np.update i f l = Ok l'.
  Proof.
    revert i. induction l as [|x l IH]; intros [|i] H Hf; simpl in *;
      try discriminate.
    - injection H as ->. rewrite Hf. simpl. eauto.
    - destruct (IH _ H Hf) as [r ->]. simpl. eauto.
  Qed.

Lemma update_out_of_range {A : Type} (i : nat) (f : A -> result A) (l : list A) :
    List.length l <= i -> Np.update i f l = Raise IndexError.
  Proof.
    revert i. induction l as [|x l IH]; intros [|i] H; simpl in *;
      try reflexivity; try lia.
    rewrite IH by lia. reflexivity.
  Qed.

Lemma update_Forall {A : Type} (P : A -> Prop) (i : nat) (f : A -> result A)
      (l l' : list A) :
    Forall P l -> (forall a a', P a -> f a = Ok a' -> P a') ->
    Np.update i f l = Ok l' -> Forall P l'.
  Proof.
    intros HP Hf. revert i l'. induction HP as [|x l Hx HP IH];
      intros [|i] l' H; simpl in H; try discriminate.
    - destruct (f x) as [x'|] eqn:E; simpl in H; [|discriminate].
      injection H as <-. constructor; eauto.
    - destruct (Np.update i f l) as [r|] eqn:Hu; simpl in H; [|discriminate].
      injection H as <-. constructor; eauto.
  Qed.

Lemma nth_error_some_lt {A : Type} (l : list A) (i : nat) :
    i < List.length l -> exists a, nth_error l i = Some a.
  Proof.
    intros H. destruct (nth_error l i) eqn:E; eauto.
    apply nth_error_None in E. lia.
  Qed.

Lemma nth_of_nth_error {A : Type} (l l' : list A) (d : A) (n : nat) :
    nth_error l' n = nth_error l n -> nth n l' d = nth n l d.
  Proof.
    intros H. rewrite <- !nth_default_eq. unfold nth_default. now rewrite H.
  Qed.

Section ArrayFacts.
Context {A : Type}.
Variable z : A.

(** A store inside the shape succeeds, keeps the shape, and changes the
    addressed cell only. *)
Lemma set3_ok (n0 n1 n2 : nat) (a : Np.array3 A) (i j k : nat) (v : A) :
  Np.shaped n0 n1 n2 a -> i < n0 -> j < n1 -> k < n2 ->
  exists a',
    Np.set3 a i j k v = Ok a' /\ Np.shaped n0 n1 n2 a' /\
    Np.get3 z a' i j k = v /\
    forall i' j' k', (i' <> i \/ j' <> j \/ k' <> k) ->
      Np.get3 z a' i' j' k' = Np.get3 z a i' j' k'.
Proof.
  intros [Hlen Hrows] Hi Hj Hk.
  destruct (nth_error_some_lt a i) as [row Hrow]; [lia|].
  pose proof (proj1 (Forall_forall _ _) Hrows row (nth_error_In _ _ Hrow))
    as [Hrl Hcells].
  destruct (nth_error_some_lt row j) as [cell Hcell]; [lia|].
  pose proof (proj1 (Forall_forall _ _) Hcells cell (nth_error_In _ _ Hcell))
    as Hcl.
  simpl in Hcl.
  destruct (nth_error_some_lt cell k) as [x Hx]; [lia|].
  destruct (update_ok k (fun _ => Ok v) cell x v Hx eq_refl) as [cell' Hc'].
  destruct (update_ok j (Np.update k (fun _ => Ok v)) row cell cell' Hcell Hc')
    as [row' Hr'].
  destruct (update_ok i (Np.update j (Np.update k (fun _ => Ok v))) a row row'
              Hrow Hr') as [a' Ha'].
  exists a'. unfold Np.set3. split; [exact Ha'|].
  destruct (update_inv _ _ _ _ Ha') as (r0 & r0' & E1 & E2 & E3 & E4 & E5).
  rewrite Hrow in E1. injection E1 as <-. rewrite Hr' in E2.
  injection E2 as <-.
  destruct (update_inv _ _ _ _ Hr') as (c0 & c0' & F1 & F2 & F3 & F4 & F5).
  rewrite Hcell in F1. injection F1 as <-. rewrite Hc' in F2.
  injection F2 as <-.
  destruct (update_inv _ _ _ _ Hc') as (x0 & x0' & G1 & G2 & G3 & G4 & G5).
  injection G2 as <-.
  split; [|split].
  - split; [lia|].
    eapply update_Forall; [exact Hrows| |exact Ha'].
    intros r r' [Hr1 Hr2] Hu. split.
    + destruct (update_inv _ _ _ _ Hu) as (? & ? & _ & _ & L & _). lia.
    + eapply update_Forall; [exact Hr2| |exact Hu].
      intros c c' Hc Hu'. simpl in Hc.
      destruct (update_inv _ _ _ _ Hu') as (? & ? & _ & _ & L & _).
      simpl. lia.
  - unfold Np.get3.
    rewrite (nth_error_nth _ _ _ E4), (nth_error_nth _ _ _ F4).
    apply nth_error_nth. exact G4.
  - intros i' j' k' Hne. unfold Np.get3.
    destruct (Nat.eq_dec i' i) as [->|Hi'].
    + rewrite (nth_error_nth _ _ _ E4), (nth_error_nth _ _ _ Hrow).
      destruct (Nat.eq_dec j' j) as [->|Hj'].
      * rewrite (nth_error_nth _ _ _ F4), (nth_error_nth _ _ _ Hcell).
        apply nth_of_nth_error, G5. destruct Hne as [H|[H|H]]; congruence.
      * f_equal. apply nth_of_nth_error, F5. exact Hj'.
    + do 2 f_equal. apply nth_of_nth_error, E5. exact Hi'.
Qed.

(** A store whose first index is outside the first axis raises. *)
Lemma set3_out_of_range (a : Np.array3 A) (i j k : nat) (v : A) :
  List.length a <= i -> Np.set3 a i j k v = Raise IndexError.
Proof. intros H. unfold Np.set3. now apply update_out_of_range. Qed.

Lemma full3_shaped (n0 n1 n2 : nat) :
  Np.shaped n0 n1 n2 (Np.full3 n0 n1 n2 z).
Proof.
  unfold Np.shaped, Np.full3. split; [apply repeat_length|].
  apply Forall_forall. intros row Hrow. apply repeat_spec in Hrow. subst row.
  split; [apply repeat_length|].
  apply Forall_forall. intros c Hc. apply repeat_spec in Hc. subst c.
  apply repeat_length.
Qed.

Lemma full3_get (n0 n1 n2 i j k : nat) :
  Np.get3 z (Np.full3 n0 n1 n2 z) i j k = z.
Proof.
  unfold Np.get3, Np.full3.
  assert (R : forall (B : Type) (x d : B) m n, nth n (repeat x m) d = x \/
                                              nth n (repeat x m) d = d).
  { intros B x d m. induction m as [|m IH]; intros [|n]; simpl; auto. }
  destruct (R _ (repeat (repeat z n2) n1) [] n0 i) as [-> | ->].
  - destruct (R _ (repeat z n2) [] n1 j) as [-> | ->].
    + destruct (R _ z z n2 k) as [-> | ->]; reflexivity.
    + now destruct k.
  - destruct j; simpl; now destruct k.
Qed.

End ArrayFacts.

(** One store of a sequence of stores into a (3, 3, 4) array: name the array
    after it, its shape, the stored cell and the untouched cells. *)
Ltac step_set3 z S a' S' V K :=
  match goal with
  | |- context [Np.set3 ?a ?i ?j ?k ?v] =>
      let E := fresh "E" in
      destruct (set3_ok z 3 3 4 a i j k v S) as (a' & E & S' & V & K);
      [lia .. |]; rewrite E; clear E; cbn [bind]
  end.

(** ** The fake-area rescaling, for any number type *)

Section FakeAreaFacts.
Context {F : Type}.
Variable zero : F.
Variables mul div : F -> F -> F.
Variable areas_tab : list (list F).

(** The six rescaled cells are computed from the three diagonal cells,
    which no store touches; no other year is touched either. *)
Lemma fake_area_rescale_ok (a : Np.array3 F) (yi : nat) :
  Np.shaped 3 3 4 a -> yi < 4 ->
  let A r := get2 zero areas_tab r yi in
  let B i j := Np.get3 zero a i j yi in
  exists a',
    fake_area_rescale zero mul div areas_tab a yi = Ok a' /\
    Np.shaped 3 3 4 a' /\
    (forall i j k, k <> yi -> Np.get3 zero a' i j k = Np.get3 zero a i j k) /\
    (forall c, Np.get3 zero a' c c yi = B c c) /\
    Np.get3 zero a' 1 0 yi = div (mul (B 0 0) (A 1)) (A 0) /\
    Np.get3 zero a' 2 0 yi = div (mul (B 0 0) (A 2)) (A 0) /\
    Np.get3 zero a' 0 1 yi = div (mul (B 1 1) (A 0)) (A 1) /\
    Np.get3 zero a' 2 1 yi = div (mul (B 1 1) (A 2)) (A 1) /\
    Np.get3 zero a' 0 2 yi = div (mul (B 2 2) (A 0)) (A 2) /\
    Np.get3 zero a' 1 2 yi = div (mul (B 2 2) (A 1)) (A 2).
Proof.
  intros Hs Hy A B. unfold fake_area_rescale. cbv zeta.
  step_set3 zero Hs a1 S1 V1 K1.
  step_set3 zero S1 a2 S2 V2 K2.
  step_set3 zero S2 a3 S3 V3 K3.
  step_set3 zero S3 a4 S4 V4 K4.
  step_set3 zero S4 a5 S5 V5 K5.
  step_set3 zero S5 a6 S6 V6 K6.
  assert (K : forall i j k,
             (k <> yi \/ i = j) ->
             Np.get3 zero a6 i j k = Np.get3 zero a i j k).
  { intros i j k H.
    rewrite K6, K5, K4, K3, K2, K1 by (destruct H; lia). reflexivity. }
  exists a6. split; [reflexivity|]. split; [exact S6|].
  split; [intros; apply K; auto|].
  split; [intros; apply K; auto|].
  unfold B, A. repeat split.
  - rewrite K6, K5, K4, K3, K2 by lia. exact V1.
  - rewrite K6, K5, K4, K3 by lia. rewrite V2. now rewrite K1 by lia.
  - rewrite K6, K5, K4 by lia. rewrite V3. now rewrite K2, K1 by lia.
  - rewrite K6, K5 by lia. rewrite V4. now rewrite K3, K2, K1 by lia.
  - rewrite K6 by lia. rewrite V5. now rewrite K4, K3, K2, K1 by lia.
  - rewrite V6. now rewrite K5, K4, K3, K2, K1 by lia.
Qed.

End FakeAreaFacts.

(** ** The grid loader *)

Lemma for_each_cons_inv {A B : Type} (body : A -> result B) (x : A)
    (l : list A) (ys : list B) :
  Py.for_each body (x :: l) = Ok ys ->
  exists y ys', body x = Ok y /\ Py.for_each body l = Ok ys' /\ ys = y :: ys'.
Proof.
  simpl. destruct (body x) as [y|]; simpl; [|discriminate].
  destruct (Py.for_each body l) as [ys'|]; simpl; [|discriminate].
  intros H. injection H as <-. eauto.
Qed.

Lemma for_each_length {A B : Type} (body : A -> result B) (l : list A)
    (ys : list B) :
  Py.for_each body l = Ok ys -> List.length ys = List.length l.
Proof.
  revert ys. induction l as [|x l IH]; intros ys H.
  - injection H as <-. reflexivity.
  - apply for_each_cons_inv in H. destruct H as (y & ys' & _ & H & ->).
    simpl. f_equal. auto.
Qed.

Lemma index_year_vals (yi : nat) :
  yi < 4 -> Py.index year_vals (nth yi year_vals "") = Ok yi.
Proof.
  intros H. do 4 (destruct yi as [|yi]; [reflexivity|]). lia.
Qed.

Lemma slice_spec_ext (fake_area : bool) (vals : list float) (yi : nat)
    (b b' a a' : Np.array3 float) :
  (forall i j, Np.get3 0%float b' i j yi = Np.get3 0%float b i j yi) ->
  (forall i j, Np.get3 0%float a' i j yi = Np.get3 0%float a i j yi) ->
  slice_spec fake_area vals yi b a -> slice_spec fake_area vals yi b' a'.
Proof.
  intros Hb Ha. unfold slice_spec, filled. destruct fake_area.
  - rewrite !Ha, !Hb. auto.
  - intros H n Hn. rewrite Ha, Hb. auto.
Qed.

Section LoaderFacts.
Variable py_float : string -> option float.

Lemma fill_loop_filter (g : string) (yi : nat) (lines : list string)
    (a : Np.array3 float) (n : nat) :
  fill_loop py_float g yi lines a n =
  fill_loop py_float g yi (filter (Str.contains g) lines) a n.
Proof.
  revert a n. induction lines as [|l lines IH]; intros a n; [reflexivity|].
  cbn [fill_loop filter]. destruct (Str.contains g l) eqn:E.
  - cbn [fill_loop]. rewrite E.
    destruct (line_fom py_float l) as [v|]; [|reflexivity].
    cbn [bind]. destruct (Np.set3 a (n / 3) (n mod 3) yi v); cbn [bind]; auto.
  - apply IH.
Qed.

(** The loop on qualifying lines that all parse, when they fit. *)
Lemma fill_loop_fits (g : string) (yi : nat) (qlines : list string) :
  forall (vals : list float) (a : Np.array3 float) (n : nat),
    Forall (fun l => Str.contains g l = true) qlines ->
    Py.for_each (line_fom py_float) qlines = Ok vals ->
    Np.shaped 3 3 4 a -> yi < 4 -> n + List.length vals <= 9 ->
    exists a',
      fill_loop py_float g yi qlines a n = Ok (a', n + List.length vals) /\
      Np.shaped 3 3 4 a' /\
      (forall m, m < List.length vals ->
         Np.get3 0%float a' ((n + m) / 3) ((n + m) mod 3) yi
         = nth m vals 0%float) /\
      (forall i j k,
         (k <> yi \/ 3 <= j \/ 3 * i + j < n
          \/ n + List.length vals <= 3 * i + j) ->
         Np.get3 0%float a' i j k = Np.get3 0%float a i j k).
Proof.
  induction qlines as [|l qlines IH]; intros vals a n Hq Hv Hs Hy Hn.
  - injection Hv as <-. exists a. cbn [fill_loop List.length].
    rewrite Nat.add_0_r. split; [reflexivity|]. split; [exact Hs|].
    split; [intros m Hm; lia | reflexivity].
  - apply for_each_cons_inv in Hv. destruct Hv as (v & vs & Hl & Hvs & ->).
    inversion Hq as [|? ? Hc Hq']; subst. simpl in Hn. cbn [fill_loop].
    rewrite Hc, Hl. cbn [bind].
    assert (Hdiv : n / 3 < 3) by (apply Nat.Div0.div_lt_upper_bound; lia).
    assert (Hmod : n mod 3 < 3) by (apply Nat.mod_upper_bound; lia).
    destruct (set3_ok 0%float 3 3 4 a (n / 3) (n mod 3) yi v Hs Hdiv Hmod Hy)
      as (a1 & -> & S1 & V1 & K1). cbn [bind].
    destruct (IH vs a1 (n + 1) Hq' Hvs S1 Hy) as (a' & E & S' & V' & K');
      [lia|].
    exists a'. rewrite E. simpl List.length.
    replace (n + 1 + List.length vs) with (n + S (List.length vs)) by lia.
    split; [reflexivity|]. split; [exact S'|]. split.
    + intros [|m] Hm.
      * rewrite Nat.add_0_r. simpl nth. rewrite K'; [exact V1|].
        right. right. left.
        pose proof (Nat.div_mod_eq n 3). lia.
      * replace (n + S m) with (n + 1 + m) by lia. simpl nth.
        apply V'. simpl in Hm. lia.
    + intros i j k H. rewrite K' by lia. apply K1.
      destruct (Nat.eq_dec k yi) as [->|]; [|auto].
      destruct (Nat.eq_dec i (n / 3)) as [->|]; [|auto].
      destruct (Nat.eq_dec j (n mod 3)) as [->|]; [|auto].
      pose proof (Nat.div_mod_eq n 3). lia.
Qed.

(** A tenth qualifying line is stored at row 3 of the (3, 3, 4) array,
    which numpy refuses. *)
Lemma fill_loop_overflows (g : string) (yi : nat) (qlines : list string) :
  forall (vals : list float) (a : Np.array3 float) (n : nat),
    Forall (fun l => Str.contains g l = true) qlines ->
    Py.for_each (line_fom py_float) qlines = Ok vals ->
    Np.shaped 3 3 4 a -> yi < 4 -> n <= 9 -> 9 < n + List.length vals ->
    fill_loop py_float g yi qlines a n = Raise IndexError.
Proof.
  induction qlines as [|l qlines IH]; intros vals a n Hq Hv Hs Hy Hn Hlen.
  - injection Hv as <-. simpl in Hlen. lia.
  - apply for_each_cons_inv in Hv. destruct Hv as (v & vs & Hl & Hvs & ->).
    inversion Hq as [|? ? Hc Hq']; subst. simpl in Hlen. cbn [fill_loop].
    rewrite Hc, Hl. cbn [bind].
    destruct (Nat.eq_dec n 9) as [->|Hne].
    + rewrite set3_out_of_range; [reflexivity|].
      destruct Hs as [-> _]. reflexivity.
    + assert (Hdiv : n / 3 < 3) by (apply Nat.Div0.div_lt_upper_bound; lia).
      assert (Hmod : n mod 3 < 3) by (apply Nat.mod_upper_bound; lia).
      destruct (set3_ok 0%float 3 3 4 a (n / 3) (n mod 3) yi v Hs Hdiv Hmod Hy)
        as (a1 & -> & S1 & V1 & K1). cbn [bind].
      apply (IH vs); auto; lia.
Qed.

End LoaderFacts.

Section LoadFacts.
Variable py_float : string -> option float.
Variable fs : filesystem.
Variable dir : string.
Variable prior : bool.

Local Abbreviation file_list := (glob fs (path_join dir "*")).

Lemma year_values_inv (yi : nat) (vals : list float) :
  year_values py_float fs dir prior (year_token yi) = Ok vals ->
  exists my_file lines,
    find_year_file dir (year_token yi) file_list = Ok my_file /\
    open_lines fs my_file = Ok lines /\
    Py.for_each (line_fom py_float)
      (filter (Str.contains (if prior then "incl" else "excl")) lines)
    = Ok vals.
Proof.
  unfold year_values. fold file_list.
  destruct (find_year_file dir (year_token yi) file_list) as [f|]; [|discriminate].
  cbn [bind]. destruct (open_lines fs f) as [ls|] eqn:Ho; [|discriminate].
  cbn [bind]. intros H. exists f, ls. auto.
Qed.

Lemma filter_all {A : Type} (p : A -> bool) (l : list A) :
  Forall (fun x => p x = true) (filter p l).
Proof. apply Forall_forall. intros x Hx. now apply filter_In in Hx. Qed.

(** One year's load when the file has at most nine qualifying lines. *)
Lemma load_year_ok (fake : bool) (a : Np.array3 float) (yi : nat)
    (vals : list float) :
  Np.shaped 3 3 4 a -> yi < 4 ->
  year_values py_float fs dir prior (year_token yi) = Ok vals ->
  List.length vals <= 9 ->
  exists a',
    load_year py_float fs dir prior fake file_list a (year_token yi) = Ok a' /\
    Np.shaped 3 3 4 a' /\
    (forall i j k, k <> yi -> Np.get3 0%float a' i j k = Np.get3 0%float a i j k) /\
    slice_spec fake vals yi a a'.
Proof.
  intros Hs Hy Hv Hlen.
  destruct (year_values_inv _ _ Hv) as (f & ls & Hf & Ho & Hvals).
  unfold load_year. rewrite Hf. cbn [bind]. rewrite Ho. cbn [bind].
  unfold year_token. rewrite index_year_vals by exact Hy. cbn [bind].
  rewrite fill_loop_filter.
  destruct (fill_loop_fits py_float _ yi _ vals a 0 (filter_all _ _) Hvals Hs Hy)
    as (a1 & -> & S1 & V1 & K1); [simpl; lia|]. cbn [bind].
  assert (Fill : forall n, n < 9 ->
            Np.get3 0%float a1 (n / 3) (n mod 3) yi = filled vals a yi n).
  { intros n Hn. unfold filled. destruct (n <? List.length vals) eqn:E.
    - apply Nat.ltb_lt in E. apply (V1 n E).
    - apply Nat.ltb_ge in E. apply K1.
      pose proof (Nat.div_mod_eq n 3). lia. }
  destruct fake.
  - destruct (fake_area_rescale_ok 0%float PrimFloat.mul PrimFloat.div areas
                a1 yi S1 Hy)
      as (a2 & -> & S2 & K2 & D & R1 & R2 & R3 & R4 & R5 & R6).
    exists a2. split; [reflexivity|]. split; [exact S2|]. split.
    + intros i j k Hk. rewrite K2 by exact Hk. apply K1. auto.
    + unfold slice_spec, rescaled. rewrite !D.
      pose proof (Fill 0) as F0. pose proof (Fill 4) as F4.
      pose proof (Fill 8) as F8. simpl in F0, F4, F8.
      rewrite <- F0, <- F4, <- F8 by lia.
      repeat split; assumption.
  - exists a1. split; [reflexivity|]. split; [exact S1|]. split.
    + intros i j k Hk. apply K1. auto.
    + unfold slice_spec. exact Fill.
Qed.

(** One year's load when the file has more than nine qualifying lines. *)
Lemma load_year_overflows (fake : bool) (a : Np.array3 float) (yi : nat)
    (vals : list float) :
  Np.shaped 3 3 4 a -> yi < 4 ->
  year_values py_float fs dir prior (year_token yi) = Ok vals ->
  9 < List.length vals ->
  load_year py_float fs dir prior fake file_list a (year_token yi)
  = Raise IndexError.
Proof.
  intros Hs Hy Hv Hlen.
  destruct (year_values_inv _ _ Hv) as (f & ls & Hf & Ho & Hvals).
  unfold load_year. rewrite Hf. cbn [bind]. rewrite Ho. cbn [bind].
  unfold year_token. rewrite index_year_vals by exact Hy. cbn [bind].
  rewrite fill_loop_filter.
  rewrite (fill_loop_overflows py_float _ yi _ vals a 0 (filter_all _ _) Hvals)
    by (auto; simpl; lia).
  reflexivity.
Qed.

Variable vals : nat -> list float.

Local Abbreviation fits := (year_fits py_float fs dir prior vals).

Lemma load_years_ok (fake : bool) (ys : list nat) :
  forall a : Np.array3 float,
    NoDup ys -> Forall fits ys -> Np.shaped 3 3 4 a ->
    exists a',
      load_years py_float fs dir prior fake file_list a (map year_token ys) = Ok a' /\
      Np.shaped 3 3 4 a' /\
      (forall i j k, ~ In k ys ->
         Np.get3 0%float a' i j k = Np.get3 0%float a i j k) /\
      Forall (fun yi => slice_spec fake (vals yi) yi a a') ys.
Proof.
  induction ys as [|yi ys IH]; intros a Hnd Hfit Hs.
  - exists a. cbn [map load_years].
    split; [reflexivity|]. split; [exact Hs|]. split; [reflexivity|constructor].
  - inversion Hnd as [|? ? Hni Hnd']; subst.
    inversion Hfit as [|? ? (Hy & Hv & Hl) Hfit']; subst.
    destruct (load_year_ok fake a yi (vals yi) Hs Hy Hv Hl)
      as (a1 & E1 & S1 & K1 & P1).
    destruct (IH a1 Hnd' Hfit' S1) as (a2 & E2 & S2 & K2 & P2).
    exists a2. cbn [map load_years]. rewrite E1. cbn [bind].
    split; [exact E2|]. split; [exact S2|]. split.
    + intros i j k Hk. rewrite K2 by (intros H; apply Hk; now right).
      apply K1. intros ->. apply Hk. now left.
    + constructor.
      * eapply slice_spec_ext; [| |exact P1]; [reflexivity|].
        intros i j. apply K2. exact Hni.
      * apply Forall_forall. intros y Hy'.
        pose proof (proj1 (Forall_forall _ _) P2 y Hy') as P2y.
        eapply slice_spec_ext; [| |exact P2y]; [|reflexivity].
        intros i j. symmetry. apply K1. intros ->. contradiction.
Qed.

Lemma load_years_overflows (fake : bool) (ys : list nat) :
  forall (a : Np.array3 float) (yi : nat) (rest : list nat),
    NoDup ys -> Forall fits ys -> Np.shaped 3 3 4 a ->
    yi < 4 ->
    year_values py_float fs dir prior (year_token yi) = Ok (vals yi) ->
    9 < List.length (vals yi) ->
    load_years py_float fs dir prior fake file_list a
      (map year_token (ys ++ yi :: rest))
    = Raise IndexError.
Proof.
  intros a yi rest Hnd Hfit Hs Hy Hv Hl.
  destruct (load_years_ok fake ys a Hnd Hfit Hs) as (a1 & E1 & S1 & _).
  revert a E1 Hs. clear Hnd.
  induction ys as [|y ys IH]; intros a E1 Hs.
  - injection E1 as <-. cbn [app map load_years].
    rewrite (load_year_overflows fake a yi (vals yi)) by assumption.
    reflexivity.
  - inversion Hfit as [|? ? (Hy' & Hv' & Hl') Hfit']; subst.
    cbn [app map load_years] in *.
    destruct (load_year_ok fake a y (vals y) Hs Hy' Hv' Hl')
      as (a2 & E2 & S2 & _).
    rewrite E2 in *. cbn [bind] in *. apply IH; assumption.
Qed.

Lemma NoDup_years : NoDup [0; 1; 2; 3].
Proof.
  repeat constructor; simpl; intuition discriminate.
Qed.

(** The whole load when every year's file has at most nine qualifying
    lines: slice by slice, from the zero array. *)
Lemma load_foms_ok (fake : bool) :
  (forall yi, yi < 4 -> fits yi) ->
  exists arr,
    load_foms py_float fs dir prior fake = Ok arr /\
    Np.shaped 3 3 4 arr /\
    forall yi, yi < 4 ->
      slice_spec fake (vals yi) yi (Np.full3 3 3 4 0%float) arr.
Proof.
  intros Hfit.
  change (load_foms py_float fs dir prior fake)
    with (load_years py_float fs dir prior fake file_list
            (Np.full3 3 3 4 0%float) (map year_token [0; 1; 2; 3])).
  destruct (load_years_ok fake [0; 1; 2; 3] (Np.full3 3 3 4 0%float))
    as (arr & E & S & _ & P).
  - exact NoDup_years.
  - repeat (apply Forall_cons; [apply Hfit; lia|]). apply Forall_nil.
  - apply full3_shaped.
  - exists arr. split; [exact E|]. split; [exact S|].
    intros yi Hy. rewrite Forall_forall in P. apply P.
    do 4 (destruct yi as [|yi]; [simpl; auto|]). lia.
Qed.

End LoadFacts.

Lemma slice2_shaped {A : Type} (z : A) (n2 : nat) (a : Np.array3 A) (k : nat) :
  Np.shaped 3 3 n2 a ->
  Np.slice2 z a k =
  [ [Np.get3 z a 0 0 k; Np.get3 z a 0 1 k; Np.get3 z a 0 2 k];
    [Np.get3 z a 1 0 k; Np.get3 z a 1 1 k; Np.get3 z a 1 2 k];
    [Np.get3 z a 2 0 k; Np.get3 z a 2 1 k; Np.get3 z a 2 2 k] ].
Proof.
  intros [Hl Hr].
  destruct a as [|r0 [|r1 [|r2 [|? ?]]]]; try discriminate.
  inversion Hr as [|? ? [L0 _] Hr1]; subst.
  inversion Hr1 as [|? ? [L1 _] Hr2]; subst.
  inversion Hr2 as [|? ? [L2 _] _]; subst.
  destruct r0 as [|? [|? [|? [|? ?]]]]; try discriminate.
  destruct r1 as [|? [|? [|? [|? ?]]]]; try discriminate.
  destruct r2 as [|? [|? [|? [|? ?]]]]; try discriminate.
  reflexivity.
Qed.

(** C2. For a grid file that holds exactly nine qualifying lines for the
    requested prior mode, each with a float after its first [=], the loop of
    [load_foms] stores the float parsed on the n-th qualifying line in cell
    (n // 3, n % 3) of the year's slice. With such a file for every year
    (and without the fake-area rescaling, which overwrites six cells)
    [load_foms] returns an array holding these values; the values 10.0,
    20.0, ..., 90.0 give the matrix [[10,20,30],[40,50,60],[70,80,90]]. *)
Theorem load_foms_row_major
    (py_float : string -> option float) (fs : filesystem) (dir : string)
    (prior : bool) (vals : nat -> list float) :
  (forall (lines : list string) (fom_arr : Np.array3 float) (yi : nat)
          (row : list float),
     Np.shaped 3 3 4 fom_arr -> yi < 4 ->
     Py.for_each (line_fom py_float)
       (filter (Str.contains (if prior then "incl" else "excl")) lines)
     = Ok row ->
     List.length row = 9 ->
     exists fom_arr',
       fill_loop py_float (if prior then "incl" else "excl") yi lines fom_arr 0
       = Ok (fom_arr', 9) /\
       forall n, n < 9 ->
         Np.get3 0%float fom_arr' (n / 3) (n mod 3) yi = nth n row 0%float) /\
  ((forall yi, yi < 4 ->
      year_values py_float fs dir prior (nth yi year_vals "") = Ok (vals yi) /\
      List.length (vals yi) = 9) ->
   exists arr,
     load_foms py_float fs dir prior false = Ok arr /\
     forall yi, yi < 4 ->
       (forall n, n < 9 ->
          Np.get3 0%float arr (n / 3) (n mod 3) yi = nth n (vals yi) 0%float) /\
       (vals yi = Sample.ten_to_ninety ->
          Np.slice2 0%float arr yi
          = [[10; 20; 30]; [40; 50; 60]; [70; 80; 90]]%float)).
Proof.
  split.
  - intros lines fom_arr yi row Hs Hy Hrow Hlen.
    rewrite fill_loop_filter.
    destruct (fill_loop_fits py_float _ yi _ row fom_arr 0
                (filter_all _ _) Hrow Hs Hy) as (a' & E & _ & V & _);
      [simpl; lia|].
    exists a'. rewrite Hlen in E. split; [exact E|].
    intros n Hn. apply (V n). lia.
  - intros H.
    destruct (load_foms_ok py_float fs dir prior vals false)
      as (arr & E & S & P).
    { intros yi Hy. destruct (H yi Hy) as [Hv Hl]. repeat split; auto. lia. }
    exists arr. split; [exact E|]. intros yi Hy.
    specialize (P yi Hy). unfold slice_spec in P. cbv zeta in P.
    destruct (H yi Hy) as [_ Hl].
    assert (Cells : forall n, n < 9 ->
              Np.get3 0%float arr (n / 3) (n mod 3) yi
              = nth n (vals yi) 0%float).
    { intros n Hn. rewrite (P n Hn). unfold filled. rewrite Hl.
      apply Nat.ltb_lt in Hn. now rewrite Hn. }
    split; [exact Cells|].
    intros Hv. rewrite (slice2_shaped _ _ _ _ S).
    pose proof (Cells 0) as C0. pose proof (Cells 1) as C1.
    pose proof (Cells 2) as C2. pose proof (Cells 3) as C3.
    pose proof (Cells 4) as C4. pose proof (Cells 5) as C5.
    pose proof (Cells 6) as C6. pose proof (Cells 7) as C7.
    pose proof (Cells 8) as C8.
    rewrite Hv in *. simpl in C0, C1, C2, C3, C4, C5, C6, C7, C8.
    rewrite C0, C1, C2, C3, C4, C5, C6, C7, C8 by lia. reflexivity.
Qed.

Lemma load_foms_row_major_witness :
  exists arr,
    load_foms Decimal.float_of_decimal Sample.fs_nine "FoM" false false
    = Ok arr /\
    forall yi, yi < 4 ->
      (forall n, n < 9 ->
         Np.get3 0%float arr (n / 3) (n mod 3) yi
         = nth n Sample.ten_to_ninety 0%float) /\
      (Sample.ten_to_ninety = Sample.ten_to_ninety ->
         Np.slice2 0%float arr yi
         = [[10; 20; 30]; [40; 50; 60]; [70; 80; 90]]%float).
Proof.
  apply (proj2 (load_foms_row_major Decimal.float_of_decimal Sample.fs_nine
                  "FoM" false (fun _ => Sample.ten_to_ninety))).
  intros yi Hy.
  do 4 (destruct yi as [|yi]; [split; vm_compute; reflexivity|]).
  lia.
Defined.

Lemma year_vals_split (yi : nat) :
  yi < 4 ->
  year_vals
  = map (fun y => nth y year_vals "") (seq 0 yi ++ yi :: seq (S yi) (3 - yi)).
Proof.
  intros H. do 4 (destruct yi as [|yi]; [reflexivity|]). lia.
Qed.

(** C9 (amended). The number of qualifying lines is not validated. With at
    most nine per file the load succeeds and the cells past the last
    qualifying line keep the 0.0 of [np.zeros]; with more than nine in the
    file of some year (the earlier years loading), the store of the tenth is
    out of bounds for the (3, 3, 4) array and [load_foms] raises
    [IndexError]. *)
Theorem load_foms_line_count
    (py_float : string -> option float) (fs : filesystem) (dir : string)
    (prior : bool) (vals : nat -> list float) :
  ((forall yi, yi < 4 -> year_fits py_float fs dir prior vals yi) ->
   exists arr,
     load_foms py_float fs dir prior false = Ok arr /\
     forall yi n, yi < 4 -> n < 9 ->
       Np.get3 0%float arr (n / 3) (n mod 3) yi
       = if n <? List.length (vals yi) then nth n (vals yi) 0%float
         else 0%float) /\
  (forall fake yi,
     yi < 4 ->
     (forall y, y < yi -> year_fits py_float fs dir prior vals y) ->
     year_values py_float fs dir prior (nth yi year_vals "") = Ok (vals yi) ->
     9 < List.length (vals yi) ->
     load_foms py_float fs dir prior fake = Raise IndexError).
Proof.
  split.
  - intros H.
    destruct (load_foms_ok py_float fs dir prior vals false H)
      as (arr & E & S & P).
    exists arr. split; [exact E|]. intros yi n Hy Hn.
    specialize (P yi Hy). unfold slice_spec in P. cbv zeta in P.
    rewrite (P n Hn). unfold filled. now rewrite full3_get.
  - intros fake yi Hy Hbefore Hv Hl.
    change (load_foms py_float fs dir prior fake)
      with (load_years py_float fs dir prior fake (glob fs (path_join dir "*"))
              (Np.full3 3 3 4 0%float) year_vals).
    rewrite (year_vals_split yi Hy).
    apply (load_years_overflows py_float fs dir prior vals); auto.
    + apply seq_NoDup.
    + apply Forall_forall. intros y Hin. apply in_seq in Hin.
      apply Hbefore. lia.
    + apply full3_shaped.
Qed.

Lemma load_foms_line_count_witness :
  (exists arr,
     load_foms Decimal.float_of_decimal Sample.fs_four "FoM" false false = Ok arr /\
     forall yi n, yi < 4 -> n < 9 ->
       Np.get3 0%float arr (n / 3) (n mod 3) yi
       = if n <? 4 then nth n [10; 20; 30; 40]%float 0%float else 0%float) /\
  load_foms Decimal.float_of_decimal Sample.fs_ten "FoM" false true
  = Raise IndexError.
Proof.
  split.
  - apply (proj1 (load_foms_line_count Decimal.float_of_decimal Sample.fs_four
                    "FoM" false (fun _ => [10; 20; 30; 40]%float))).
    intros yi Hy.
    do 4 (destruct yi as [|yi];
          [split; [lia | split; [vm_compute; reflexivity | simpl; lia]]|]).
    lia.
  - apply (proj2 (load_foms_line_count Decimal.float_of_decimal Sample.fs_ten
                    "FoM" false
                    (fun _ => Sample.ten_to_ninety ++ [100%float]))
             true 0).
    + lia.
    + intros y Hy. lia.
    + vm_compute. reflexivity.
    + simpl. lia.
Defined.

(** C9, as stated, fails: a grid file with ten qualifying lines makes
    [load_foms] raise. *)
Lemma load_foms_ten_lines_raises :
  (exists vals,
     year_values Decimal.float_of_decimal Sample.fs_ten "FoM" false "Y1" = Ok vals
     /\ List.length vals = 10) /\
  load_foms Decimal.float_of_decimal Sample.fs_ten "FoM" false false
  = Raise IndexError.
Proof.
  split.
  - eexists. split; vm_compute; reflexivity.
  - vm_compute. reflexivity.
Qed.

(** C4 (amended). In fake-area mode, for every year, [load_foms] leaves the
    diagonal cells as read from the file and makes every rescaled cell the
    binary64 value of [diag * areas[i,year] / areas[j,year]], evaluated left
    to right from the diagonal cell of its column. The quotient identities
    [grid[i,c] / grid[c,c] == areas[i,year] / areas[c,year]] hold exactly when
    the same six statements are evaluated over exact rationals with nonzero
    diagonal cells and areas. *)
Theorem fake_area_identities :
  (forall (py_float : string -> option float) (fs : filesystem) (dir : string)
          (prior : bool) (vals : nat -> list float),
     (forall yi, yi < 4 -> year_fits py_float fs dir prior vals yi) ->
     exists arr,
       load_foms py_float fs dir prior true = Ok arr /\
       forall yi, yi < 4 ->
         let G i j := Np.get3 0%float arr i j yi in
         let A r := get2 0%float areas r yi in
         let file n := if n <? List.length (vals yi)
                       then nth n (vals yi) 0%float else 0%float in
         (G 0 0 = file 0 /\ G 1 1 = file 4 /\ G 2 2 = file 8) /\
         G 1 0 = rescaled (G 0 0) (A 1) (A 0) /\
         G 2 0 = rescaled (G 0 0) (A 2) (A 0) /\
         G 0 1 = rescaled (G 1 1) (A 0) (A 1) /\
         G 2 1 = rescaled (G 1 1) (A 2) (A 1) /\
         G 0 2 = rescaled (G 2 2) (A 0) (A 2) /\
         G 1 2 = rescaled (G 2 2) (A 1) (A 2)) /\
  (forall (areas_q : list (list Q)) (a : Np.array3 Q) (yi : nat),
     Np.shaped 3 3 4 a -> yi < 4 ->
     (forall c, c < 3 -> ~ (Np.get3 0%Q a c c yi == 0)%Q) ->
     (forall r, r < 3 -> ~ (get2 0%Q areas_q r yi == 0)%Q) ->
     exists a',
       fake_area_rescale 0%Q Qmult Qdiv areas_q a yi = Ok a' /\
       let G i j := Np.get3 0%Q a' i j yi in
       let A r := get2 0%Q areas_q r yi in
       same_ratio (G 1 0) (G 0 0) (A 1) (A 0) /\
       same_ratio (G 2 0) (G 0 0) (A 2) (A 0) /\
       same_ratio (G 0 1) (G 1 1) (A 0) (A 1) /\
       same_ratio (G 2 1) (G 1 1) (A 2) (A 1) /\
       same_ratio (G 0 2) (G 2 2) (A 0) (A 2) /\
       same_ratio (G 1 2) (G 2 2) (A 1) (A 2)).
Proof.
  split.
  - intros py_float fs dir prior vals H.
    destruct (load_foms_ok py_float fs dir prior vals true H)
      as (arr & E & S & P).
    exists arr. split; [exact E|]. intros yi Hy.
    specialize (P yi Hy). unfold slice_spec, filled in P. cbv zeta in P.
    rewrite !full3_get in P. cbv zeta.
    destruct P as (D0 & D1 & D2 & R). auto.
  - intros areas_q a yi Hs Hy Hd Ha.
    destruct (fake_area_rescale_ok 0%Q Qmult Qdiv areas_q a yi Hs Hy)
      as (a' & E & _ & _ & D & R1 & R2 & R3 & R4 & R5 & R6).
    exists a'. split; [exact E|]. cbv zeta. unfold same_ratio.
    rewrite R1, R2, R3, R4, R5, R6, !D.
    pose proof (Hd 0) as d0. pose proof (Hd 1) as d1. pose proof (Hd 2) as d2.
    pose proof (Ha 0) as a0. pose proof (Ha 1) as a1. pose proof (Ha 2) as a2.
    repeat split; field; split; auto.
Qed.

(** On the grid 10.0 ... 90.0 in year Y1, in binary64 and over the
    rationals. *)
Lemma fake_area_identities_witness :
  (exists arr,
     load_foms Decimal.float_of_decimal Sample.fs_nine "FoM" false true = Ok arr /\
     Np.get3 0%float arr 1 0 0
     = rescaled (Np.get3 0%float arr 0 0 0) 13000 7500) /\
  (exists a',
     fake_area_rescale 0%Q Qmult Qdiv Sample.areas_q Sample.grid_q 0 = Ok a' /\
     same_ratio (Np.get3 0%Q a' 1 0 0) (Np.get3 0%Q a' 0 0 0) 13000 7500).
Proof.
  split.
  - destruct (proj1 fake_area_identities Decimal.float_of_decimal Sample.fs_nine
                "FoM" false (fun _ => Sample.ten_to_ninety))
      as (arr & E & P).
    + intros yi Hy.
      do 4 (destruct yi as [|yi];
            [split; [lia | split; [vm_compute; reflexivity | simpl; lia]]|]).
      lia.
    + exists arr. split; [exact E|].
      destruct (P 0) as (_ & R & _); [lia|]. exact R.
  - destruct (proj2 fake_area_identities Sample.areas_q Sample.grid_q 0)
      as (a' & E & R & _).
    + vm_compute. repeat constructor.
    + lia.
    + intros c Hc. do 3 (destruct c as [|c]; [vm_compute; discriminate|]). lia.
    + intros r Hr. do 3 (destruct r as [|r]; [vm_compute; discriminate|]). lia.
    + exists a'. split; [exact E|]. exact R.
Defined.

(** C4, as stated, fails in binary64: for the grid 10.0 ... 90.0 and year Y1
    the diagonal cells are nonzero and [grid[1,0] / grid[0,0]] differs from
    [areas[1,0] / areas[0,0]]. *)
Lemma fake_area_quotient_inexact :
  exists arr,
    load_foms Decimal.float_of_decimal Sample.fs_nine "FoM" false true = Ok arr /\
    let G i j := Np.get3 0%float arr i j 0 in
    let A r := get2 0%float areas r 0 in
    PrimFloat.eqb (G 0 0) 0%float = false /\
    PrimFloat.eqb (G 1 1) 0%float = false /\
    PrimFloat.eqb (G 2 2) 0%float = false /\
    PrimFloat.eqb (PrimFloat.div (G 1 0) (G 0 0))
                  (PrimFloat.div (A 1) (A 0)) = false.
Proof.
  eexists. split; [vm_compute; reflexivity|].
  vm_compute. repeat split.
Qed.

(** ** The choice of a file for a year *)

Lemma flag_loop (c d : string -> bool) (l : list string) (acc : bool) :
  fold_left (fun found t => if c t then if d t then true else found else found)
    l acc
  = acc || existsb (fun t => c t && d t) l.
Proof.
  revert acc. induction l as [|t l IH]; intros acc; simpl.
  - now rewrite orb_false_r.
  - rewrite IH. destruct (c t), (d t), acc; reflexivity.
Qed.

Lemma other_found_false (year_str file_name other : string) :
  other_found year_str file_name = false ->
  In other year_vals -> other <> year_str ->
  Str.contains other year_str = false ->
  Str.contains other file_name = false.
Proof.
  unfold other_found.
  rewrite (flag_loop
             (fun t => negb (String.eqb t year_str)
                       && negb (Str.contains t year_str))
             (fun t => Str.contains t file_name)).
  cbn [orb]. intros H Hin Hne Hsub.
  destruct (Str.contains other file_name) eqn:E; [|reflexivity].
  assert (X : existsb
                (fun t => negb (String.eqb t year_str)
                          && negb (Str.contains t year_str)
                          && Str.contains t file_name) year_vals = true).
  { apply existsb_exists. exists other. split; [exact Hin|].
    apply String.eqb_neq in Hne. now rewrite Hne, Hsub, E. }
  congruence.
Qed.

(** The scan keeps a candidate that passed both tests, if any. *)
Lemma find_file_loop_sound (dir year_str : string) (file_list : list string) :
  forall (acc : option string) (my_file : string) (P : string -> Prop),
    (forall f, In f file_list -> Str.contains year_str f = true ->
               other_found year_str f = false -> P f) ->
    (forall f, acc = Some f -> P f) ->
    find_file_loop dir year_str file_list acc = Ok (Some my_file) ->
    P my_file.
Proof.
  induction file_list as [|f rest IH]; intros acc my_file P Hall Hacc H.
  - simpl in H. injection H as ->. now apply Hacc.
  - simpl in H.
    assert (Hrest : forall g, In g rest -> Str.contains year_str g = true ->
                              other_found year_str g = false -> P g)
      by (intros g Hg; apply Hall; now right).
    destruct (Str.contains year_str f) eqn:Ec; [|eapply IH; eauto].
    destruct (other_found year_str f) eqn:Eo; simpl in H; [eapply IH; eauto|].
    destruct acc as [found|].
    + destruct (String.eqb found f); simpl in H; [|discriminate].
      eapply IH; eauto.
    + eapply IH; [exact Hrest| |exact H].
      intros g Hg. injection Hg as <-. apply Hall; auto. now left.
Qed.

(** C5. For every directory listing, the file [load_foms] selects for a year
    is a file of the listing whose name holds that year's token and no
    other year token, except a token that is itself part of the requested
    one; in particular a name holding "Y10" is never selected for "Y1". *)
Theorem find_year_file_excludes_other_years
    (dir year_str : string) (file_list : list string) (my_file : string) :
  find_year_file dir year_str file_list = Ok my_file ->
  In my_file file_list /\
  Str.contains year_str my_file = true /\
  (forall other,
     In other year_vals -> other <> year_str ->
     Str.contains other year_str = false ->
     Str.contains other my_file = false) /\
  (year_str = "Y1" -> Str.contains "Y10" my_file = false).
Proof.
  unfold find_year_file. intros H.
  destruct (find_file_loop dir year_str file_list None) as [[f|]|] eqn:E;
    simpl in H; try discriminate.
  injection H as ->.
  assert (K : In my_file file_list /\ Str.contains year_str my_file = true
              /\ other_found year_str my_file = false).
  { apply (find_file_loop_sound dir year_str file_list None my_file
             (fun f => In f file_list /\ Str.contains year_str f = true
                       /\ other_found year_str f = false)); auto.
    discriminate. }
  destruct K as (K1 & K2 & K3).
  split; [exact K1|]. split; [exact K2|]. split.
  - intros other. now apply other_found_false.
  - intros ->. apply (other_found_false "Y1" my_file "Y10" K3).
    + simpl. auto.
    + discriminate.
    + reflexivity.
Qed.

Lemma find_year_file_excludes_other_years_witness :
  In "FoM/foms_Y1.txt" Sample.year_files /\
  Str.contains "Y1" "FoM/foms_Y1.txt" = true /\
  (forall other,
     In other year_vals -> other <> "Y1" ->
     Str.contains other "Y1" = false ->
     Str.contains other "FoM/foms_Y1.txt" = false) /\
  ("Y1" = "Y1" -> Str.contains "Y10" "FoM/foms_Y1.txt" = false).
Proof.
  apply (find_year_file_excludes_other_years "FoM" "Y1" Sample.year_files).
  reflexivity.
Defined.

(** ** The strategy table *)

Lemma husni_metric_total :
  forallb
    (fun kv => (List.length (snd kv) =? 4)
               && forallb (fun x => is_ok (int_of_float x)) (snd kv))
    husni_metric = true.
Proof. vm_compute. reflexivity. Qed.

Lemma dict_get_In {V : Type} (d : list (string * V)) (k : string) (v : V) :
  dict_get d k = Some v -> In (k, v) d.
Proof.
  induction d as [|[k' v'] d IH]; simpl; [discriminate|].
  destruct (String.eqb k' k) eqn:E.
  - apply String.eqb_eq in E. intros H. injection H as <-. subst. now left.
  - intros H. right. auto.
Qed.

Lemma husni_entry (name : string) (per_year : list float) (year_ind : nat) :
  dict_get husni_metric name = Some per_year -> year_ind < 4 ->
  exists entry n,
    nth_error per_year year_ind = Some entry /\ int_of_float entry = Ok n.
Proof.
  intros Hd Hy. apply dict_get_In in Hd.
  pose proof (proj1 (forallb_forall _ _) husni_metric_total _ Hd) as H.
  cbn [snd] in H. apply andb_prop in H. destruct H as [L T].
  apply Nat.eqb_eq in L.
  destruct (nth_error_some_lt per_year year_ind) as [entry He]; [lia|].
  pose proof (proj1 (forallb_forall _ _) T entry (nth_error_In _ _ He)) as Hi.
  cbv beta in Hi.
  destruct (int_of_float entry) as [n|] eqn:En; [|discriminate Hi].
  exists entry, n. auto.
Qed.

(** C6 (amended). For every strategy-table row, the visit count of the
    parsed row is [int()] of field 13 (stripped) when the row has exactly 14
    pipe-delimited fields and that field is non-empty; otherwise it is the
    hardcoded table's entry for the row's strategy name and the current
    year truncated toward zero to an integer, or 0 when the name is absent
    from the table. *)
Theorem parse_row_visit_count
    (py_float : string -> option float) (py_int : string -> option Z)
    (year_ind : nat) (line : string) :
  year_ind < 4 ->
  let tmp_vals := Str.split "|" line in
  let has_count := List.length tmp_vals = 14 /\ nth 13 tmp_vals "" <> "" in
  (forall name area depth niexp,
     parse_row py_float py_int year_ind line = Ok (name, area, depth, niexp) ->
     name = Str.strip (nth 1 tmp_vals "") /\
     parse_niexp py_int year_ind tmp_vals = Ok niexp) /\
  (has_count ->
   parse_niexp py_int year_ind tmp_vals
   = int_of_string py_int (Str.strip (nth 13 tmp_vals ""))) /\
  (~ has_count -> 2 <= List.length tmp_vals ->
   match dict_get husni_metric (Str.strip (nth 1 tmp_vals "")) with
   | Some per_year =>
       exists entry niexp,
         nth_error per_year year_ind = Some entry /\
         int_of_float entry = Ok niexp /\
         parse_niexp py_int year_ind tmp_vals = Ok niexp
   | None => parse_niexp py_int year_ind tmp_vals = Ok 0%Z
   end).
Proof.
  intros Hy tmp_vals has_count. split; [|split].
  - intros name area depth niexp H. unfold parse_row in H. fold tmp_vals in H.
    unfold Py.item at 1 in H.
    destruct (nth_error tmp_vals 1) as [f1|] eqn:E1; [|discriminate].
    cbn [bind] in H.
    destruct (Py.item tmp_vals 3) as [f3|]; [|discriminate]. cbn [bind] in H.
    destruct (float_of_string py_float (Str.strip f3)) as [a|]; [|discriminate].
    cbn [bind] in H.
    destruct (Py.item tmp_vals 4) as [f4|]; [|discriminate]. cbn [bind] in H.
    destruct (float_of_string py_float (Str.strip f4)) as [d|]; [|discriminate].
    cbn [bind] in H.
    destruct (parse_niexp py_int year_ind tmp_vals) as [n|]; [|discriminate].
    cbn [bind] in H. injection H as <- <- <- <-.
    now rewrite (nth_error_nth _ _ _ E1).
  - intros [L N]. unfold parse_niexp. rewrite L.
    apply String.eqb_neq in N. rewrite N. cbn [Nat.eqb andb negb].
    unfold Py.item.
    destruct (nth_error tmp_vals 13) as [f13|] eqn:E13.
    + now rewrite (nth_error_nth _ _ _ E13).
    + apply nth_error_None in E13. lia.
  - intros Hn Hlen.
    destruct (nth_error_some_lt tmp_vals 1) as [f1 E1]; [lia|].
    assert (P : parse_niexp py_int year_ind tmp_vals
                = match dict_get husni_metric (Str.strip f1) with
                  | Some per_year =>
                      entry <- Py.item per_year year_ind ;; int_of_float entry
                  | None => Ok 0%Z
                  end).
    { unfold parse_niexp.
      destruct ((List.length tmp_vals =? 14)
                && negb (String.eqb (nth 13 tmp_vals "") "")) eqn:Ec.
      - exfalso. apply Hn. apply andb_prop in Ec. destruct Ec as [L N].
        apply Nat.eqb_eq in L. apply negb_true_iff, String.eqb_neq in N.
        split; assumption.
      - unfold Py.item at 1. rewrite E1. reflexivity. }
    rewrite P, (nth_error_nth _ _ _ E1).
    destruct (dict_get husni_metric (Str.strip f1)) as [per_year|] eqn:Ed;
      [|reflexivity].
    destruct (husni_entry _ _ year_ind Ed Hy) as (entry & n & He & Hi).
    exists entry, n. unfold Py.item. rewrite He. cbn [bind]. auto.
Qed.

Lemma parse_row_visit_count_witness :
  let tmp_vals := Str.split "|" "|kraken_2026|a|18000.0|25.1|" in
  let has_count := List.length tmp_vals = 14 /\ nth 13 tmp_vals "" <> "" in
  ~ has_count /\
  exists entry niexp,
    nth_error [15.50727567502652; 67.57038; 150.43662; 267.03468]%float 0
    = Some entry /\
    int_of_float entry = Ok niexp /\
    parse_niexp Decimal.int_of_decimal 0 tmp_vals = Ok niexp.
Proof.
  intros tmp_vals has_count.
  assert (N : ~ has_count) by (intros [L _]; discriminate L).
  split; [exact N|].
  apply (proj2 (proj2 (parse_row_visit_count Decimal.float_of_decimal
                         Decimal.int_of_decimal 0
                         "|kraken_2026|a|18000.0|25.1|" (Nat.lt_0_succ 3)))
           N).
  vm_compute. lia.
Defined.

(** C6, as stated, fails: a row without a fourteenth field takes 15 for
    [kraken_2026] in year Y1, not the table's entry 15.50727567502652. *)
Lemma parse_row_truncates_table_entry :
  parse_row Decimal.float_of_decimal Decimal.int_of_decimal 0
    "|kraken_2026|a|18000.0|25.1|"
  = Ok ("kraken_2026", 18000%float, 25.1%float, 15%Z) /\
  (exists per_year,
     dict_get husni_metric "kraken_2026" = Some per_year /\
     nth_error per_year 0 = Some 15.50727567502652%float) /\
  PrimFloat.eqb (Decimal.float_of_Z 15) 15.50727567502652%float = false.
Proof.
  split; [vm_compute; reflexivity|]. split.
  - eexists. split; vm_compute; reflexivity.
  - vm_compute. reflexivity.
Qed.

(** ** Binary64 facts *)

(** A finite nonzero binary64 number divided by itself is exactly 1: the
    quotient of the mantissas is a power of two with no remainder, so
    nothing is rounded. *)
Lemma div_self_finite (x : float) :
  is_finite x = true -> is_zero x = false -> (x / x)%float = 1%float.
Proof.
  unfold is_finite, is_nan, is_infinity, is_zero.
  rewrite !FloatAxioms.eqb_spec, FloatAxioms.abs_spec. intros Hf Hz.
  apply Prim2SF_inj. rewrite FloatAxioms.div_spec.
  destruct (Prim2SF x) as [s|s| |s m e] eqn:E.
  - destruct s; discriminate Hz.
  - destruct s; discriminate Hf.
  - discriminate Hf.
  - clear Hf Hz. unfold SF64div, SFdiv, SFdiv_core_binary.
    replace (Zdigits2 (Z.pos m) + e - (Zdigits2 (Z.pos m) + e))%Z
      with 0%Z by lia.
    replace (e - e)%Z with 0%Z by lia.
    change (0 - Z.min (fexp prec emax 0) 0)%Z with 53%Z.
    change (Z.min (fexp prec emax 0) 0) with (-53)%Z.
    cbv iota beta.
    assert (D : Z.div_eucl (Z.shiftl (Z.pos m) 53) (Z.pos m)
                = (2 ^ 53, 0)%Z).
    { pose proof (Z_div_mod_full (Z.shiftl (Z.pos m) 53) (Z.pos m)) as H.
      pose proof (Z.div_eucl_eq (Z.shiftl (Z.pos m) 53) (Z.pos m)) as H'.
      rewrite Z.shiftl_mul_pow2 in * by lia.
      assert (Q : (Z.pos m * 2 ^ 53 / Z.pos m = 2 ^ 53)%Z)
        by (rewrite Z.mul_comm; apply Z.div_mul; lia).
      assert (R : ((Z.pos m * 2 ^ 53) mod Z.pos m = 0)%Z)
        by (rewrite Z.mul_comm; apply Z.mod_mul; lia).
      unfold Z.div, Z.modulo in Q, R.
      destruct (Z.div_eucl (Z.pos m * 2 ^ 53) (Z.pos m)) as [q r].
      simpl in Q, R. now subst. }
    change IntDef.Z.div_eucl with Z.div_eucl.
    change IntDef.Z.shiftl with Z.shiftl.
    rewrite D. cbv iota beta.
    assert (L : new_location (Z.pos m) 0 = loc_Exact).
    { unfold new_location, new_location_even, new_location_odd.
      destruct (IntDef.Z.even (Z.pos m)); reflexivity. }
    rewrite L. rewrite xorb_nilpotent. vm_compute. reflexivity.
Qed.

(** A value that is [<= 0] is not [> 0]. *)
Lemma nonpositive_not_positive (x : float) :
  (x <=? 0)%float = true -> (0 <? x)%float = false.
Proof.
  rewrite FloatAxioms.leb_spec, FloatAxioms.ltb_spec.
  change (Prim2SF 0%float) with (S754_zero false).
  destruct (Prim2SF x) as [s|s| |s m e]; try destruct s; simpl;
    try reflexivity; try discriminate.
Qed.

(** ** The emulator *)

Lemma index_not_in (l : list string) (x : string) :
  ~ In x l -> Py.index l x = Raise (ValueError ("'" ++ x ++ "' is not in list")).
Proof.
  induction l as [|y l IH]; intros H; [reflexivity|]. simpl.
  destruct (String.eqb y x) eqn:E.
  - apply String.eqb_eq in E. exfalso. apply H. now left.
  - rewrite IH; [reflexivity|]. intros Hin. apply H. now right.
Qed.

Lemma index_sound (l : list string) (x : string) (i : nat) :
  Py.index l x = Ok i -> nth_error l i = Some x.
Proof.
  revert i. induction l as [|y l IH]; intros i H; [discriminate|].
  simpl in H. destruct (String.eqb y x) eqn:E.
  - injection H as <-. apply String.eqb_eq in E. now subst.
  - destruct (Py.index l x) as [j|]; [|discriminate].
    injection H as <-. simpl. now apply IH.
Qed.

Lemma item_map {A B : Type} (h : A -> B) (l : list A) (i : nat) (a : A) :
  nth_error l i = Some a -> Py.item (map h l) i = Ok (h a).
Proof.
  intros H. unfold Py.item. rewrite nth_error_map, H. reflexivity.
Qed.

Section EmulatorFacts.
Variable f : float -> float -> float.

(** The loop of lines 247-250 on parallel arrays of equal length. *)
Lemma fom_loop_pairs (pairs : list (float * float)) (c : float) :
  fom_loop f (map fst pairs) (map snd pairs) c
  = Ok (map (fun p => (f (fst p) (snd p) / c)%float) pairs).
Proof.
  unfold fom_loop. rewrite length_map.
  assert (G : forall suf pre,
             Py.for_each
               (fun ind =>
                  a <- Py.item (map fst (pre ++ suf)) ind ;;
                  d <- Py.item (map snd (pre ++ suf)) ind ;;
                  Ok (f a d / c)%float)
               (seq (List.length pre) (List.length suf))
             = Ok (map (fun p => (f (fst p) (snd p) / c)%float) suf)).
  { induction suf as [|p suf IH]; intros pre; [reflexivity|].
    cbn [List.length seq Py.for_each map].
    assert (N : nth_error (pre ++ p :: suf) (List.length pre) = Some p).
    { rewrite nth_error_app2 by lia. now rewrite Nat.sub_diag. }
    rewrite (item_map fst _ _ _ N), (item_map snd _ _ _ N). cbn [bind].
    specialize (IH (pre ++ [p])).
    rewrite <- app_assoc, length_app in IH. simpl in IH.
    rewrite Nat.add_1_r in IH. rewrite IH. reflexivity. }
  apply (G pairs []).
Qed.

(** Whatever the lengths, a loop that completes has divided every value
    of the interpolant by [c], in order. *)
Lemma fom_loop_inv (area_vals depth_vals : list float) (c : float)
    (out : list float) :
  fom_loop f area_vals depth_vals c = Ok out ->
  divided_by f area_vals depth_vals c out.
Proof.
  unfold fom_loop, divided_by. intros H. split.
  - apply for_each_length in H. now rewrite length_seq in H.
  - assert (G : forall n s out,
               Py.for_each
                 (fun ind =>
                    a <- Py.item area_vals ind ;;
                    d <- Py.item depth_vals ind ;;
                    Ok (f a d / c)%float) (seq s n) = Ok out ->
               forall i a d,
                 s <= i ->
                 nth_error area_vals i = Some a ->
                 nth_error depth_vals i = Some d ->
                 i < s + n ->
                 nth_error out (i - s) = Some (f a d / c)%float).
    { induction n as [|n IH]; intros s o Ho i a d Hs Ha Hd Hi; [lia|].
      cbn [seq] in Ho. apply for_each_cons_inv in Ho.
      destruct Ho as (y & ys & Hy & Hys & ->).
      destruct (Nat.eq_dec i s) as [->|Hne].
      - rewrite Nat.sub_diag. simpl. unfold Py.item in Hy.
        rewrite Ha, Hd in Hy. cbn [bind] in Hy. congruence.
      - replace (i - s) with (S (i - S s)) by lia. simpl.
        apply (IH (S s) ys Hys); auto; lia. }
    intros i a d Ha Hd.
    assert (Hi : i < List.length area_vals)
      by (apply nth_error_Some; congruence).
    specialize (G _ 0 out H i a d). rewrite Nat.sub_0_r in G.
    apply G; auto; lia.
Qed.

End EmulatorFacts.

Section EmulateFom.
Variable interp2d :
  list (list float) -> list (list float) -> list (list float) ->
  float -> float -> float.
Variable diagnostic_plots :
  string -> list float -> list float -> list Z ->
  (float -> float -> float) -> float -> option exn.

Lemma renormalize_cached (name : string) (f : float -> float -> float)
    (area_vals depth_vals : list float) (names : option (list string))
    (g : globals) :
  (0 <? renorm_value g)%float = true ->
  renormalize (Some name) f area_vals depth_vals names g
  = (Ok (renorm_value g), g).
Proof. intros H. unfold renormalize. now rewrite H. Qed.

(** A call that does not find a positive stored value computes one from
    the reference strategy and stores it, whatever its sign. *)
Lemma renormalize_computes (name : string) (f : float -> float -> float)
    (area_vals depth_vals : list float) (names : option (list string))
    (g g' : globals) (c : float) :
  (0 <? renorm_value g)%float = false ->
  renormalize (Some name) f area_vals depth_vals names g = (Ok c, g') ->
  exists l tmp_ind a d,
    names = Some l /\ Py.index l name = Ok tmp_ind /\
    nth_error area_vals tmp_ind = Some a /\
    nth_error depth_vals tmp_ind = Some d /\
    c = f a d /\ g' = {| renorm_value := f a d |}.
Proof.
  intros Hc. unfold renormalize. rewrite Hc.
  destruct names as [l|]; [|discriminate].
  destruct (Py.index l name) as [i|] eqn:Ei; [|discriminate]. cbn [bind].
  unfold Py.item.
  destruct (nth_error area_vals i) as [a|] eqn:Ea; [|discriminate].
  cbn [bind].
  destruct (nth_error depth_vals i) as [d|] eqn:Ed; [|discriminate].
  cbn [bind]. intros H. injection H as <- <-.
  exists l, i, a, d. repeat split; auto.
Qed.

Lemma emulate_fom_unfold (rs : option string)
    (area_vals depth_vals : list float)
    (ga gd gf : list (list float)) (niexp : list Z)
    (figpref : option string) (names : option (list string)) (g : globals) :
  (forall pref c, figpref = Some pref ->
     diagnostic_plots pref area_vals depth_vals niexp (interp2d ga gd gf) c
     = None) ->
  emulate_fom interp2d diagnostic_plots rs area_vals depth_vals ga gd gf
    niexp figpref names g
  = match renormalize rs (interp2d ga gd gf) area_vals depth_vals names g with
    | (Ok c, g') =>
        (fom_loop (interp2d ga gd gf) area_vals depth_vals c, g')
    | (Raise e, g') => (Raise e, g')
    end.
Proof.
  intros Hp. unfold emulate_fom.
  destruct (renormalize rs (interp2d ga gd gf) area_vals depth_vals names g)
    as [[c|e] g']; [|reflexivity].
  destruct figpref as [pref|]; [|reflexivity].
  now rewrite (Hp pref c eq_refl).
Qed.

(** What a call that returns has computed, plots or no plots. *)
Lemma emulate_fom_returns (rs : option string)
    (area_vals depth_vals : list float)
    (ga gd gf : list (list float)) (niexp : list Z)
    (figpref : option string) (names : option (list string))
    (g g' : globals) (out : list float) :
  emulate_fom interp2d diagnostic_plots rs area_vals depth_vals ga gd gf
    niexp figpref names g = (Ok out, g') ->
  exists c,
    renormalize rs (interp2d ga gd gf) area_vals depth_vals names g
    = (Ok c, g') /\
    fom_loop (interp2d ga gd gf) area_vals depth_vals c = Ok out.
Proof.
  unfold emulate_fom.
  destruct (renormalize rs (interp2d ga gd gf) area_vals depth_vals names g)
    as [[c|e] g1]; [|discriminate].
  destruct (match figpref with
            | Some pref =>
                diagnostic_plots pref area_vals depth_vals niexp
                  (interp2d ga gd gf) c
            | None => None
            end); [discriminate|].
  intros H. injection H as H <-. eauto.
Qed.

(** A positive stored value survives any call. *)
Lemma emulate_fom_keeps_positive (rs : option string)
    (area_vals depth_vals : list float)
    (ga gd gf : list (list float)) (niexp : list Z)
    (figpref : option string) (names : option (list string)) (g : globals) :
  (0 <? renorm_value g)%float = true ->
  snd (emulate_fom interp2d diagnostic_plots rs area_vals depth_vals ga gd gf
         niexp figpref names g) = g.
Proof.
  intros H. unfold emulate_fom.
  destruct rs as [name|].
  - rewrite renormalize_cached by exact H.
    destruct (match figpref with
              | Some pref =>
                  diagnostic_plots pref area_vals depth_vals niexp
                    (interp2d ga gd gf) (renorm_value g)
              | None => None
              end); reflexivity.
  - cbn [renormalize].
    destruct (match figpref with
              | Some pref =>
                  diagnostic_plots pref area_vals depth_vals niexp
                    (interp2d ga gd gf) 1%float
              | None => None
              end); reflexivity.
Qed.

Lemma after_calls_keeps_positive (rs : option string) (cs : list call)
    (g : globals) :
  (0 <? renorm_value g)%float = true ->
  after_calls interp2d diagnostic_plots rs cs g = g.
Proof.
  intros H. unfold after_calls. induction cs as [|c cs IH]; [reflexivity|].
  cbn [fold_left]. unfold do_call at 2.
  rewrite emulate_fom_keeps_positive by exact H. exact IH.
Qed.

End EmulateFom.

(** On parallel arrays cut from a list of pairs, and with the plots
    completing, a call is its renormalisation step followed by one division
    per pair. *)
Lemma emulate_fom_pairs
    (interp2d : list (list float) -> list (list float) -> list (list float) ->
                float -> float -> float)
    (diagnostic_plots : string -> list float -> list float -> list Z ->
                        (float -> float -> float) -> float -> option exn)
    (rs : option string) (pairs : list (float * float))
    (ga gd gf : list (list float)) (niexp : list Z) (figpref : option string)
    (names : option (list string)) (g : globals) :
  (forall pref c, figpref = Some pref ->
     diagnostic_plots pref (map fst pairs) (map snd pairs) niexp
       (interp2d ga gd gf) c = None) ->
  emulate_fom interp2d diagnostic_plots rs (map fst pairs) (map snd pairs)
    ga gd gf niexp figpref names g
  = match
      renormalize rs (interp2d ga gd gf) (map fst pairs) (map snd pairs)
        names g
    with
    | (Ok c, g') =>
        (Ok (map (fun p => (interp2d ga gd gf (fst p) (snd p) / c)%float)
               pairs), g')
    | (Raise e, g') => (Raise e, g')
    end.
Proof.
  intros Hp. rewrite (emulate_fom_unfold _ _ _ _ _ _ _ _ _ _ _ _ Hp).
  destruct (renormalize rs (interp2d ga gd gf) (map fst pairs) (map snd pairs)
              names g) as [[c|e] g']; [|reflexivity].
  now rewrite fom_loop_pairs.
Qed.

(** C1. For every input sequence of (area, depth) pairs, [emulate_fom]
    returns one estimate per pair, in input order, the i-th being the
    interpolant at (area_i, depth_i) divided by the renormalisation constant
    of the call; that constant is 1 when no renormalisation strategy is
    configured. (When the renormalisation step raises, so does the call.) *)
Theorem emulate_fom_outputs
    (interp2d : list (list float) -> list (list float) -> list (list float) ->
                float -> float -> float)
    (diagnostic_plots : string -> list float -> list float -> list Z ->
                        (float -> float -> float) -> float -> option exn)
    (rs : option string) (pairs : list (float * float))
    (ga gd gf : list (list float)) (niexp : list Z) (figpref : option string)
    (names : option (list string)) (g : globals) :
  let f := interp2d ga gd gf in
  let area_vals := map fst pairs in
  let depth_vals := map snd pairs in
  (forall pref c, figpref = Some pref ->
     diagnostic_plots pref area_vals depth_vals niexp f c = None) ->
  emulate_fom interp2d diagnostic_plots rs area_vals depth_vals ga gd gf
    niexp figpref names g
  = match renormalize rs f area_vals depth_vals names g with
    | (Ok c, g') =>
        (Ok (map (fun p => (f (fst p) (snd p) / c)%float) pairs), g')
    | (Raise e, g') => (Raise e, g')
    end /\
  (rs = None ->
   renormalize rs f area_vals depth_vals names g = (Ok 1%float, g) /\
   emulate_fom interp2d diagnostic_plots rs area_vals depth_vals ga gd gf
     niexp figpref names g
   = (Ok (map (fun p => (f (fst p) (snd p) / 1)%float) pairs), g)).
Proof.
  intros f area_vals depth_vals Hp.
  pose proof (emulate_fom_pairs interp2d diagnostic_plots rs pairs ga gd gf
                niexp figpref names g Hp) as E.
  split; [exact E|].
  intros ->. unfold area_vals, depth_vals, f. rewrite E.
  split; reflexivity.
Qed.

Lemma emulate_fom_outputs_witness :
  emulate_fom Sample.flat_interp Sample.no_plots None
    [18000; 15000]%float [25.1; 26]%float (plot_areas 0) (plot_depths 0)
    (Sample.flat_grid 30%float)
    [] (Some "fig") None initial_globals
  = (Ok [30 / 1; 30 / 1]%float, initial_globals).
Proof.
  apply (proj2 (emulate_fom_outputs Sample.flat_interp Sample.no_plots None
                  [(18000, 25.1); (15000, 26)]%float (plot_areas 0)
                  (plot_depths 0) (Sample.flat_grid 30%float) [] (Some "fig") None
                  initial_globals (fun _ _ _ => eq_refl)) eq_refl).
Defined.

(** C8 (amended). A call of [emulate_fom] with a renormalisation strategy
    configured raises [ValueError] when no strictly positive value is stored
    yet and the strategy list is missing or does not hold the name; nothing
    catches it and the stored value is left as it was. When a strictly
    positive value is stored, the strategy list is not consulted. *)
Theorem emulate_fom_unknown_strategy
    (interp2d : list (list float) -> list (list float) -> list (list float) ->
                float -> float -> float)
    (diagnostic_plots : string -> list float -> list float -> list Z ->
                        (float -> float -> float) -> float -> option exn)
    (name : string) (area_vals depth_vals : list float)
    (ga gd gf : list (list float)) (niexp : list Z) (figpref : option string)
    (names : option (list string)) (g : globals) :
  ((0 <? renorm_value g)%float = false ->
   (names = None \/ exists l, names = Some l /\ ~ In name l) ->
   exists msg,
     emulate_fom interp2d diagnostic_plots (Some name) area_vals depth_vals
       ga gd gf niexp figpref names g
     = (Raise (ValueError msg), g)) /\
  ((0 <? renorm_value g)%float = true ->
   forall names',
     emulate_fom interp2d diagnostic_plots (Some name) area_vals depth_vals
       ga gd gf niexp figpref names g
     = emulate_fom interp2d diagnostic_plots (Some name) area_vals depth_vals
         ga gd gf niexp figpref names' g).
Proof.
  split.
  - intros Hc [-> | (l & -> & Hl)]; unfold emulate_fom, renormalize;
      rewrite Hc.
    + eauto.
    + rewrite (index_not_in l name Hl). cbn [bind]. eauto.
  - intros Hc names'. unfold emulate_fom.
    now rewrite !renormalize_cached by exact Hc.
Qed.

Lemma emulate_fom_unknown_strategy_witness :
  (exists msg,
     emulate_fom Sample.flat_interp Sample.no_plots renorm_strategy
       [18000]%float [25.1]%float (plot_areas 0) (plot_depths 0)
       (Sample.flat_grid 30%float) [] None
       (Some ["baseline2018a"]) initial_globals
     = (Raise (ValueError msg), initial_globals)) /\
  emulate_fom Sample.flat_interp Sample.no_plots renorm_strategy
    [18000]%float [25.1]%float (plot_areas 0) (plot_depths 0)
    (Sample.flat_grid 30%float) [] None
    (Some ["baseline2018a"]) {| renorm_value := 2 |}
  = emulate_fom Sample.flat_interp Sample.no_plots renorm_strategy
      [18000]%float [25.1]%float (plot_areas 0) (plot_depths 0)
      (Sample.flat_grid 30%float) [] None
      None {| renorm_value := 2 |}.
Proof.
  split.
  - apply (proj1 (emulate_fom_unknown_strategy Sample.flat_interp
                    Sample.no_plots "kraken_2026" [18000]%float [25.1]%float
                    (plot_areas 0) (plot_depths 0)
                    (Sample.flat_grid 30%float) [] None
                    (Some ["baseline2018a"]) initial_globals)).
    + reflexivity.
    + right. exists ["baseline2018a"]. split; [reflexivity|].
      simpl. intros [H|[]]. discriminate H.
  - apply (proj2 (emulate_fom_unknown_strategy Sample.flat_interp
                    Sample.no_plots "kraken_2026" [18000]%float [25.1]%float
                    (plot_areas 0) (plot_depths 0)
                    (Sample.flat_grid 30%float) [] None
                    (Some ["baseline2018a"]) {| renorm_value := 2 |})).
    reflexivity.
Defined.

(** C8, as stated, fails: once a positive value is stored, a call whose
    strategy list does not hold the configured name returns. *)
Lemma emulate_fom_unknown_strategy_returns :
  ~ In "kraken_2026" ["baseline2018a"] /\
  emulate_fom Sample.flat_interp Sample.no_plots renorm_strategy
    [18000]%float [25.1]%float (plot_areas 0) (plot_depths 0)
    (Sample.flat_grid 30%float) [] None
    (Some ["baseline2018a"]) {| renorm_value := 2 |}
  = (Ok [15%float], {| renorm_value := 2 |}).
Proof.
  split.
  - simpl. intros [H|[]]. discriminate H.
  - vm_compute. reflexivity.
Qed.

(** C7 (amended). When [emulate_fom] computes the renormalisation constant
    from the reference strategy in the current call and the interpolated
    value is finite and nonzero, the output entry of the reference strategy,
    at the position where [index] finds its name, is exactly 1.0. *)
Theorem emulate_fom_reference_is_one
    (interp2d : list (list float) -> list (list float) -> list (list float) ->
                float -> float -> float)
    (diagnostic_plots : string -> list float -> list float -> list Z ->
                        (float -> float -> float) -> float -> option exn)
    (name : string) (pairs : list (float * float))
    (ga gd gf : list (list float)) (niexp : list Z) (figpref : option string)
    (names : list string) (g : globals) (tmp_ind : nat) (a d : float) :
  let f := interp2d ga gd gf in
  let area_vals := map fst pairs in
  let depth_vals := map snd pairs in
  (forall pref c, figpref = Some pref ->
     diagnostic_plots pref area_vals depth_vals niexp f c = None) ->
  (0 <? renorm_value g)%float = false ->
  Py.index names name = Ok tmp_ind ->
  nth_error pairs tmp_ind = Some (a, d) ->
  is_finite (f a d) = true ->
  is_zero (f a d) = false ->
  exists out,
    emulate_fom interp2d diagnostic_plots (Some name) area_vals depth_vals
      ga gd gf niexp figpref (Some names) g
    = (Ok out, {| renorm_value := f a d |}) /\
    nth_error names tmp_ind = Some name /\
    nth_error out tmp_ind = Some 1%float.
Proof.
  intros f area_vals depth_vals Hp Hc Hi Hn Hf Hz.
  subst f area_vals depth_vals.
  rewrite (emulate_fom_pairs interp2d diagnostic_plots (Some name) pairs
             ga gd gf niexp figpref (Some names) g Hp).
  unfold renormalize. rewrite Hc, Hi. cbn [bind].
  rewrite (item_map fst _ _ _ Hn), (item_map snd _ _ _ Hn). cbn [bind fst snd].
  eexists. split; [reflexivity|]. split; [now apply index_sound|].
  rewrite nth_error_map, Hn. cbn [option_map fst snd].
  now rewrite div_self_finite.
Qed.

Lemma emulate_fom_reference_is_one_witness :
  exists out,
    emulate_fom Sample.flat_interp Sample.no_plots renorm_strategy
      [18000; 15000]%float [25.1; 26]%float (plot_areas 0) (plot_depths 0)
      (Sample.flat_grid 30%float) [] None
      (Some ["baseline2018a"; "kraken_2026"]) initial_globals
    = (Ok out, {| renorm_value := 30 |}) /\
    nth_error ["baseline2018a"; "kraken_2026"] 1 = Some "kraken_2026" /\
    nth_error out 1 = Some 1%float.
Proof.
  apply (emulate_fom_reference_is_one Sample.flat_interp Sample.no_plots
           "kraken_2026" [(18000, 25.1); (15000, 26)]%float (plot_areas 0)
           (plot_depths 0) (Sample.flat_grid 30%float) [] None
           ["baseline2018a"; "kraken_2026"] initial_globals 1 15000%float
           26%float).
  - intros pref c H. reflexivity.
  - reflexivity.
  - reflexivity.
  - reflexivity.
  - reflexivity.
  - reflexivity.
Defined.

(** C7, as stated, fails: an infinite interpolated value is nonzero, and the
    entry of the reference strategy is then NaN, not 1.0. *)
Lemma emulate_fom_reference_not_one :
  is_zero infinity = false /\
  emulate_fom Sample.flat_interp Sample.no_plots renorm_strategy
    [18000; 15000]%float [25.1; 26]%float (plot_areas 0) (plot_depths 0)
    (Sample.flat_grid infinity) [] None
    (Some ["baseline2018a"; "kraken_2026"]) initial_globals
  = (Ok [nan; nan], {| renorm_value := infinity |}) /\
  PrimFloat.eqb nan 1 = false.
Proof. repeat split; vm_compute; reflexivity. Qed.

(** What a returning call has done when it found no positive stored value:
    it looked the reference strategy up in its own list, stored the
    interpolant there, and divided by it. *)
Lemma do_call_computes
    (interp2d : list (list float) -> list (list float) -> list (list float) ->
                float -> float -> float)
    (diagnostic_plots : string -> list float -> list float -> list Z ->
                        (float -> float -> float) -> float -> option exn)
    (name : string) (c : call) (g g' : globals) (out : list float) :
  (0 <? renorm_value g)%float = false ->
  do_call interp2d diagnostic_plots (Some name) c g = (Ok out, g') ->
  let f := interp2d (c_grid_area_vals c) (c_grid_depth_vals c)
             (c_grid_fom_vals c) in
  exists l tmp_ind a d,
    c_strategy_name c = Some l /\ Py.index l name = Ok tmp_ind /\
    nth_error (c_area_vals c) tmp_ind = Some a /\
    nth_error (c_depth_vals c) tmp_ind = Some d /\
    renorm_value g' = f a d /\
    divided_by f (c_area_vals c) (c_depth_vals c) (renorm_value g') out.
Proof.
  intros Hc H f. unfold do_call in H.
  apply emulate_fom_returns in H. destruct H as (v & Hr & Hl).
  destruct (renormalize_computes name _ _ _ _ g g' v Hc Hr)
    as (l & i & a & d & E1 & E2 & E3 & E4 & -> & ->).
  exists l, i, a, d. split; [exact E1|]. split; [exact E2|].
  split; [exact E3|]. split; [exact E4|]. split; [reflexivity|].
  apply fom_loop_inv. exact Hl.
Qed.

(** What a call does when it finds a positive stored value: it divides by
    it and leaves it alone. *)
Lemma do_call_reuses
    (interp2d : list (list float) -> list (list float) -> list (list float) ->
                float -> float -> float)
    (diagnostic_plots : string -> list float -> list float -> list Z ->
                        (float -> float -> float) -> float -> option exn)
    (name : string) (c : call) (g : globals) :
  (0 <? renorm_value g)%float = true ->
  snd (do_call interp2d diagnostic_plots (Some name) c g) = g /\
  forall out,
    fst (do_call interp2d diagnostic_plots (Some name) c g) = Ok out ->
    divided_by (interp2d (c_grid_area_vals c) (c_grid_depth_vals c)
                  (c_grid_fom_vals c))
      (c_area_vals c) (c_depth_vals c) (renorm_value g) out.
Proof.
  intros Hc. split.
  - apply emulate_fom_keeps_positive. exact Hc.
  - intros out H.
    destruct (do_call interp2d diagnostic_plots (Some name) c g) as [r g']
      eqn:E.
    simpl in H. subst r. unfold do_call in E.
    apply emulate_fom_returns in E. destruct E as (v & Hr & Hl).
    rewrite renormalize_cached in Hr by exact Hc. injection Hr as <- <-.
    apply fom_loop_inv. exact Hl.
Qed.

(** C3 (amended). The first call of [emulate_fom] with a configured
    strategy that finds no positive stored value computes the constant from
    the reference strategy of its own list, stores it in the process-wide
    variable and divides by it. If the stored value is strictly positive,
    every later call, whatever its year, grid or strategy list, leaves it as
    it is and divides by it without computing anything. *)
Theorem renorm_value_memoised
    (interp2d : list (list float) -> list (list float) -> list (list float) ->
                float -> float -> float)
    (diagnostic_plots : string -> list float -> list float -> list Z ->
                        (float -> float -> float) -> float -> option exn)
    (name : string) (c0 : call) (g0 g1 : globals) (out0 : list float) :
  (0 <? renorm_value g0)%float = false ->
  do_call interp2d diagnostic_plots (Some name) c0 g0 = (Ok out0, g1) ->
  (let f := interp2d (c_grid_area_vals c0) (c_grid_depth_vals c0)
              (c_grid_fom_vals c0) in
   exists l tmp_ind a d,
     c_strategy_name c0 = Some l /\ Py.index l name = Ok tmp_ind /\
     nth_error (c_area_vals c0) tmp_ind = Some a /\
     nth_error (c_depth_vals c0) tmp_ind = Some d /\
     renorm_value g1 = f a d /\
     divided_by f (c_area_vals c0) (c_depth_vals c0) (renorm_value g1) out0) /\
  ((0 <? renorm_value g1)%float = true ->
   forall (cs : list call) (c : call),
     let g := after_calls interp2d diagnostic_plots (Some name) cs g1 in
     g = g1 /\
     snd (do_call interp2d diagnostic_plots (Some name) c g) = g1 /\
     forall out,
       fst (do_call interp2d diagnostic_plots (Some name) c g) = Ok out ->
       divided_by (interp2d (c_grid_area_vals c) (c_grid_depth_vals c)
                     (c_grid_fom_vals c))
         (c_area_vals c) (c_depth_vals c) (renorm_value g1) out).
Proof.
  intros Hc H. split.
  - exact (do_call_computes interp2d diagnostic_plots name c0 g0 g1 out0 Hc H).
  - intros Hpos cs c g.
    assert (Eg : g = g1) by (apply after_calls_keeps_positive; exact Hpos).
    rewrite Eg. split; [reflexivity|].
    apply do_call_reuses. exact Hpos.
Qed.

Lemma renorm_value_memoised_witness :
  let cs := [Sample.year_call 2%float; Sample.year_call 0%float] in
  let c := Sample.year_call 60%float in
  let g := after_calls Sample.flat_interp Sample.no_plots
             renorm_strategy cs {| renorm_value := 30 |} in
  g = {| renorm_value := 30 |} /\
  snd (do_call Sample.flat_interp Sample.no_plots renorm_strategy c g)
  = {| renorm_value := 30 |} /\
  forall out,
    fst (do_call Sample.flat_interp Sample.no_plots renorm_strategy c g)
    = Ok out ->
    divided_by (Sample.flat_interp (c_grid_area_vals c) (c_grid_depth_vals c)
                  (c_grid_fom_vals c))
      (c_area_vals c) (c_depth_vals c) 30%float out.
Proof.
  apply (proj2 (renorm_value_memoised Sample.flat_interp Sample.no_plots
                  "kraken_2026" (Sample.year_call 30%float) initial_globals
                  {| renorm_value := 30 |} [1; 1]%float eq_refl eq_refl)
           eq_refl
           [Sample.year_call 2%float; Sample.year_call 0%float]
           (Sample.year_call 60%float)).
Defined.

(** C3, as stated, fails: a first call whose grid is all zeros stores 0.0,
    and the next call computes the constant again, divides by its own 2.0
    and overwrites the stored value. *)
Lemma renorm_value_recomputed :
  do_call Sample.flat_interp Sample.no_plots renorm_strategy
    (Sample.year_call 0%float) initial_globals
  = (Ok [nan; nan], {| renorm_value := 0 |}) /\
  do_call Sample.flat_interp Sample.no_plots renorm_strategy
    (Sample.year_call 2%float) {| renorm_value := 0 |}
  = (Ok [1; 1]%float, {| renorm_value := 2 |}).
Proof. split; vm_compute; reflexivity. Qed.

(** C10. The cache is keyed on strict positivity. The stored value starts
    at the sentinel -100.0, which is not positive. A call reuses the stored
    value, whatever its other arguments, if and only if that value is
    strictly greater than zero. A call that finds a value that is not
    positive (a nonpositive one in particular) computes the constant from
    its own reference strategy, divides by it in that call and stores it,
    so a nonpositive result is computed again by the next call; a strictly
    positive stored value is never overwritten. *)
Theorem renorm_cache_keyed_on_positivity
    (interp2d : list (list float) -> list (list float) -> list (list float) ->
                float -> float -> float)
    (diagnostic_plots : string -> list float -> list float -> list Z ->
                        (float -> float -> float) -> float -> option exn)
    (name : string) (g : globals) :
  (renorm_value initial_globals = (-100)%float /\
   (0 <? renorm_value initial_globals)%float = false) /\
  ((0 <? renorm_value g)%float = true <->
   forall f area_vals depth_vals names,
     renormalize (Some name) f area_vals depth_vals names g
     = (Ok (renorm_value g), g)) /\
  ((renorm_value g <=? 0)%float = true ->
   (0 <? renorm_value g)%float = false) /\
  ((0 <? renorm_value g)%float = false ->
   forall c out g',
     do_call interp2d diagnostic_plots (Some name) c g = (Ok out, g') ->
     let f := interp2d (c_grid_area_vals c) (c_grid_depth_vals c)
                (c_grid_fom_vals c) in
     exists l tmp_ind a d,
       c_strategy_name c = Some l /\ Py.index l name = Ok tmp_ind /\
       nth_error (c_area_vals c) tmp_ind = Some a /\
       nth_error (c_depth_vals c) tmp_ind = Some d /\
       renorm_value g' = f a d /\
       divided_by f (c_area_vals c) (c_depth_vals c) (renorm_value g') out) /\
  ((0 <? renorm_value g)%float = true ->
   forall cs,
     after_calls interp2d diagnostic_plots (Some name) cs g = g).
Proof.
  split; [split; reflexivity|]. split; [|split; [|split]].
  - split.
    + intros H f area_vals depth_vals names. now apply renormalize_cached.
    + intros H. specialize (H (fun _ _ => 0%float) [] [] None).
      unfold renormalize in H.
      destruct (0 <? renorm_value g)%float; [reflexivity|discriminate].
  - apply nonpositive_not_positive.
  - intros Hc c out g' H.
    exact (do_call_computes interp2d diagnostic_plots name c g g' out Hc H).
  - intros Hc cs. now apply after_calls_keeps_positive.
Qed.

Lemma renorm_cache_keyed_on_positivity_witness :
  let c := Sample.year_call 2%float in
  let f := Sample.flat_interp (c_grid_area_vals c) (c_grid_depth_vals c)
             (c_grid_fom_vals c) in
  exists l tmp_ind a d,
    c_strategy_name c = Some l /\ Py.index l "kraken_2026" = Ok tmp_ind /\
    nth_error (c_area_vals c) tmp_ind = Some a /\
    nth_error (c_depth_vals c) tmp_ind = Some d /\
    renorm_value {| renorm_value := 2 |} = f a d /\
    divided_by f (c_area_vals c) (c_depth_vals c) 2%float [1; 1]%float.
Proof.
  apply (proj1 (proj2 (proj2 (proj2
           (renorm_cache_keyed_on_positivity Sample.flat_interp Sample.no_plots
              "kraken_2026" {| renorm_value := 0 |}))))
           eq_refl (Sample.year_call 2%float) [1; 1]%float
           {| renorm_value := 2 |} eq_refl).
Defined.

(** * Further properties of the script *)

(** ** The choice of a file, completely *)

Lemma find_file_loop_found (dir year_str : string) (file_list : list string)
    (found : string) :
  find_file_loop dir year_str file_list (Some found)
  = if forallb (String.eqb found) (filter (qualifies year_str) file_list)
    then Ok (Some found)
    else Raise (ValueError ("Year " ++ year_str
                            ++ " found more than once in dir " ++ dir ++ "!")).
Proof.
  induction file_list as [|f rest IH]; [reflexivity|].
  cbn [find_file_loop filter]. unfold qualifies at 1.
  destruct (Str.contains year_str f); [|exact IH].
  destruct (other_found year_str f); [exact IH|].
  cbn [negb andb forallb].
  destruct (String.eqb found f); [exact IH | reflexivity].
Qed.

Lemma find_file_loop_none (dir year_str : string) (file_list : list string) :
  find_file_loop dir year_str file_list None
  = match filter (qualifies year_str) file_list with
    | [] => Ok None
    | f :: rest =>
        if forallb (String.eqb f) rest then Ok (Some f)
        else Raise (ValueError ("Year " ++ year_str
                                ++ " found more than once in dir "
                                ++ dir ++ "!"))
    end.
Proof.
  induction file_list as [|f rest IH]; [reflexivity|].
  cbn [find_file_loop filter]. unfold qualifies at 1.
  destruct (Str.contains year_str f); [|exact IH].
  destruct (other_found year_str f); [exact IH|].
  cbn [negb andb]. apply find_file_loop_found.
Qed.

(** X1. The scan of the directory for a year is decided by the file names
    that pass the test of lines 79-86: with none, [ValueError] (not found);
    with two different ones, [ValueError] (found more than once); otherwise
    the one name that passes (listed once or several times) is selected. *)
Theorem find_year_file_unique (dir year_str : string) (file_list : list string) :
  let passing := filter (qualifies year_str) file_list in
  (passing = [] ->
   find_year_file dir year_str file_list
   = Raise (ValueError ("Year " ++ year_str ++ " not found in dir "
                        ++ dir ++ "!"))) /\
  (forall f, In f passing -> (forall f', In f' passing -> f' = f) ->
             find_year_file dir year_str file_list = Ok f) /\
  (forall f f', In f passing -> In f' passing -> f <> f' ->
     find_year_file dir year_str file_list
     = Raise (ValueError ("Year " ++ year_str
                          ++ " found more than once in dir " ++ dir ++ "!"))).
Proof.
  intros passing. unfold find_year_file. rewrite find_file_loop_none.
  fold passing. split; [|split].
  - intros ->. reflexivity.
  - intros f Hin Huniq. destruct passing as [|f0 rest]; [contradiction|].
    assert (f0 = f) by (apply Huniq; now left). subst f0.
    assert (A : forallb (String.eqb f) rest = true).
    { apply forallb_forall. intros x Hx. apply String.eqb_eq. symmetry.
      apply Huniq. now right. }
    rewrite A. reflexivity.
  - intros f f' Hin Hin' Hne. destruct passing as [|f0 rest]; [contradiction|].
    assert (A : forallb (String.eqb f0) rest = false).
    { destruct (forallb (String.eqb f0) rest) eqn:E; [|reflexivity].
      exfalso. apply Hne.
      assert (K : forall x, In x (f0 :: rest) -> x = f0).
      { intros x [->|Hx]; [reflexivity|].
        symmetry. apply String.eqb_eq.
        exact (proj1 (forallb_forall _ _) E x Hx). }
      rewrite (K f Hin), (K f' Hin'). reflexivity. }
    rewrite A. reflexivity.
Qed.

(** ** When the grid loader returns *)

Lemma set3_inv_range {A : Type} (a a' : Np.array3 A) (i j k : nat) (v : A) :
  Np.set3 a i j k v = Ok a' -> i < List.length a.
Proof.
  unfold Np.set3. intros H.
  destruct (update_inv _ _ _ _ H) as (r & _ & E & _).
  apply nth_error_Some. congruence.
Qed.

Section LoaderReturns.
Variable py_float : string -> option float.

(** A loop that completes has parsed every qualifying line and stored no
    more than nine values. *)
Lemma fill_loop_inv (g : string) (yi : nat) (lines : list string) :
  forall (a a' : Np.array3 float) (n n' : nat),
    Np.shaped 3 3 4 a -> yi < 4 ->
    fill_loop py_float g yi lines a n = Ok (a', n') ->
    exists vals,
      Py.for_each (line_fom py_float) (filter (Str.contains g) lines) = Ok vals
      /\ n' = n + List.length vals /\ (vals <> [] -> n' <= 9).
Proof.
  induction lines as [|l lines IH]; intros a a' n n' Hs Hy H.
  - injection H as <- <-. exists []. cbn [filter Py.for_each List.length].
    split; [reflexivity|]. split; [lia|]. intros C. now contradiction C.
  - cbn [fill_loop filter] in *. destruct (Str.contains g l) eqn:Ec.
    + cbn [Py.for_each].
      destruct (line_fom py_float l) as [v|]; [|discriminate]. cbn [bind] in *.
      destruct (Np.set3 a (n / 3) (n mod 3) yi v) as [a1|] eqn:E1;
        [|discriminate].
      cbn [bind] in H.
      assert (Hn : n < 9).
      { apply set3_inv_range in E1. destruct Hs as [L _]. rewrite L in E1.
        pose proof (Nat.div_mod_eq n 3).
        pose proof (Nat.mod_upper_bound n 3). lia. }
      assert (S1 : Np.shaped 3 3 4 a1).
      { destruct (set3_ok 0%float 3 3 4 a (n / 3) (n mod 3) yi v Hs)
          as (a2 & E2 & S2 & _); try lia.
        - apply Nat.Div0.div_lt_upper_bound. lia.
        - apply Nat.mod_upper_bound. lia.
        - congruence. }
      destruct (IH a1 a' (n + 1) n' S1 Hy H) as (vs & -> & -> & Hb).
      exists (v :: vs). cbn [bind List.length].
      split; [reflexivity|]. split; [lia|]. intros _.
      destruct vs as [|w vs]; [simpl; lia|].
      assert (w :: vs <> []) by discriminate. specialize (Hb H0).
      simpl in *. lia.
    + apply (IH a a' n n' Hs Hy H).
Qed.

Variable fs : filesystem.
Variable dir : string.
Variable prior : bool.

Lemma load_year_inv (fake : bool) (a a' : Np.array3 float) (yi : nat) :
  Np.shaped 3 3 4 a -> yi < 4 ->
  load_year py_float fs dir prior fake (glob fs (path_join dir "*")) a
    (year_token yi) = Ok a' ->
  Np.shaped 3 3 4 a' /\
  exists vals,
    year_values py_float fs dir prior (year_token yi) = Ok vals /\
    List.length vals <= 9.
Proof.
  intros Hs Hy H.
  assert (V : exists vals,
             year_values py_float fs dir prior (year_token yi) = Ok vals /\
             List.length vals <= 9).
  { unfold load_year in H. unfold year_values.
    destruct (find_year_file dir (year_token yi) (glob fs (path_join dir "*")))
      as [f|]; [|discriminate].
    cbn [bind] in *. destruct (open_lines fs f) as [ls|]; [|discriminate].
    cbn [bind] in *. unfold year_token in H.
    rewrite index_year_vals in H by exact Hy. cbn [bind] in H.
    destruct (fill_loop py_float (if prior then "incl" else "excl") yi ls a 0)
      as [[a1 n1]|] eqn:Ef; [|discriminate].
    destruct (fill_loop_inv _ _ _ _ _ _ _ Hs Hy Ef) as (vals & Ev & -> & Hb).
    exists vals. split; [exact Ev|].
    destruct vals as [|v vs]; [simpl; lia|].
    assert (v :: vs <> []) by discriminate. specialize (Hb H0). lia. }
  split; [|exact V].
  destruct V as (vals & Ev & Hl).
  destruct (load_year_ok py_float fs dir prior fake a yi vals Hs Hy Ev Hl)
    as (a2 & E2 & S2 & _).
  congruence.
Qed.

Lemma load_years_inv (fake : bool) (ys : list nat) :
  forall a a' : Np.array3 float,
    Np.shaped 3 3 4 a -> Forall (fun yi => yi < 4) ys ->
    load_years py_float fs dir prior fake (glob fs (path_join dir "*")) a
      (map year_token ys) = Ok a' ->
    Np.shaped 3 3 4 a' /\
    Forall (fun yi => exists vals,
              year_values py_float fs dir prior (year_token yi) = Ok vals /\
              List.length vals <= 9) ys.
Proof.
  induction ys as [|yi ys IH]; intros a a' Hs Hy H.
  - injection H as <-. split; [exact Hs | constructor].
  - cbn [map load_years] in H. inversion Hy as [|? ? Hyi Hys]; subst.
    destruct (load_year py_float fs dir prior fake
                (glob fs (path_join dir "*")) a (year_token yi))
      as [a1|] eqn:E1; [|discriminate].
    cbn [bind] in H.
    destruct (load_year_inv fake a a1 yi Hs Hyi E1) as [S1 V1].
    destruct (IH a1 a' S1 Hys H) as [S' V'].
    split; [exact S'|]. constructor; assumption.
Qed.

End LoaderReturns.

(** What a load that returned has read, year by year. *)
Lemma load_foms_inv
    (py_float : string -> option float) (fs : filesystem) (dir : string)
    (prior fake : bool) (arr : Np.array3 float) :
  load_foms py_float fs dir prior fake = Ok arr ->
  Np.shaped 3 3 4 arr /\
  forall yi, yi < 4 ->
    exists vals,
      year_values py_float fs dir prior (nth yi year_vals "") = Ok vals /\
      List.length vals <= 9 /\
      slice_spec fake vals yi (Np.full3 3 3 4 0%float) arr.
Proof.
  intros H.
  assert (V : Np.shaped 3 3 4 arr /\
              forall yi, yi < 4 ->
                exists vals,
                  year_values py_float fs dir prior (nth yi year_vals "")
                  = Ok vals /\ List.length vals <= 9).
  { change (load_foms py_float fs dir prior fake)
      with (load_years py_float fs dir prior fake (glob fs (path_join dir "*"))
              (Np.full3 3 3 4 0%float) (map year_token [0; 1; 2; 3])) in H.
    destruct (load_years_inv py_float fs dir prior fake [0; 1; 2; 3] _ arr
                (full3_shaped 0%float 3 3 4)) as [S V]; [|exact H|].
    - repeat constructor.
    - split; [exact S|]. intros yi Hy. rewrite Forall_forall in V.
      apply (V yi). do 4 (destruct yi as [|yi]; [simpl; auto|]). lia. }
  destruct V as [S V]. split; [exact S|].
  destruct (V 0) as (v0 & E0 & L0); [lia|].
  destruct (V 1) as (v1 & E1 & L1); [lia|].
  destruct (V 2) as (v2 & E2 & L2); [lia|].
  destruct (V 3) as (v3 & E3 & L3); [lia|].
  destruct (load_foms_ok py_float fs dir prior
              (fun yi => match yi with
                         | 0 => v0 | 1 => v1 | 2 => v2 | _ => v3
                         end) fake) as (arr0 & E & _ & P).
  { intros yi Hy. unfold year_fits.
    do 4 (destruct yi as [|yi]; [auto|]). lia. }
  assert (arr0 = arr) by congruence. subst arr0.
  intros yi Hy. specialize (P yi Hy).
  do 4 (destruct yi as [|yi]; [eauto|]). lia.
Qed.

(** X2. [load_foms] returns exactly when, for each of the four years, one
    file is selected and read and its qualifying lines all parse and number
    at most nine; the array it returns then has the shape (3, 3, 4). *)
Theorem load_foms_returns_iff
    (py_float : string -> option float) (fs : filesystem) (dir : string)
    (prior fake : bool) :
  ((exists arr, load_foms py_float fs dir prior fake = Ok arr) <->
   (forall yi, yi < 4 ->
      exists vals,
        year_values py_float fs dir prior (nth yi year_vals "") = Ok vals /\
        List.length vals <= 9)) /\
  (forall arr, load_foms py_float fs dir prior fake = Ok arr ->
               Np.shaped 3 3 4 arr).
Proof.
  split; [split|].
  - intros [arr H] yi Hy.
    destruct (proj2 (load_foms_inv _ _ _ _ _ _ H) yi Hy) as (vals & E & L & _).
    eauto.
  - intros H.
    destruct (H 0) as (v0 & E0 & L0); [lia|].
    destruct (H 1) as (v1 & E1 & L1); [lia|].
    destruct (H 2) as (v2 & E2 & L2); [lia|].
    destruct (H 3) as (v3 & E3 & L3); [lia|].
    destruct (load_foms_ok py_float fs dir prior
                (fun yi => match yi with
                           | 0 => v0 | 1 => v1 | 2 => v2 | _ => v3
                           end) fake) as (arr & E & _).
    + intros yi Hy. unfold year_fits.
      do 4 (destruct yi as [|yi]; [auto|]). lia.
    + now exists arr.
  - intros arr H. apply (load_foms_inv _ _ _ _ _ _ H).
Qed.

(** ** What the loaded grid depends on *)

(** X3. Lines that do not hold the marker of the requested prior mode
    (headers, comments, the lines of the other mode) have no effect on the
    load: two directories with the same listing whose files hold the same
    qualifying lines give the same result, be it an array or an error. *)
Theorem load_foms_ignores_other_lines
    (py_float : string -> option float) (fs fs' : filesystem) (dir : string)
    (prior fake : bool) :
  glob fs (path_join dir "*") = glob fs' (path_join dir "*") ->
  (forall path,
     option_map (filter (Str.contains (if prior then "incl" else "excl")))
       (read_lines fs path)
     = option_map (filter (Str.contains (if prior then "incl" else "excl")))
         (read_lines fs' path)) ->
  load_foms py_float fs dir prior fake = load_foms py_float fs' dir prior fake.
Proof.
  intros Hg Hr. unfold load_foms. rewrite <- Hg.
  generalize (Np.full3 3 3 (List.length year_vals) 0%float) as a.
  generalize (glob fs (path_join dir "*")) as file_list. intros file_list.
  induction year_vals as [|y ys IH]; intros a; [reflexivity|].
  cbn [load_years].
  assert (E : load_year py_float fs dir prior fake file_list a y
              = load_year py_float fs' dir prior fake file_list a y).
  { unfold load_year.
    destruct (find_year_file dir y file_list) as [f|]; [|reflexivity].
    cbn [bind]. unfold open_lines. specialize (Hr f).
    destruct (read_lines fs f) as [ls|], (read_lines fs' f) as [ls'|];
      try discriminate; [|reflexivity].
    cbn [bind]. destruct (Py.index year_vals y) as [yi|]; [|reflexivity].
    cbn [bind]. cbn [option_map] in Hr. injection Hr as Hr.
    rewrite (fill_loop_filter py_float _ yi ls),
            (fill_loop_filter py_float _ yi ls'), Hr.
    reflexivity. }
  rewrite E.
  destruct (load_year py_float fs' dir prior fake file_list a y);
    cbn [bind]; [apply IH | reflexivity].
Qed.

Lemma load_foms_ignores_other_lines_witness :
  load_foms Decimal.float_of_decimal Sample.fs_nine "FoM" false true
  = load_foms Decimal.float_of_decimal
      (Sample.fs_with (Sample.grid_lines "excl")) "FoM" false true.
Proof.
  apply load_foms_ignores_other_lines.
  - reflexivity.
  - intros path. cbn [Sample.fs_nine Sample.fs_with read_lines].
    destruct (existsb (String.eqb path) Sample.year_files); reflexivity.
Defined.

Lemma filled_zeros (vals : list float) (yi n : nat) :
  filled vals (Np.full3 3 3 4 0%float) yi n = nth n vals 0%float.
Proof.
  unfold filled. rewrite full3_get.
  destruct (n <? List.length vals) eqn:E; [reflexivity|].
  apply Nat.ltb_ge in E. symmetry. now apply nth_overflow.
Qed.

(** The nine cells of a year's slice are fixed by what [slice_spec] says. *)
Lemma slice_spec_cells (fake : bool) (vals vals' : list float) (yi : nat)
    (a a' : Np.array3 float) :
  slice_spec fake vals yi (Np.full3 3 3 4 0%float) a ->
  slice_spec fake vals' yi (Np.full3 3 3 4 0%float) a' ->
  (if fake
   then nth 0 vals 0%float = nth 0 vals' 0%float /\
        nth 4 vals 0%float = nth 4 vals' 0%float /\
        nth 8 vals 0%float = nth 8 vals' 0%float
   else forall n, n < 9 -> nth n vals 0%float = nth n vals' 0%float) ->
  forall i j, i < 3 -> j < 3 ->
    Np.get3 0%float a i j yi = Np.get3 0%float a' i j yi.
Proof.
  unfold slice_spec. cbv zeta. rewrite !filled_zeros. destruct fake.
  - intros (D0 & D1 & D2 & R1 & R2 & R3 & R4 & R5 & R6)
           (D0' & D1' & D2' & R1' & R2' & R3' & R4' & R5' & R6')
           (E0 & E4 & E8) i j Hi Hj.
    assert (G0 : Np.get3 0%float a 0 0 yi = Np.get3 0%float a' 0 0 yi)
      by congruence.
    assert (G1 : Np.get3 0%float a 1 1 yi = Np.get3 0%float a' 1 1 yi)
      by congruence.
    assert (G2 : Np.get3 0%float a 2 2 yi = Np.get3 0%float a' 2 2 yi)
      by congruence.
    do 3 (destruct i as [|i]; [do 3 (destruct j as [|j]; [congruence|]); lia|]).
    lia.
  - intros H H' E i j Hi Hj.
    assert (K : forall n, n < 9 ->
              Np.get3 0%float a (n / 3) (n mod 3) yi
              = Np.get3 0%float a' (n / 3) (n mod 3) yi).
    { intros n Hn. rewrite (H n Hn), (H' n Hn), !filled_zeros. now apply E. }
    do 3 (destruct i as [|i];
          [do 3 (destruct j as [|j];
                 [match goal with
                  | |- Np.get3 _ _ ?i ?j _ = _ => apply (K (3 * i + j)); lia
                  end|]); lia|]).
    lia.
Qed.

(** X4. The grid of a year depends on that year's file only: two loads that
    return (of any two directories, in any prior modes) and read the same
    qualifying values for a year return the same 3x3 slice for it, whatever
    the files of the other years hold. *)
Theorem load_foms_year_slice
    (py_float : string -> option float) (fs fs' : filesystem)
    (dir dir' : string) (prior prior' fake : bool)
    (arr arr' : Np.array3 float) (yi : nat) :
  load_foms py_float fs dir prior fake = Ok arr ->
  load_foms py_float fs' dir' prior' fake = Ok arr' ->
  yi < 4 ->
  year_values py_float fs dir prior (nth yi year_vals "")
  = year_values py_float fs' dir' prior' (nth yi year_vals "") ->
  Np.slice2 0%float arr yi = Np.slice2 0%float arr' yi.
Proof.
  intros H H' Hy Hv.
  destruct (load_foms_inv _ _ _ _ _ _ H) as [S P].
  destruct (load_foms_inv _ _ _ _ _ _ H') as [S' P'].
  destruct (P yi Hy) as (vals & E & _ & Sp).
  destruct (P' yi Hy) as (vals' & E' & _ & Sp').
  assert (vals = vals') by congruence. subst vals'.
  pose proof (slice_spec_cells fake vals vals yi arr arr' Sp Sp') as C.
  assert (Hc : if fake
               then nth 0 vals 0%float = nth 0 vals 0%float /\
                    nth 4 vals 0%float = nth 4 vals 0%float /\
                    nth 8 vals 0%float = nth 8 vals 0%float
               else forall n, n < 9 -> nth n vals 0%float = nth n vals 0%float)
    by (destruct fake; auto).
  specialize (C Hc).
  rewrite (slice2_shaped _ _ _ _ S), (slice2_shaped _ _ _ _ S').
  rewrite !(C _ _) by lia. reflexivity.
Qed.

Lemma load_foms_year_slice_witness :
  Np.slice2 0%float
    [[[10; 0; 0; 0]; [20; 0; 0; 0]; [30; 0; 0; 0]];
     [[40; 0; 0; 0]; [50; 0; 0; 0]; [60; 0; 0; 0]];
     [[70; 0; 0; 0]; [80; 0; 0; 0]; [90; 0; 0; 0]]]%float 0
  = Np.slice2 0%float
      [[[10; 10; 10; 10]; [20; 20; 20; 20]; [30; 30; 30; 30]];
       [[40; 40; 40; 40]; [50; 50; 50; 50]; [60; 60; 60; 60]];
       [[70; 70; 70; 70]; [80; 80; 80; 80]; [90; 90; 90; 90]]]%float 0.
Proof.
  apply (load_foms_year_slice Decimal.float_of_decimal
           Sample.fs_first_year Sample.fs_nine "FoM" "FoM" false false false
           _ _ 0).
  - vm_compute. reflexivity.
  - vm_compute. reflexivity.
  - lia.
  - vm_compute. reflexivity.
Defined.

(** X5. In fake-area mode the six off-diagonal values of a year's file are
    read and then discarded: two loads that return and agree on qualifying
    values number 0, 4 and 8 of a year (the diagonal) return the same slice
    for it. *)
Theorem load_foms_fake_area_reads_diagonal
    (py_float : string -> option float) (fs fs' : filesystem)
    (dir dir' : string) (prior prior' : bool)
    (arr arr' : Np.array3 float) (yi : nat) (vals vals' : list float) :
  load_foms py_float fs dir prior true = Ok arr ->
  load_foms py_float fs' dir' prior' true = Ok arr' ->
  yi < 4 ->
  year_values py_float fs dir prior (nth yi year_vals "") = Ok vals ->
  year_values py_float fs' dir' prior' (nth yi year_vals "") = Ok vals' ->
  nth 0 vals 0%float = nth 0 vals' 0%float ->
  nth 4 vals 0%float = nth 4 vals' 0%float ->
  nth 8 vals 0%float = nth 8 vals' 0%float ->
  Np.slice2 0%float arr yi = Np.slice2 0%float arr' yi.
Proof.
  intros H H' Hy Hv Hv' E0 E4 E8.
  destruct (load_foms_inv _ _ _ _ _ _ H) as [S P].
  destruct (load_foms_inv _ _ _ _ _ _ H') as [S' P'].
  destruct (P yi Hy) as (w & E & _ & Sp).
  destruct (P' yi Hy) as (w' & E' & _ & Sp').
  assert (w = vals) by congruence. assert (w' = vals') by congruence.
  subst w w'.
  pose proof (slice_spec_cells true vals vals' yi arr arr' Sp Sp'
                (conj E0 (conj E4 E8))) as C.
  rewrite (slice2_shaped _ _ _ _ S), (slice2_shaped _ _ _ _ S').
  rewrite !(C _ _) by lia. reflexivity.
Qed.

Lemma load_foms_fake_area_reads_diagonal_witness :
  exists arr arr',
    load_foms Decimal.float_of_decimal Sample.fs_nine "FoM" false true = Ok arr
    /\ load_foms Decimal.float_of_decimal Sample.fs_other_off_diagonal "FoM"
         false true = Ok arr'
    /\ Np.slice2 0%float arr 0 = Np.slice2 0%float arr' 0.
Proof.
  eexists. eexists. split; [vm_compute; reflexivity|].
  split; [vm_compute; reflexivity|].
  apply (load_foms_fake_area_reads_diagonal Decimal.float_of_decimal
           Sample.fs_nine Sample.fs_other_off_diagonal "FoM" "FoM" false false
           _ _ 0 Sample.ten_to_ninety
           [10; 1; 2; 3; 50; 4; 5; 6; 90]%float);
    try (vm_compute; reflexivity).
  lia.
Defined.

(** ** The fake-area rescaling as an operation *)

(** Two arrays of one shape with the same cells are the same array. *)
Lemma array3_ext {A : Type} (z : A) (n0 n1 n2 : nat) (a a' : Np.array3 A) :
  Np.shaped n0 n1 n2 a -> Np.shaped n0 n1 n2 a' ->
  (forall i j k, i < n0 -> j < n1 -> k < n2 ->
     Np.get3 z a i j k = Np.get3 z a' i j k) ->
  a = a'.
Proof.
  intros [L R] [L' R'] H.
  apply (nth_ext a a' [] []); [congruence|].
  intros i Hi. rewrite L in Hi.
  assert (Ri : List.length (nth i a []) = n1 /\
               Forall (fun c => List.length c = n2) (nth i a []))
    by (apply (proj1 (Forall_forall _ _) R), nth_In; lia).
  assert (Ri' : List.length (nth i a' []) = n1 /\
                Forall (fun c => List.length c = n2) (nth i a' []))
    by (apply (proj1 (Forall_forall _ _) R'), nth_In; lia).
  destruct Ri as [Lr Cr], Ri' as [Lr' Cr'].
  apply (nth_ext _ _ [] []); [congruence|].
  intros j Hj. rewrite Lr in Hj.
  assert (Lc : List.length (nth j (nth i a []) []) = n2)
    by (apply (proj1 (Forall_forall _ _) Cr), nth_In; lia).
  assert (Lc' : List.length (nth j (nth i a' []) []) = n2)
    by (apply (proj1 (Forall_forall _ _) Cr'), nth_In; lia).
  apply (nth_ext _ _ z z); [congruence|].
  intros k Hk. rewrite Lc in Hk. apply (H i j k Hi Hj Hk).
Qed.

(** X6. The fake-area rescaling is idempotent: it rebuilds the six cells
    from the diagonal, which it leaves alone, so rescaling a rescaled array
    again returns the same array (for binary64 as for any number type). *)
Theorem fake_area_rescale_idempotent {F : Type} (zero : F)
    (mul div : F -> F -> F) (areas_tab : list (list F))
    (a a1 : Np.array3 F) (yi : nat) :
  Np.shaped 3 3 4 a -> yi < 4 ->
  fake_area_rescale zero mul div areas_tab a yi = Ok a1 ->
  fake_area_rescale zero mul div areas_tab a1 yi = Ok a1.
Proof.
  intros Hs Hy H.
  destruct (fake_area_rescale_ok zero mul div areas_tab a yi Hs Hy)
    as (b & E & S1 & K & D & R1 & R2 & R3 & R4 & R5 & R6).
  assert (b = a1) by congruence. subst b.
  destruct (fake_area_rescale_ok zero mul div areas_tab a1 yi S1 Hy)
    as (a2 & E2 & S2 & K' & D' & Q1 & Q2 & Q3 & Q4 & Q5 & Q6).
  rewrite E2. f_equal.
  apply (array3_ext zero 3 3 4 a2 a1 S2 S1).
  intros i j k Hi Hj Hk.
  destruct (Nat.eq_dec k yi) as [->|Hne]; [|now apply K'].
  rewrite !D in Q1, Q2, Q3, Q4, Q5, Q6.
  do 3 (destruct i as [|i];
        [do 3 (destruct j as [|j]; [first [apply D' | congruence]|]); lia|]).
  lia.
Qed.

Lemma fake_area_rescale_idempotent_witness :
  exists a1,
    fake_area_rescale 0%float PrimFloat.mul PrimFloat.div areas
      Sample.grid_f 0 = Ok a1 /\
    fake_area_rescale 0%float PrimFloat.mul PrimFloat.div areas a1 0 = Ok a1.
Proof.
  eexists. split; [vm_compute; reflexivity|].
  apply (fake_area_rescale_idempotent 0%float PrimFloat.mul PrimFloat.div
           areas Sample.grid_f _ 0).
  - vm_compute. repeat constructor.
  - lia.
  - vm_compute. reflexivity.
Defined.

(** ** What is read of a line *)

Lemma contains_cons_false (sep c : ascii) (s : string) :
  Str.contains (String sep EmptyString) (String c s) = false ->
  Ascii.eqb c sep = false /\ Str.contains (String sep EmptyString) s = false.
Proof.
  cbn [Str.contains String.prefix].
  destruct (Ascii.ascii_dec sep c) as [->|Hne].
  - destruct s; discriminate.
  - cbn [orb]. intros H. split; [|exact H].
    apply Ascii.eqb_neq. congruence.
Qed.

(** A string without the separator is its own single piece. *)
Lemma split_none (sep : ascii) (s : string) :
  Str.contains (String sep EmptyString) s = false -> Str.split sep s = [s].
Proof.
  induction s as [|c s IH]; [reflexivity|]. intros H.
  apply contains_cons_false in H. destruct H as [Hc Hs].
  cbn [Str.split]. rewrite Hc, (IH Hs). reflexivity.
Qed.

(** The first piece ends at the first separator. *)
Lemma split_first (sep : ascii) (pre s : string) :
  Str.contains (String sep EmptyString) pre = false ->
  Str.split sep (pre ++ String sep s) = pre :: Str.split sep s.
Proof.
  induction pre as [|c pre IH]; intros H.
  - cbn [String.append Str.split]. now rewrite Ascii.eqb_refl.
  - apply contains_cons_false in H. destruct H as [Hc Hs].
    cbn [String.append Str.split]. rewrite Hc, (IH Hs). reflexivity.
Qed.

(** X7. Of a qualifying line the loader reads the text between the first
    and the second [=] only: whatever follows a second [=] is ignored, and a
    line with no [=] at all raises [IndexError]. *)
Theorem line_fom_reads_second_piece
    (py_float : string -> option float) (label value rest : string) :
  Str.contains "=" label = false ->
  Str.contains "=" value = false ->
  line_fom py_float (label ++ "=" ++ value) = float_of_string py_float value /\
  line_fom py_float (label ++ "=" ++ value ++ "=" ++ rest)
  = float_of_string py_float value /\
  line_fom py_float label = Raise IndexError.
Proof.
  intros Hl Hv. unfold line_fom.
  change ("=" ++ value)%string with (String "=" value).
  change ("=" ++ value ++ "=" ++ rest)%string
    with (String "=" (value ++ String "=" rest)).
  rewrite !(split_first "=" label) by exact Hl.
  rewrite (split_first "=" value) by exact Hv.
  rewrite (split_none "=" value) by exact Hv.
  rewrite (split_none "=" label) by exact Hl.
  repeat split.
Qed.

Lemma line_fom_reads_second_piece_witness :
  line_fom Decimal.float_of_decimal "excl_fom=10.0" = Ok 10%float /\
  line_fom Decimal.float_of_decimal "excl_fom=10.0=# checked" = Ok 10%float /\
  line_fom Decimal.float_of_decimal "excl_fom" = Raise IndexError.
Proof.
  apply (line_fom_reads_second_piece Decimal.float_of_decimal
           "excl_fom" "10.0" "# checked"); reflexivity.
Defined.

(** ** The strategy table as a whole *)

Lemma for_each_nth {A B : Type} (body : A -> result B) (l : list A)
    (ys : list B) :
  Py.for_each body l = Ok ys ->
  forall i x, nth_error l i = Some x ->
    exists y, body x = Ok y /\ nth_error ys i = Some y.
Proof.
  revert ys. induction l as [|a l IH]; intros ys H i x Hx.
  - destruct i; discriminate.
  - apply for_each_cons_inv in H. destruct H as (y & ys' & Hy & Hys & ->).
    destruct i as [|i].
    + injection Hx as <-. exists y. auto.
    + apply (IH ys' Hys i x Hx).
Qed.

Lemma for_each_first_error {A B : Type} (body : A -> result B)
    (pre post : list A) (x : A) (e : exn) :
  Forall (fun a => is_ok (body a) = true) pre ->
  body x = Raise e ->
  Py.for_each body (pre ++ x :: post) = Raise e.
Proof.
  intros Hpre Hx. induction Hpre as [|a pre Ha _ IH].
  - cbn [app Py.for_each]. now rewrite Hx.
  - cbn [app Py.for_each]. destruct (body a); [|discriminate].
    cbn [bind]. now rewrite IH.
Qed.

Lemma int_array_length (wide : list Z -> Z -> Z) (l : list Z) :
  List.length (Np.int_array wide l) = List.length l.
Proof.
  unfold Np.int_array. destruct (forallb Np.in_int64 l); [reflexivity|].
  apply length_map.
Qed.

Lemma int_array_fits (wide : list Z -> Z -> Z) (l : list Z) :
  forallb Np.in_int64 l = true -> Np.int_array wide l = l.
Proof. intros H. unfold Np.int_array. now rewrite H. Qed.

(** X8. When [load_strategy_table] returns, the table file exists and
    opens, and the four arrays are parallel: each has one entry per line of
    the file, in file order (duplicates kept). Entry [i] of the names is the
    name parsed on line [i] as numpy's string array gives it back, entries
    [i] of the areas and depths are the floats parsed on line [i], and the
    visit counts are the array numpy makes of the counts parsed line by
    line: these counts themselves whenever all of them fit [int64]. *)
Theorem load_strategy_table_rows
    (py_float : string -> option float) (py_int : string -> option Z)
    (np_wide : list Z -> Z -> Z)
    (fs : filesystem) (year_str : string)
    (names : list string) (area depth : list float) (niexp : list Z) :
  load_strategy_table py_float py_int np_wide fs year_str
  = Ok (names, area, depth, niexp) ->
  let infile := ("./strategy_table_" ++ year_str ++ ".txt")%string in
  exists lines year_ind counts,
    path_exists fs infile = true /\
    read_lines fs infile = Some lines /\
    Py.index year_vals year_str = Ok year_ind /\
    List.length names = List.length lines /\
    List.length area = List.length lines /\
    List.length depth = List.length lines /\
    List.length niexp = List.length lines /\
    niexp = Np.int_array np_wide counts /\
    (forallb Np.in_int64 counts = true -> niexp = counts) /\
    forall i line, nth_error lines i = Some line ->
      exists n a d k,
        parse_row py_float py_int year_ind line = Ok (n, a, d, k) /\
        nth_error names i = Some (Np.str_item n) /\
        nth_error area i = Some a /\
        nth_error depth i = Some d /\
        nth_error counts i = Some k.
Proof.
  intros H infile. unfold load_strategy_table, open_lines in H.
  fold infile in H.
  destruct (path_exists fs infile); [|discriminate]. cbn [negb] in H.
  destruct (read_lines fs infile) as [lines|]; [|discriminate].
  cbn [bind] in H.
  destruct (Py.index year_vals year_str) as [yi|]; [|discriminate].
  cbn [bind] in H.
  destruct (Py.for_each (parse_row py_float py_int yi) lines) as [rows|] eqn:E;
    [|discriminate].
  cbn [bind] in H. injection H as <- <- <- <-.
  exists lines, yi, (map snd rows).
  rewrite int_array_length, !length_map, (for_each_length _ _ _ E).
  repeat (split; [reflexivity|]).
  split; [apply int_array_fits|].
  intros i line Hl.
  destruct (for_each_nth _ _ _ E i line Hl) as ([[[n a] d] k] & Hp & Hn).
  exists n, a, d, k. rewrite !nth_error_map, Hn. repeat split. exact Hp.
Qed.

Lemma load_strategy_table_rows_witness :
  exists lines year_ind counts,
    path_exists Sample.fs_table ("./strategy_table_" ++ "Y1" ++ ".txt") = true /\
    read_lines Sample.fs_table ("./strategy_table_" ++ "Y1" ++ ".txt")
    = Some lines /\
    Py.index year_vals "Y1" = Ok year_ind /\
    List.length ["baseline2018a"; "kraken_2026"; "my_strategy"]
    = List.length lines /\
    List.length [18000; 15000; 14000]%float = List.length lines /\
    List.length [25.1; 26; 25.5]%float = List.length lines /\
    List.length [42; 15; 0]%Z = List.length lines /\
    [42; 15; 0]%Z = Np.int_array Sample.exact_ints counts /\
    (forallb Np.in_int64 counts = true -> [42; 15; 0]%Z = counts) /\
    forall i line, nth_error lines i = Some line ->
      exists n a d k,
        parse_row Decimal.float_of_decimal Decimal.int_of_decimal year_ind line
        = Ok (n, a, d, k) /\
        nth_error ["baseline2018a"; "kraken_2026"; "my_strategy"] i
        = Some (Np.str_item n) /\
        nth_error [18000; 15000; 14000]%float i = Some a /\
        nth_error [25.1; 26; 25.5]%float i = Some d /\
        nth_error counts i = Some k.
Proof.
  apply (load_strategy_table_rows Decimal.float_of_decimal
           Decimal.int_of_decimal Sample.exact_ints Sample.fs_table "Y1").
  vm_compute. reflexivity.
Defined.

(** X9. The errors of [load_strategy_table]: a table file that does not
    exist is the [ValueError] of line 137, reported before the year is
    looked at; one that exists but does not open is the [OSError] of
    [open]; a year token outside [year_vals] is the [ValueError] of
    [list.index] even when its file is read; and a line without [|] (a
    blank line, say) after rows that parse makes the whole call raise
    [IndexError], nothing being returned for the rows before. *)
Theorem load_strategy_table_errors
    (py_float : string -> option float) (py_int : string -> option Z)
    (np_wide : list Z -> Z -> Z)
    (fs : filesystem) (year_str : string) :
  let infile := ("./strategy_table_" ++ year_str ++ ".txt")%string in
  (path_exists fs infile = false ->
   load_strategy_table py_float py_int np_wide fs year_str
   = Raise (ValueError ("Cannot find file " ++ infile ++ " for year "
                        ++ year_str ++ "!"))) /\
  (path_exists fs infile = true -> read_lines fs infile = None ->
   load_strategy_table py_float py_int np_wide fs year_str = Raise IOError) /\
  (forall lines,
     path_exists fs infile = true ->
     read_lines fs infile = Some lines -> ~ In year_str year_vals ->
     load_strategy_table py_float py_int np_wide fs year_str
     = Raise (ValueError ("'" ++ year_str ++ "' is not in list"))) /\
  (forall year_ind pre line post,
     path_exists fs infile = true ->
     read_lines fs infile = Some (pre ++ line :: post) ->
     Py.index year_vals year_str = Ok year_ind ->
     Forall (fun l => is_ok (parse_row py_float py_int year_ind l) = true) pre ->
     Str.contains "|" line = false ->
     load_strategy_table py_float py_int np_wide fs year_str
     = Raise IndexError).
Proof.
  intros infile. unfold load_strategy_table, open_lines. fold infile.
  split; [|split; [|split]].
  - intros ->. reflexivity.
  - intros -> ->. reflexivity.
  - intros lines -> -> Hn. cbn [negb bind].
    now rewrite (index_not_in _ _ Hn).
  - intros yi pre line post -> -> -> Hpre Hline. cbn [negb bind].
    rewrite (for_each_first_error _ pre post line IndexError Hpre);
      [reflexivity|].
    unfold parse_row. now rewrite (split_none "|" line Hline).
Qed.

Lemma load_strategy_table_errors_witness :
  load_strategy_table Decimal.float_of_decimal Decimal.int_of_decimal
    Sample.exact_ints Sample.fs_table_locked "Y1" = Raise IOError /\
  load_strategy_table Decimal.float_of_decimal Decimal.int_of_decimal
    Sample.exact_ints Sample.fs_table_blank "Y1" = Raise IndexError.
Proof.
  split.
  - apply (proj1 (proj2 (load_strategy_table_errors
                           Decimal.float_of_decimal Decimal.int_of_decimal
                           Sample.exact_ints Sample.fs_table_locked "Y1")));
      reflexivity.
  - apply (proj2 (proj2 (proj2 (load_strategy_table_errors
                                  Decimal.float_of_decimal
                                  Decimal.int_of_decimal Sample.exact_ints
                                  Sample.fs_table_blank "Y1")))
             0 (firstn 2 Sample.table_lines) ""
             [nth 2 Sample.table_lines ""]).
    + reflexivity.
    + reflexivity.
    + reflexivity.
    + repeat constructor.
    + reflexivity.
Defined.

(** ** Division by one

    Binary64 division by [1.0] returns its dividend: the quotient of the
    mantissas is exact, so nothing is rounded. *)

Lemma div_eucl_pow2 (m : positive) (k : Z) :
  (52 <= k)%Z ->
  Z.div_eucl (Z.pos m * 2 ^ k) 4503599627370496
  = (Z.pos m * 2 ^ (k - 52), 0)%Z.
Proof.
  intros Hk.
  assert (E : (Z.pos m * 2 ^ k
               = (Z.pos m * 2 ^ (k - 52)) * 4503599627370496)%Z).
  { change 4503599627370496%Z with (2 ^ 52)%Z.
    rewrite <- Z.mul_assoc, <- Z.pow_add_r by lia. do 2 f_equal. lia. }
  rewrite E.
  assert (Q : ((Z.pos m * 2 ^ (k - 52)) * 4503599627370496 / 4503599627370496
               = Z.pos m * 2 ^ (k - 52))%Z)
    by (apply Z.div_mul; lia).
  assert (R : (((Z.pos m * 2 ^ (k - 52)) * 4503599627370496)
               mod 4503599627370496 = 0)%Z)
    by (apply Z.mod_mul; lia).
  unfold Z.div, Z.modulo in Q, R.
  destruct (Z.div_eucl _ _) as [q' r'].
  simpl in Q, R. now subst.
Qed.

Lemma SFdiv_one (s : bool) (m : positive) (e : Z) :
  bounded prec emax m e = true ->
  SFdiv prec emax (S754_finite s m e)
    (S754_finite false 4503599627370496 (-52))
  = S754_finite s m e.
Proof.
  unfold bounded, canonical_mantissa. intros H.
  apply andb_prop in H. destruct H as [Hc He].
  apply Z.eqb_eq in Hc.
  set (d := Z.pos (digits2_pos m)) in *.
  assert (Hd : (0 < d)%Z) by (unfold d; lia).
  unfold fexp, emin, prec, emax in Hc.
  unfold SFdiv, SFdiv_core_binary.
  change (Zdigits2 (Z.pos m)) with d.
  change (Zdigits2 4503599627370496) with 53%Z.
  rewrite xorb_false_r.
  destruct (Z.eq_dec e (-1074)) as [->|Hne].
  - (* the smallest exponent: subnormal numbers and the first binade *)
    assert (F : fexp prec emax (d + -1074 - (53 + -52)) = (-1074)%Z).
    { unfold fexp, emin, prec, emax. lia. }
    rewrite F.
    change (Z.min (-1074) (-1074 - -52)) with (-1074)%Z.
    change (-1074 - -52 - -1074)%Z with 52%Z.
    cbv iota beta.
    change IntDef.Z.div_eucl with Z.div_eucl.
    change IntDef.Z.shiftl with Z.shiftl.
    rewrite Z.shiftl_mul_pow2 by lia.
    rewrite (div_eucl_pow2 m 52) by lia.
    change (52 - 52)%Z with 0%Z. rewrite Z.mul_1_r.
    change (new_location 4503599627370496 0) with loc_Exact.
    unfold binary_round_aux, shr_fexp.
    change (Zdigits2 (Z.pos m)) with d.
    assert (G : (fexp prec emax (d + -1074) - -1074 = 0)%Z).
    { unfold fexp, emin, prec, emax. lia. }
    rewrite G. cbn [shr shr_record_of_loc shr_m loc_of_shr_record
                    round_nearest_even].
    change (Zdigits2 (Z.pos m)) with d. rewrite G.
    cbn [shr shr_record_of_loc shr_m]. reflexivity.
  - (* a normal number above the first binade: one extra quotient bit,
       shifted out again *)
    assert (D : d = 53%Z) by lia.
    assert (F : fexp prec emax (d + e - (53 + -52)) = (e - 1)%Z).
    { unfold fexp, emin, prec, emax. lia. }
    rewrite F.
    replace (Z.min (e - 1) (e - -52)) with (e - 1)%Z by lia.
    replace (e - -52 - (e - 1))%Z with 53%Z by lia.
    cbv iota beta.
    change IntDef.Z.div_eucl with Z.div_eucl.
    change IntDef.Z.shiftl with Z.shiftl.
    rewrite Z.shiftl_mul_pow2 by lia.
    rewrite (div_eucl_pow2 m 53) by lia.
    replace (Z.pos m * 2 ^ (53 - 52))%Z with (Z.pos m~0)
      by (change (2 ^ (53 - 52))%Z with 2%Z; lia).
    change (new_location 4503599627370496 0) with loc_Exact.
    unfold binary_round_aux, shr_fexp.
    change (Zdigits2 (Z.pos m~0)) with (Z.pos (Pos.succ (digits2_pos m))).
    rewrite Pos2Z.inj_succ. fold d.
    assert (G : (fexp prec emax (Z.succ d + (e - 1)) - (e - 1) = 1)%Z).
    { unfold fexp, emin, prec, emax. lia. }
    rewrite G. cbn [shr SpecFloat.iter_pos shr_1 shr_record_of_loc shr_m
                    loc_of_shr_record round_nearest_even orb].
    change (Zdigits2 (Z.pos m)) with d.
    replace (e - 1 + 1)%Z with e by lia.
    assert (G' : (fexp prec emax (d + e) - e = 0)%Z).
    { unfold fexp, emin, prec, emax. lia. }
    rewrite G'. cbn [shr shr_record_of_loc shr_m].
    rewrite He. reflexivity.
Qed.

Lemma div_one (x : float) : (x / 1)%float = x.
Proof.
  apply Prim2SF_inj. rewrite FloatAxioms.div_spec.
  change (Prim2SF 1%float) with (S754_finite false 4503599627370496 (-52)).
  pose proof (Prim2SF_valid x) as V.
  destruct (Prim2SF x) as [s|s| |s m e].
  - simpl. now rewrite xorb_false_r.
  - simpl. now rewrite xorb_false_r.
  - reflexivity.
  - apply SFdiv_one. exact V.
Qed.

(** ** The emulator on arrays of different lengths *)

Lemma for_each_ext {A B : Type} (body body' : A -> result B) (l : list A) :
  (forall x, In x l -> body x = body' x) ->
  Py.for_each body l = Py.for_each body' l.
Proof.
  induction l as [|a l IH]; intros H; [reflexivity|].
  cbn [Py.for_each]. rewrite (H a) by (left; reflexivity).
  rewrite IH; [reflexivity|]. intros x Hx. apply H. now right.
Qed.

Lemma map_fst_combine {A B : Type} (l : list A) (l' : list B) :
  List.length l <= List.length l' -> map fst (combine l l') = l.
Proof.
  revert l'. induction l as [|a l IH]; intros [|b l'] H; simpl in *;
    try reflexivity; try lia.
  f_equal. apply IH. lia.
Qed.

Lemma map_snd_combine {A B : Type} (l : list A) (l' : list B) :
  List.length l <= List.length l' ->
  map snd (combine l l') = firstn (List.length l) l'.
Proof.
  revert l'. induction l as [|a l IH]; intros [|b l'] H; simpl in *;
    try reflexivity; try lia.
  f_equal. apply IH. lia.
Qed.

Lemma index_first (pre post : list string) (x : string) :
  ~ In x pre -> Py.index (pre ++ x :: post) x = Ok (List.length pre).
Proof.
  induction pre as [|y pre IH]; intros H; cbn [app Py.index List.length].
  - now rewrite String.eqb_refl.
  - destruct (String.eqb y x) eqn:E.
    + apply String.eqb_eq in E. exfalso. apply H. now left.
    + rewrite IH; [reflexivity|]. intros Hin. apply H. now right.
Qed.

Section EmulatorLengths.
Variable f : float -> float -> float.

(** With at least as many depths as areas, the depths beyond the last
    area are never read. *)
Lemma fom_loop_combine (area_vals depth_vals : list float) (c : float) :
  List.length area_vals <= List.length depth_vals ->
  fom_loop f area_vals depth_vals c
  = Ok (map (fun p => (f (fst p) (snd p) / c)%float)
          (combine area_vals depth_vals)).
Proof.
  intros H.
  rewrite <- (fom_loop_pairs f (combine area_vals depth_vals) c).
  rewrite (map_fst_combine _ _ H), (map_snd_combine _ _ H).
  unfold fom_loop. apply for_each_ext. intros ind Hin.
  apply in_seq in Hin. unfold Py.item. rewrite nth_error_firstn.
  destruct (ind <? List.length area_vals) eqn:E; [reflexivity|].
  apply Nat.ltb_ge in E. lia.
Qed.

(** With fewer depths than areas, the loop stops at the first area without
    a depth. *)
Lemma fom_loop_short (area_vals depth_vals : list float) (c : float) :
  List.length depth_vals < List.length area_vals ->
  fom_loop f area_vals depth_vals c = Raise IndexError.
Proof.
  intros H. unfold fom_loop.
  replace (List.length area_vals)
    with (List.length depth_vals
          + S (List.length area_vals - S (List.length depth_vals))) by lia.
  rewrite seq_app. cbn [seq Nat.add].
  apply for_each_first_error.
  - apply Forall_forall. intros ind Hin. apply in_seq in Hin.
    unfold Py.item.
    destruct (nth_error area_vals ind) eqn:Ea;
      [|apply nth_error_None in Ea; lia].
    destruct (nth_error depth_vals ind) eqn:Ed;
      [|apply nth_error_None in Ed; lia].
    reflexivity.
  - unfold Py.item.
    destruct (nth_error area_vals (List.length depth_vals)) eqn:Ea;
      [|apply nth_error_None in Ea; lia].
    cbn [bind].
    destruct (nth_error depth_vals (List.length depth_vals)) eqn:Ed;
      [|reflexivity].
    assert (N : nth_error depth_vals (List.length depth_vals) <> None)
      by congruence.
    apply nth_error_Some in N. lia.
Qed.

End EmulatorLengths.

(** X10. [emulate_fom] never compares the lengths of its two coordinate
    arrays. Once the divisor is settled and the figures are drawn, depths
    beyond the last area are ignored: one value is returned per area. With
    fewer depths than areas the call raises [IndexError], and the module
    variable keeps the value the call has just stored in it. *)
Theorem emulate_fom_lengths
    (interp2d : list (list float) -> list (list float) -> list (list float) ->
                float -> float -> float)
    (diagnostic_plots : string -> list float -> list float -> list Z ->
                        (float -> float -> float) -> float -> option exn)
    (rs : option string) (area_vals depth_vals : list float)
    (ga gd gf : list (list float)) (niexp : list Z) (figpref : option string)
    (names : option (list string)) (g g' : globals) (c : float) :
  let f := interp2d ga gd gf in
  (forall pref c, figpref = Some pref ->
     diagnostic_plots pref area_vals depth_vals niexp f c = None) ->
  renormalize rs f area_vals depth_vals names g = (Ok c, g') ->
  (List.length area_vals <= List.length depth_vals ->
   emulate_fom interp2d diagnostic_plots rs area_vals depth_vals ga gd gf
     niexp figpref names g
   = (Ok (map (fun p => (f (fst p) (snd p) / c)%float)
            (combine area_vals depth_vals)), g')) /\
  (List.length depth_vals < List.length area_vals ->
   emulate_fom interp2d diagnostic_plots rs area_vals depth_vals ga gd gf
     niexp figpref names g
   = (Raise IndexError, g')).
Proof.
  intros f Hq Hr.
  rewrite (emulate_fom_unfold interp2d diagnostic_plots rs area_vals
             depth_vals ga gd gf niexp figpref names g Hq).
  fold f. rewrite Hr. split; intros H.
  - now rewrite (fom_loop_combine f _ _ c H).
  - now rewrite (fom_loop_short f _ _ c H).
Qed.

Lemma emulate_fom_lengths_witness :
  emulate_fom Sample.flat_interp Sample.no_plots renorm_strategy
    [18000; 15000]%float [25.1]%float (plot_areas 0) (plot_depths 0)
    (Sample.flat_grid 30%float) [] None
    (Some ["kraken_2026"; "baseline2018a"]) initial_globals
  = (Raise IndexError, {| renorm_value := 30 |}).
Proof.
  apply (proj2 (emulate_fom_lengths Sample.flat_interp Sample.no_plots
                  renorm_strategy [18000; 15000]%float [25.1]%float
                  (plot_areas 0) (plot_depths 0) (Sample.flat_grid 30%float)
                  [] None (Some ["kraken_2026"; "baseline2018a"])
                  initial_globals {| renorm_value := 30 |} 30%float
                  ltac:(discriminate) ltac:(reflexivity))).
  simpl. lia.
Defined.

(** X11. A strategy list that names the reference strategy more than once
    is normalised by its first row: from a state that holds no positive
    value, the divisor and the value stored are the interpolant at the
    first entry called [renorm_strategy], whatever follows it. *)
Theorem emulate_fom_first_reference_row
    (interp2d : list (list float) -> list (list float) -> list (list float) ->
                float -> float -> float)
    (diagnostic_plots : string -> list float -> list float -> list Z ->
                        (float -> float -> float) -> float -> option exn)
    (name : string) (pairs : list (float * float))
    (ga gd gf : list (list float)) (niexp : list Z) (figpref : option string)
    (pre post : list string) (g : globals) (a d : float) :
  let f := interp2d ga gd gf in
  let area_vals := map fst pairs in
  let depth_vals := map snd pairs in
  (forall pref c, figpref = Some pref ->
     diagnostic_plots pref area_vals depth_vals niexp f c = None) ->
  (0 <? renorm_value g)%float = false ->
  ~ In name pre ->
  nth_error pairs (List.length pre) = Some (a, d) ->
  emulate_fom interp2d diagnostic_plots (Some name) area_vals depth_vals
    ga gd gf niexp figpref (Some (pre ++ name :: post)) g
  = (Ok (map (fun p => (f (fst p) (snd p) / f a d)%float) pairs),
     {| renorm_value := f a d |}).
Proof.
  intros f area_vals depth_vals Hq Hc Hpre Hn.
  subst area_vals depth_vals.
  rewrite (emulate_fom_pairs interp2d diagnostic_plots (Some name) pairs
             ga gd gf niexp figpref (Some (pre ++ name :: post)) g Hq).
  fold f. unfold renormalize. rewrite Hc, (index_first pre post name Hpre).
  cbn [bind].
  rewrite (item_map fst _ _ _ Hn), (item_map snd _ _ _ Hn).
  reflexivity.
Qed.

Lemma emulate_fom_first_reference_row_witness :
  emulate_fom Sample.flat_interp Sample.no_plots renorm_strategy
    [18000; 15000; 14000]%float [25.1; 26; 25.5]%float
    (plot_areas 0) (plot_depths 0) (Sample.flat_grid 30%float) [] None
    (Some ["baseline2018a"; "kraken_2026"; "kraken_2026"]) initial_globals
  = (Ok [30 / 30; 30 / 30; 30 / 30]%float, {| renorm_value := 30 |}).
Proof.
  apply (emulate_fom_first_reference_row Sample.flat_interp Sample.no_plots
           "kraken_2026"
           [(18000, 25.1); (15000, 26); (14000, 25.5)]%float
           (plot_areas 0) (plot_depths 0) (Sample.flat_grid 30%float) []
           None ["baseline2018a"] ["kraken_2026"] initial_globals
           15000%float 26%float).
  - discriminate.
  - reflexivity.
  - intros [H|[]]. discriminate H.
  - reflexivity.
Defined.

(** X12. With [renorm_strategy = None] the emulator returns the
    interpolant's values themselves, bit for bit: the division by [1.0] of
    line 249 changes nothing. The module variable is left alone and the
    strategy list is not looked at, so the call cannot raise the
    [ValueError]s of lines 188 and 190. *)
Theorem emulate_fom_without_strategy
    (interp2d : list (list float) -> list (list float) -> list (list float) ->
                float -> float -> float)
    (diagnostic_plots : string -> list float -> list float -> list Z ->
                        (float -> float -> float) -> float -> option exn)
    (area_vals depth_vals : list float)
    (ga gd gf : list (list float)) (niexp : list Z) (figpref : option string)
    (names : option (list string)) (g : globals) :
  let f := interp2d ga gd gf in
  (forall pref c, figpref = Some pref ->
     diagnostic_plots pref area_vals depth_vals niexp f c = None) ->
  List.length area_vals <= List.length depth_vals ->
  emulate_fom interp2d diagnostic_plots None area_vals depth_vals ga gd gf
    niexp figpref names g
  = (Ok (map (fun p => f (fst p) (snd p)) (combine area_vals depth_vals)), g).
Proof.
  intros f Hq H.
  rewrite (emulate_fom_unfold interp2d diagnostic_plots None area_vals
             depth_vals ga gd gf niexp figpref names g Hq).
  fold f. cbn [renormalize].
  rewrite (fom_loop_combine f _ _ 1%float H). do 2 f_equal.
  apply map_ext. intros p. apply div_one.
Qed.

Lemma emulate_fom_without_strategy_witness :
  emulate_fom Sample.flat_interp Sample.no_plots None
    [18000; 15000]%float [25.1; 26; 26.5]%float (plot_areas 0)
    (plot_depths 0) (Sample.flat_grid 30%float) [] (Some "fig") None
    initial_globals
  = (Ok [30; 30]%float, initial_globals).
Proof.
  apply (emulate_fom_without_strategy Sample.flat_interp Sample.no_plots
           [18000; 15000]%float [25.1; 26; 26.5]%float (plot_areas 0)
           (plot_depths 0) (Sample.flat_grid 30%float) [] (Some "fig") None
           initial_globals).
  - reflexivity.
  - simpl. lia.
Defined.

(** ** area_depth_func *)

Lemma item_ok {A : Type} (l : list A) (i : nat) (a : A) :
  nth_error l i = Some a -> Py.item l i = Ok a.
Proof. intros H. unfold Py.item. now rewrite H. Qed.

Lemma item_short {A : Type} (l : list A) (i : nat) :
  List.length l <= i -> Py.item l i = Raise IndexError.
Proof.
  intros H. unfold Py.item. apply nth_error_None in H. now rewrite H.
Qed.

Lemma item_inv {A : Type} (l : list A) (i : nat) (a : A) :
  Py.item l i = Ok a -> nth_error l i = Some a /\ i < List.length l.
Proof.
  unfold Py.item. destruct (nth_error l i) eqn:E; [|discriminate].
  intros [= ->]. split; [reflexivity|].
  apply nth_error_Some. congruence.
Qed.

(** X13. [area_depth_func] returns exactly when its argument has the rows
    0 and 1 and both hold a column 4, the reference column; the only error
    it raises itself is [IndexError]. *)
Theorem area_depth_func_returns_iff
    (np_power : float -> float -> float) (x : list (list float))
    (a b c : float) :
  ((exists out, area_depth_func np_power x a b c = Ok out) <->
   (exists areas_row depths_row,
      nth_error x 0 = Some areas_row /\ nth_error x 1 = Some depths_row /\
      5 <= List.length areas_row /\ 5 <= List.length depths_row)) /\
  (forall e, area_depth_func np_power x a b c = Raise e -> e = IndexError).
Proof.
  unfold area_depth_func. split; [split|].
  - intros [out H].
    destruct (Py.item x 0) as [ar|] eqn:E0; [|discriminate].
    destruct (Py.item x 1) as [dr|] eqn:E1; [|discriminate].
    cbn [bind] in H.
    destruct (Py.item ar 4) as [a0|] eqn:Ea; [|discriminate].
    destruct (Py.item dr 4) as [d0|] eqn:Ed; [|discriminate].
    apply item_inv in E0, E1, Ea, Ed.
    exists ar, dr. intuition lia.
  - intros (ar & dr & E0 & E1 & La & Ld).
    rewrite (item_ok _ _ _ E0), (item_ok _ _ _ E1). cbn [bind].
    destruct (nth_error ar 4) as [a0|] eqn:Ea;
      [|apply nth_error_None in Ea; lia].
    destruct (nth_error dr 4) as [d0|] eqn:Ed;
      [|apply nth_error_None in Ed; lia].
    rewrite (item_ok _ _ _ Ea), (item_ok _ _ _ Ed). cbn [bind].
    eexists. reflexivity.
  - intros e. unfold Py.item.
    destruct (nth_error x 0) as [ar|]; [|now intros [= <-]].
    destruct (nth_error x 1) as [dr|]; [|now intros [= <-]].
    cbn [bind].
    destruct (nth_error ar 4) as [a0|]; [|now intros [= <-]].
    destruct (nth_error dr 4) as [d0|]; [|now intros [= <-]].
    discriminate.
Qed.

(** X14. On a rectangular argument whose reference column holds finite
    nonzero values, [area_depth_func] returns one value per column, and at
    the reference column both ratios are exactly [1.0]: the value there is
    [(a + b * 1.0) * 1.0 ** c], whatever the areas and depths are. *)
Theorem area_depth_func_reference_column
    (np_power : float -> float -> float) (x : list (list float))
    (areas_row depths_row : list float) (a b c area_0 depth_0 : float) :
  nth_error x 0 = Some areas_row ->
  nth_error x 1 = Some depths_row ->
  List.length areas_row = List.length depths_row ->
  nth_error areas_row 4 = Some area_0 ->
  nth_error depths_row 4 = Some depth_0 ->
  is_finite area_0 = true -> is_zero area_0 = false ->
  is_finite depth_0 = true -> is_zero depth_0 = false ->
  exists out,
    area_depth_func np_power x a b c = Ok out /\
    List.length out = List.length areas_row /\
    nth_error out 4 = Some ((a + b * 1) * np_power 1 c)%float.
Proof.
  intros E0 E1 L Ea Ed Fa Za Fd Zd. unfold area_depth_func.
  rewrite (item_ok _ _ _ E0), (item_ok _ _ _ E1). cbn [bind].
  rewrite (item_ok _ _ _ Ea), (item_ok _ _ _ Ed). cbn [bind].
  eexists. split; [reflexivity|]. split.
  - rewrite length_map, length_combine, !length_map. lia.
  - rewrite nth_error_map.
    assert (N : nth_error
                  (combine (map (fun v => (v / depth_0)%float) depths_row)
                     (map (fun v => (v / area_0)%float) areas_row)) 4
                = Some ((depth_0 / depth_0)%float, (area_0 / area_0)%float)).
    { clear - Ea Ed.
      destruct depths_row as [|d1 [|d2 [|d3 [|d4 [|d5 dr]]]]];
        try discriminate.
      destruct areas_row as [|a1 [|a2 [|a3 [|a4 [|a5 ar]]]]];
        try discriminate.
      simpl in Ea, Ed. injection Ea as ->. injection Ed as ->.
      reflexivity. }
    rewrite N. cbn [option_map fst snd].
    now rewrite (div_self_finite _ Fa Za), (div_self_finite _ Fd Zd).
Qed.

Lemma area_depth_func_reference_column_witness :
  exists out,
    area_depth_func Sample.first_power Sample.area_depth_x 2 3 1 = Ok out /\
    List.length out = 5 /\
    nth_error out 4 = Some ((2 + 3 * 1) * 1)%float.
Proof.
  apply (area_depth_func_reference_column Sample.first_power
           Sample.area_depth_x
           [7500; 10000; 13000; 15000; 16000]%float
           [24.9; 25.2; 25.5; 25.8; 26.1]%float 2 3 1 16000 26.1);
    reflexivity.
Defined.

(** ** The script body *)

Lemma load_strategy_table_lengths
    (py_float : string -> option float) (py_int : string -> option Z)
    (np_wide : list Z -> Z -> Z)
    (fs : filesystem) (year_str : string)
    (strat : list string) (area depth : list float) (niexp : list Z) :
  load_strategy_table py_float py_int np_wide fs year_str
  = Ok (strat, area, depth, niexp) ->
  List.length area = List.length strat /\
  List.length depth = List.length strat /\
  List.length niexp = List.length strat.
Proof.
  unfold load_strategy_table, open_lines.
  destruct (path_exists fs _); [|discriminate]. cbn [negb].
  destruct (read_lines fs _); [|discriminate]. cbn [bind].
  destruct (Py.index year_vals year_str); [|discriminate]. cbn [bind].
  destruct (Py.for_each _ _); [|discriminate]. cbn [bind].
  intros [= <- <- <- <-]. now rewrite int_array_length, !length_map.
Qed.

Section EmulatorCached.
Variable interp2d :
  list (list float) -> list (list float) -> list (list float) ->
  float -> float -> float.
Variable diagnostic_plots :
  string -> list float -> list float -> list Z ->
  (float -> float -> float) -> float -> option exn.

Lemma emulate_fom_cached (name : string) (area_vals depth_vals : list float)
    (ga gd gf : list (list float)) (niexp : list Z) (figpref : option string)
    (names : option (list string)) (g g' : globals) (out : list float) :
  (0 <? renorm_value g)%float = true ->
  emulate_fom interp2d diagnostic_plots (Some name) area_vals depth_vals
    ga gd gf niexp figpref names g = (Ok out, g') ->
  g' = g /\
  divided_by (interp2d ga gd gf) area_vals depth_vals (renorm_value g) out.
Proof.
  intros Hc H. apply emulate_fom_returns in H. destruct H as (v & Hr & Hl).
  rewrite renormalize_cached in Hr by exact Hc. injection Hr as <- <-.
  split; [reflexivity|]. apply fom_loop_inv. exact Hl.
Qed.

Lemma emulate_fom_first (name : string) (area_vals depth_vals : list float)
    (ga gd gf : list (list float)) (niexp : list Z) (figpref : option string)
    (names : list string) (g g' : globals) (out : list float) :
  (0 <? renorm_value g)%float = false ->
  emulate_fom interp2d diagnostic_plots (Some name) area_vals depth_vals
    ga gd gf niexp figpref (Some names) g = (Ok out, g') ->
  exists tmp_ind a d,
    Py.index names name = Ok tmp_ind /\
    nth_error area_vals tmp_ind = Some a /\
    nth_error depth_vals tmp_ind = Some d /\
    g' = {| renorm_value := interp2d ga gd gf a d |} /\
    divided_by (interp2d ga gd gf) area_vals depth_vals
      (interp2d ga gd gf a d) out.
Proof.
  intros Hc H. apply emulate_fom_returns in H. destruct H as (v & Hr & Hl).
  destruct (renormalize_computes name _ _ _ _ g g' v Hc Hr)
    as (l & i & a & d & [= <-] & E2 & E3 & E4 & -> & ->).
  exists i, a, d. repeat (split; [assumption || reflexivity|]).
  apply fom_loop_inv. exact Hl.
Qed.

End EmulatorCached.

Section ScriptFacts.
Variable py_float : string -> option float.
Variable py_int : string -> option Z.
Variable np_wide : list Z -> Z -> Z.
Variable interp2d :
  list (list float) -> list (list float) -> list (list float) ->
  float -> float -> float.
Variable diagnostic_plots :
  string -> list float -> list float -> list Z ->
  (float -> float -> float) -> float -> option exn.
Variable year_figures :
  bool -> nat -> Np.array3 float -> Np.array3 float -> option exn.
Variable print_ranking : bool -> option string -> year_result -> option exn.
Variable fake : bool.
Variable rs : option string.
Variable fs : filesystem.
Variables foms_prior foms_noprior : Np.array3 float.

Local Abbreviation run_year :=
  (script_year py_float py_int np_wide interp2d diagnostic_plots year_figures
     print_ranking fake rs fs foms_prior foms_noprior).

Local Abbreviation run_years :=
  (script_years py_float py_int np_wide interp2d diagnostic_plots year_figures
     print_ranking fake rs fs foms_prior foms_noprior).

(** What a year that completes has done. *)
Lemma script_year_inv (yi : nat) (g g' : globals) (r : year_result) :
  run_year yi g = (Ok r, g') ->
  exists year_str g1,
    nth_error year_vals yi = Some year_str /\
    load_strategy_table py_float py_int np_wide fs year_str
    = Ok (tmp_strat r, tmp_area r, tmp_depth r, tmp_niexp r) /\
    emulate_fom interp2d diagnostic_plots rs (tmp_area r) (tmp_depth r)
      (plot_areas yi) (plot_depths yi) (Np.slice2 0%float foms_noprior yi)
      (tmp_niexp r) (Some ("test_noprior_" ++ year_str)%string)
      (Some (tmp_strat r)) g
    = (Ok (emulated_fom_noprior r), g1) /\
    (if fake then emulated_fom_prior r = None /\ g' = g1
     else exists p,
         emulated_fom_prior r = Some p /\
         emulate_fom interp2d diagnostic_plots rs (tmp_area r) (tmp_depth r)
           (plot_areas yi) (plot_depths yi) (Np.slice2 0%float foms_prior yi)
           (tmp_niexp r) (Some ("test_prior_" ++ year_str)%string)
           (Some (tmp_strat r)) g1
         = (Ok p, g')).
Proof.
  unfold script_year. intros H.
  destruct (year_figures fake yi foms_prior foms_noprior); [discriminate|].
  unfold Py.item in H.
  destruct (nth_error year_vals yi) as [ys|] eqn:Ey; [|discriminate].
  cbn [bind] in H.
  destruct (load_strategy_table py_float py_int np_wide fs ys)
    as [[[[strat area] depth] niexp]|e] eqn:Et; [|discriminate].
  cbn [bind] in H. cbv zeta in H.
  destruct (emulate_fom interp2d diagnostic_plots rs area depth
              (plot_areas yi) (plot_depths yi)
              (Np.slice2 0%float foms_noprior yi) niexp
              (Some ("test_noprior_" ++ ys)%string) (Some strat) g)
    as [[noprior|e] g1] eqn:E1; [|discriminate].
  destruct fake.
  - destruct (print_ranking _ _ _); [discriminate|].
    injection H as <- <-. exists ys, g1.
    cbn [tmp_strat tmp_area tmp_depth tmp_niexp emulated_fom_noprior
           emulated_fom_prior].
    auto.
  - destruct (emulate_fom interp2d diagnostic_plots rs area depth
                (plot_areas yi) (plot_depths yi)
                (Np.slice2 0%float foms_prior yi) niexp
                (Some ("test_prior_" ++ ys)%string) (Some strat) g1)
      as [[prior|e] g2] eqn:E2; [|discriminate].
    destruct (print_ranking _ _ _); [discriminate|].
    injection H as <- <-. exists ys, g1.
    cbn [tmp_strat tmp_area tmp_depth tmp_niexp emulated_fom_noprior
           emulated_fom_prior].
    repeat (split; [assumption || reflexivity|]). exists prior. auto.
Qed.

Lemma script_years_cons_inv (yi : nat) (years : list nat) (g g' : globals)
    (results : list year_result) :
  run_years (yi :: years) g = (Ok results, g') ->
  exists r g1 rest,
    run_year yi g = (Ok r, g1) /\
    run_years years g1 = (Ok rest, g') /\
    results = r :: rest.
Proof.
  cbn [script_years]. intros H.
  destruct (run_year yi g) as [[r|e] g1] eqn:E1; [|discriminate].
  destruct (run_years years g1) as [[rest|e] g2] eqn:E2; [|discriminate].
  injection H as <- <-. exists r, g1, rest. auto.
Qed.

(** Entry [i] of the results of the years [s, s+1, ...] is one completed
    run of the body for year [s + i]. *)
Lemma script_years_nth (n : nat) :
  forall (s : nat) (g g' : globals) (results : list year_result),
    run_years (seq s n) g = (Ok results, g') ->
    List.length results = n /\
    forall i r, nth_error results i = Some r ->
      exists g0 g1, run_year (s + i) g0 = (Ok r, g1).
Proof.
  induction n as [|n IH]; intros s g g' results H.
  - injection H as <- _. split; [reflexivity|]. intros [|i] r; discriminate.
  - cbn [seq] in H. apply script_years_cons_inv in H.
    destruct H as (r0 & g1 & rest & H0 & Hrest & ->).
    destruct (IH (S s) g1 g' rest Hrest) as [L N]. split.
    + simpl. now rewrite L.
    + intros [|i] r Hr.
      * injection Hr as <-. rewrite Nat.add_0_r. eauto.
      * replace (s + S i) with (S s + i) by lia. apply (N i r Hr).
Qed.

Variable name : string.
Hypothesis rs_name : rs = Some name.

(** A year that starts with a positive stored value. *)
Lemma script_year_cached (yi : nat) (g g' : globals) (r : year_result) :
  (0 <? renorm_value g)%float = true ->
  run_year yi g = (Ok r, g') ->
  g' = g /\
  year_divided interp2d foms_prior foms_noprior (renorm_value g) yi r.
Proof.
  intros Hc H. apply script_year_inv in H.
  destruct H as (ys & g1 & _ & _ & E1 & E2). rewrite rs_name in E1, E2.
  destruct (emulate_fom_cached _ _ _ _ _ _ _ _ _ _ _ _ _ _ Hc E1) as [-> D1].
  unfold year_divided, year_interp.
  destruct fake.
  - destruct E2 as [E2 ->]. split; [reflexivity|]. split; [exact D1|].
    intros p Hp. congruence.
  - destruct E2 as (p & Ep & E2).
    destruct (emulate_fom_cached _ _ _ _ _ _ _ _ _ _ _ _ _ _ Hc E2) as [-> D2]. split; [reflexivity|]. split; [exact D1|].
    intros p' Hp'. rewrite Ep in Hp'. now injection Hp' as <-.
Qed.

Lemma script_years_cached (n : nat) :
  forall (s : nat) (g g' : globals) (results : list year_result),
    (0 <? renorm_value g)%float = true ->
    run_years (seq s n) g = (Ok results, g') ->
    g' = g /\
    forall i r, nth_error results i = Some r ->
      year_divided interp2d foms_prior foms_noprior (renorm_value g)
        (s + i) r.
Proof.
  induction n as [|n IH]; intros s g g' results Hc H.
  - injection H as <- <-. split; [reflexivity|]. intros [|i] r; discriminate.
  - cbn [seq] in H. apply script_years_cons_inv in H.
    destruct H as (r0 & g1 & rest & H0 & Hrest & ->).
    destruct (script_year_cached s g g1 r0 Hc H0) as [-> D0].
    destruct (IH (S s) g g' rest Hc Hrest) as [-> N].
    split; [reflexivity|]. intros [|i] r Hr.
    + injection Hr as <-. now rewrite Nat.add_0_r.
    + replace (s + S i) with (S s + i) by lia. apply (N i r Hr).
Qed.

(** A year that starts without a positive stored value. *)
Lemma script_year_first (yi : nat) (g g' : globals) (r : year_result) :
  (0 <? renorm_value g)%float = false ->
  run_year yi g = (Ok r, g') ->
  exists tmp_ind a d,
    Py.index (tmp_strat r) name = Ok tmp_ind /\
    nth_error (tmp_area r) tmp_ind = Some a /\
    nth_error (tmp_depth r) tmp_ind = Some d /\
    ((0 <? year_interp interp2d foms_noprior yi a d)%float = true ->
     g' = {| renorm_value := year_interp interp2d foms_noprior yi a d |} /\
     year_divided interp2d foms_prior foms_noprior
       (year_interp interp2d foms_noprior yi a d) yi r).
Proof.
  intros Hc H. apply script_year_inv in H.
  destruct H as (ys & g1 & _ & _ & E1 & E2). rewrite rs_name in E1, E2.
  destruct (emulate_fom_first _ _ _ _ _ _ _ _ _ _ _ _ _ _ Hc E1)
    as (i & a & d & Ei & Ea & Ed & -> & D1).
  exists i, a, d. repeat (split; [assumption|]).
  unfold year_divided, year_interp in *. intros Hv.
  destruct fake.
  - destruct E2 as [E2 ->]. split; [reflexivity|]. split; [exact D1|].
    intros p Hp. congruence.
  - destruct E2 as (p & Ep & E2).
    destruct (emulate_fom_cached _ _ _ _ _ _ _ _ _ _ _
                {| renorm_value := _ |} _ _ Hv E2) as [-> D2]. split; [reflexivity|]. split; [exact D1|].
    intros p' Hp'. rewrite Ep in Hp'. now injection Hp' as <-.
Qed.

End ScriptFacts.

(** X15. When the script runs to its end it has gone through the four
    years in order: entry [yi] of its results comes from the strategy table
    of year [yi], its name, area, depth and visit-count sequences and its
    emulated list without prior have one entry per row of that table, and
    an emulated list with prior exists, of the same length, exactly when
    [fake_area] is off. *)
Theorem script_results_shape
    (py_float : string -> option float) (py_int : string -> option Z)
    (np_wide : list Z -> Z -> Z)
    (interp2d : list (list float) -> list (list float) -> list (list float) ->
                float -> float -> float)
    (diagnostic_plots : string -> list float -> list float -> list Z ->
                        (float -> float -> float) -> float -> option exn)
    (year_figures : bool -> nat -> Np.array3 float -> Np.array3 float ->
                    option exn)
    (print_ranking : bool -> option string -> year_result -> option exn)
    (fake : bool) (rs : option string) (fs : filesystem)
    (results : list year_result) (g : globals) :
  script py_float py_int np_wide interp2d diagnostic_plots year_figures print_ranking
    fake rs fs = (Ok results, g) ->
  List.length results = 4 /\
  forall yi r, nth_error results yi = Some r ->
    load_strategy_table py_float py_int np_wide fs (year_token yi)
    = Ok (tmp_strat r, tmp_area r, tmp_depth r, tmp_niexp r) /\
    List.length (tmp_area r) = List.length (tmp_strat r) /\
    List.length (tmp_depth r) = List.length (tmp_strat r) /\
    List.length (tmp_niexp r) = List.length (tmp_strat r) /\
    List.length (emulated_fom_noprior r) = List.length (tmp_strat r) /\
    if fake then emulated_fom_prior r = None
    else exists p, emulated_fom_prior r = Some p /\
                   List.length p = List.length (tmp_strat r).
Proof.
  unfold script. intros H.
  destruct (load_foms py_float fs "FoM" true fake) as [fp|]; [|discriminate].
  destruct (load_foms py_float fs "FoM" false fake) as [fn|]; [|discriminate].
  cbn [bind] in H.
  change (seq 0 (List.length year_vals)) with (seq 0 4) in H.
  destruct (script_years_nth py_float py_int np_wide interp2d diagnostic_plots
              year_figures print_ranking fake rs fs fp fn 4 0
              initial_globals g results H) as [L N].
  split; [exact L|]. intros yi r Hr.
  destruct (N yi r Hr) as (g0 & g1 & Hy). cbn [Nat.add] in Hy.
  apply script_year_inv in Hy.
  destruct Hy as (ys & g2 & Ey & Et & E1 & E2).
  assert (Ety : year_token yi = ys).
  { unfold year_token. now apply nth_error_nth. }
  rewrite Ety. split; [exact Et|].
  destruct (load_strategy_table_lengths _ _ _ _ _ _ _ _ _ Et) as (La & Ld & Ln).
  repeat (split; [assumption|]).
  apply emulate_fom_returns in E1. destruct E1 as (c1 & _ & F1).
  apply fom_loop_inv in F1. destruct F1 as [F1 _].
  split; [congruence|].
  destruct fake; [exact (proj1 E2)|].
  destruct E2 as (p & Ep & E2). exists p. split; [exact Ep|].
  apply emulate_fom_returns in E2. destruct E2 as (c2 & _ & F2).
  apply fom_loop_inv in F2. destruct F2 as [F2 _]. congruence.
Qed.

Lemma script_results_shape_witness :
  let results :=
    match
      fst (script Decimal.float_of_decimal Decimal.int_of_decimal Sample.exact_ints
             Sample.flat_interp Sample.no_plots Sample.no_figures
             Sample.quiet_ranking false renorm_strategy Sample.fs_script)
    with
    | Ok l => l
    | Raise _ => []
    end in
  List.length results = 4 /\
  forall yi r, nth_error results yi = Some r ->
    load_strategy_table Decimal.float_of_decimal Decimal.int_of_decimal
      Sample.exact_ints Sample.fs_script (year_token yi)
    = Ok (tmp_strat r, tmp_area r, tmp_depth r, tmp_niexp r) /\
    List.length (tmp_area r) = List.length (tmp_strat r) /\
    List.length (tmp_depth r) = List.length (tmp_strat r) /\
    List.length (tmp_niexp r) = List.length (tmp_strat r) /\
    List.length (emulated_fom_noprior r) = List.length (tmp_strat r) /\
    exists p, emulated_fom_prior r = Some p /\
              List.length p = List.length (tmp_strat r).
Proof.
  intros results.
  apply (script_results_shape Decimal.float_of_decimal Decimal.int_of_decimal Sample.exact_ints
           Sample.flat_interp Sample.no_plots Sample.no_figures
           Sample.quiet_ranking false renorm_strategy Sample.fs_script
           results {| renorm_value := 10 |}).
  vm_compute. reflexivity.
Defined.

(** X16. One constant for the whole run. The script starts from the
    non-positive initial value, so its first call, for year Y1 without
    prior, looks the reference strategy up in Y1's table and stores the
    interpolant there. When that value is positive, every list the script
    emulates afterwards, for every year and with or without prior, is its
    own year's interpolant divided by that one Y1 no-prior value, which is
    also what the module variable holds at the end. *)
Theorem script_single_constant
    (py_float : string -> option float) (py_int : string -> option Z)
    (np_wide : list Z -> Z -> Z)
    (interp2d : list (list float) -> list (list float) -> list (list float) ->
                float -> float -> float)
    (diagnostic_plots : string -> list float -> list float -> list Z ->
                        (float -> float -> float) -> float -> option exn)
    (year_figures : bool -> nat -> Np.array3 float -> Np.array3 float ->
                    option exn)
    (print_ranking : bool -> option string -> year_result -> option exn)
    (fake : bool) (name : string) (fs : filesystem)
    (results : list year_result) (g : globals) :
  script py_float py_int np_wide interp2d diagnostic_plots year_figures print_ranking
    fake (Some name) fs = (Ok results, g) ->
  exists foms_prior foms_noprior r0 tmp_ind a d,
    load_foms py_float fs "FoM" true fake = Ok foms_prior /\
    load_foms py_float fs "FoM" false fake = Ok foms_noprior /\
    nth_error results 0 = Some r0 /\
    Py.index (tmp_strat r0) name = Ok tmp_ind /\
    nth_error (tmp_area r0) tmp_ind = Some a /\
    nth_error (tmp_depth r0) tmp_ind = Some d /\
    ((0 <? year_interp interp2d foms_noprior 0 a d)%float = true ->
     g = {| renorm_value := year_interp interp2d foms_noprior 0 a d |} /\
     forall yi r, nth_error results yi = Some r ->
       year_divided interp2d foms_prior foms_noprior
         (year_interp interp2d foms_noprior 0 a d) yi r).
Proof.
  unfold script. intros H.
  destruct (load_foms py_float fs "FoM" true fake) as [fp|]; [|discriminate].
  destruct (load_foms py_float fs "FoM" false fake) as [fn|]; [|discriminate].
  cbn [bind] in H.
  change (seq 0 (List.length year_vals)) with (0 :: seq 1 3) in H.
  apply script_years_cons_inv in H.
  destruct H as (r0 & g1 & rest & H0 & Hrest & ->).
  destruct (script_year_first py_float py_int np_wide interp2d diagnostic_plots
              year_figures print_ranking fake (Some name) fs fp fn name
              eq_refl 0 initial_globals g1 r0 eq_refl H0)
    as (i & a & d & Ei & Ea & Ed & Hpos).
  exists fp, fn, r0, i, a, d. repeat (split; [assumption || reflexivity|]).
  intros Hv. destruct (Hpos Hv) as [-> D0].
  destruct (script_years_cached py_float py_int np_wide interp2d diagnostic_plots
              year_figures print_ranking fake (Some name) fs fp fn name
              eq_refl 3 1 {| renorm_value := _ |} g rest Hv Hrest)
    as [-> N].
  split; [reflexivity|]. intros [|yi] r Hr.
  - injection Hr as <-. exact D0.
  - exact (N yi r Hr).
Qed.

Lemma script_single_constant_witness :
  let run :=
    script Decimal.float_of_decimal Decimal.int_of_decimal Sample.exact_ints
      Sample.flat_interp Sample.no_plots Sample.no_figures
      Sample.quiet_ranking false renorm_strategy Sample.fs_script in
  let results := match fst run with Ok l => l | Raise _ => [] end in
  exists foms_prior foms_noprior r0 tmp_ind a d,
    load_foms Decimal.float_of_decimal Sample.fs_script "FoM" true false
    = Ok foms_prior /\
    load_foms Decimal.float_of_decimal Sample.fs_script "FoM" false false
    = Ok foms_noprior /\
    nth_error results 0 = Some r0 /\
    Py.index (tmp_strat r0) "kraken_2026" = Ok tmp_ind /\
    nth_error (tmp_area r0) tmp_ind = Some a /\
    nth_error (tmp_depth r0) tmp_ind = Some d /\
    ((0 <? year_interp Sample.flat_interp foms_noprior 0 a d)%float = true ->
     snd run
     = {| renorm_value := year_interp Sample.flat_interp foms_noprior 0 a d |}
     /\
     forall yi r, nth_error results yi = Some r ->
       year_divided Sample.flat_interp foms_prior foms_noprior
         (year_interp Sample.flat_interp foms_noprior 0 a d) yi r).
Proof.
  intros run results.
  apply (script_single_constant Decimal.float_of_decimal
           Decimal.int_of_decimal Sample.exact_ints Sample.flat_interp Sample.no_plots
           Sample.no_figures Sample.quiet_ranking false "kraken_2026"
           Sample.fs_script results (snd run)).
  vm_compute. reflexivity.
Defined.

(** X17. The reference strategy has to be in the first table. When both
    grids load, the figures of year Y1 are drawn and Y1's table is read
    but does not name the reference strategy, the script stops in its
    first call of [emulate_fom] with the [ValueError] of [list.index]: no
    later table is looked at and the module variable still holds its
    initial value. *)
Theorem script_needs_reference_in_first_table
    (py_float : string -> option float) (py_int : string -> option Z)
    (np_wide : list Z -> Z -> Z)
    (interp2d : list (list float) -> list (list float) -> list (list float) ->
                float -> float -> float)
    (diagnostic_plots : string -> list float -> list float -> list Z ->
                        (float -> float -> float) -> float -> option exn)
    (year_figures : bool -> nat -> Np.array3 float -> Np.array3 float ->
                    option exn)
    (print_ranking : bool -> option string -> year_result -> option exn)
    (fake : bool) (name : string) (fs : filesystem)
    (foms_prior foms_noprior : Np.array3 float)
    (strat : list string) (area depth : list float) (niexp : list Z) :
  load_foms py_float fs "FoM" true fake = Ok foms_prior ->
  load_foms py_float fs "FoM" false fake = Ok foms_noprior ->
  year_figures fake 0 foms_prior foms_noprior = None ->
  load_strategy_table py_float py_int np_wide fs "Y1"
  = Ok (strat, area, depth, niexp) ->
  ~ In name strat ->
  script py_float py_int np_wide interp2d diagnostic_plots year_figures print_ranking
    fake (Some name) fs
  = (Raise (ValueError ("'" ++ name ++ "' is not in list")), initial_globals).
Proof.
  intros Hp Hn Hf Ht Hin. unfold script. rewrite Hp, Hn. cbn [bind].
  change (seq 0 (List.length year_vals)) with (0 :: seq 1 3).
  cbn [script_years]. unfold script_year. rewrite Hf.
  change (Py.item year_vals 0) with (Ok (A := string) "Y1"). cbn [bind].
  rewrite Ht. cbn [bind].
  unfold emulate_fom, renormalize.
  change ((0 <? renorm_value initial_globals)%float) with false.
  cbv iota. rewrite (index_not_in _ _ Hin). reflexivity.
Qed.

Lemma script_needs_reference_in_first_table_witness :
  script Decimal.float_of_decimal Decimal.int_of_decimal Sample.exact_ints
    Sample.flat_interp Sample.no_plots Sample.no_figures
    Sample.quiet_ranking false (Some "minion_1016") Sample.fs_script
  = (Raise (ValueError "'minion_1016' is not in list"), initial_globals).
Proof.
  destruct (load_foms Decimal.float_of_decimal Sample.fs_script "FoM" true
              false) as [fp|] eqn:Ep; [|vm_compute in Ep; discriminate Ep].
  destruct (load_foms Decimal.float_of_decimal Sample.fs_script "FoM" false
              false) as [fn|] eqn:En; [|vm_compute in En; discriminate En].
  apply (script_needs_reference_in_first_table Decimal.float_of_decimal
           Decimal.int_of_decimal Sample.exact_ints Sample.flat_interp Sample.no_plots
           Sample.no_figures Sample.quiet_ranking false "minion_1016"
           Sample.fs_script fp fn
           ["baseline2018a"; "kraken_2026"; "my_strategy"]
           [18000; 15000; 14000]%float [25.1; 26; 25.5]%float
           [42; 15; 0]%Z Ep En eq_refl).
  - vm_compute. reflexivity.
  - intros [H|[H|[H|[]]]]; discriminate H.
Defined.

(** X18. How the three grids handed to the interpolant line up (lines
    263-264 and 322-329 on top of [load_foms] without the fake-area
    rescaling). At grid position [(n / 3, n % 3)] of year [yi] the area is
    [areas[n / 3, yi]], the depth is [depths[n % 3, yi]] and the FoM is the
    value of the [n]-th qualifying line of the year's file, or zero when
    the file has no such line: consecutive lines run through the depths
    of one area before moving to the next area. *)
Theorem script_grid_alignment
    (py_float : string -> option float) (fs : filesystem) (dir : string)
    (prior : bool) (arr : Np.array3 float) (yi : nat) :
  load_foms py_float fs dir prior false = Ok arr ->
  yi < 4 ->
  exists vals,
    year_values py_float fs dir prior (year_token yi) = Ok vals /\
    forall n, n < 9 ->
      get2 0%float (plot_areas yi) (n / 3) (n mod 3)
      = get2 0%float areas (n / 3) yi /\
      get2 0%float (plot_depths yi) (n / 3) (n mod 3)
      = get2 0%float depths (n mod 3) yi /\
      get2 0%float (Np.slice2 0%float arr yi) (n / 3) (n mod 3)
      = nth n vals 0%float.
Proof.
  intros H Hy. apply load_foms_inv in H. destruct H as [Hs Hv].
  destruct (Hv yi Hy) as (vals & Ev & _ & Sp).
  exists vals. split; [exact Ev|]. intros n Hn.
  rewrite (slice2_shaped 0%float 4 arr yi Hs).
  cbn [slice_spec] in Sp. specialize (Sp n Hn).
  rewrite filled_zeros in Sp. rewrite <- Sp. clear Sp Hv Ev Hs.
  do 9 (destruct n as [|n];
        [do 4 (destruct yi as [|yi];
               [repeat split; reflexivity|]); lia|]).
  lia.
Qed.

Lemma script_grid_alignment_witness :
  let arr :=
    match
      load_foms Decimal.float_of_decimal Sample.fs_nine "FoM" false false
    with
    | Ok a => a
    | Raise _ => []
    end in
  exists vals,
    year_values Decimal.float_of_decimal Sample.fs_nine "FoM" false
      (year_token 1) = Ok vals /\
    forall n, n < 9 ->
      get2 0%float (plot_areas 1) (n / 3) (n mod 3)
      = get2 0%float areas (n / 3) 1 /\
      get2 0%float (plot_depths 1) (n / 3) (n mod 3)
      = get2 0%float depths (n mod 3) 1 /\
      get2 0%float (Np.slice2 0%float arr 1) (n / 3) (n mod 3)
      = nth n vals 0%float.
Proof.
  intros arr.
  apply (script_grid_alignment Decimal.float_of_decimal Sample.fs_nine "FoM"
           false arr 1).
  - vm_compute. reflexivity.
  - lia.
Defined.

(** ** Runs that complete *)

Lemma index_In (l : list string) (x : string) :
  In x l -> exists i, Py.index l x = Ok i /\ i < List.length l.
Proof.
  induction l as [|y l IH]; intros H; [destruct H|].
  cbn [Py.index List.length]. destruct (String.eqb y x) eqn:E.
  - exists 0. split; [reflexivity|lia].
  - destruct H as [H|H]; [subst y; rewrite String.eqb_refl in E; discriminate|].
    destruct (IH H) as (i & Ei & Li). exists (S i). rewrite Ei.
    split; [reflexivity|lia].
Qed.

Lemma emulate_fom_total
    (interp2d : list (list float) -> list (list float) -> list (list float) ->
                float -> float -> float)
    (diagnostic_plots : string -> list float -> list float -> list Z ->
                        (float -> float -> float) -> float -> option exn)
    (name : string) (area_vals depth_vals : list float)
    (ga gd gf : list (list float)) (niexp : list Z) (figpref : option string)
    (strat : list string) (g : globals) :
  (forall pref c, figpref = Some pref ->
     diagnostic_plots pref area_vals depth_vals niexp (interp2d ga gd gf) c
     = None) ->
  List.length area_vals = List.length strat ->
  List.length depth_vals = List.length strat ->
  (0 <? renorm_value g)%float = true \/ In name strat ->
  exists out g',
    emulate_fom interp2d diagnostic_plots (Some name) area_vals depth_vals
      ga gd gf niexp figpref (Some strat) g = (Ok out, g') /\
    List.length out = List.length strat.
Proof.
  intros Hq La Ld Hs.
  rewrite (emulate_fom_unfold interp2d diagnostic_plots (Some name)
             area_vals depth_vals ga gd gf niexp figpref (Some strat) g Hq).
  assert (R : exists c g',
             renormalize (Some name) (interp2d ga gd gf) area_vals depth_vals
               (Some strat) g = (Ok c, g')).
  { unfold renormalize.
    destruct (0 <? renorm_value g)%float eqn:Hc; [eauto|].
    destruct Hs as [Hs|Hs]; [discriminate|].
    destruct (index_In _ _ Hs) as (i & Ei & Li). rewrite Ei. cbn [bind].
    unfold Py.item.
    destruct (nth_error area_vals i) eqn:Ea;
      [|apply nth_error_None in Ea; lia].
    destruct (nth_error depth_vals i) eqn:Ed;
      [|apply nth_error_None in Ed; lia].
    cbn [bind]. eauto. }
  destruct R as (c & g' & R). rewrite R.
  rewrite fom_loop_combine by lia.
  eexists _, g'. split; [reflexivity|].
  rewrite length_map, length_combine. lia.
Qed.

(** X19. A table that loads can always be emulated. On the four sequences
    [load_strategy_table] returns, with figures that do not raise,
    [emulate_fom] returns one value per table row as soon as a positive
    value is stored or the table names the reference strategy: the loop of
    lines 248-249 cannot run past the end of the depths. *)
Theorem emulate_fom_returns_on_table
    (py_float : string -> option float) (py_int : string -> option Z)
    (np_wide : list Z -> Z -> Z)
    (interp2d : list (list float) -> list (list float) -> list (list float) ->
                float -> float -> float)
    (diagnostic_plots : string -> list float -> list float -> list Z ->
                        (float -> float -> float) -> float -> option exn)
    (fs : filesystem) (year_str name : string)
    (strat : list string) (area depth : list float) (niexp : list Z)
    (ga gd gf : list (list float)) (figpref : option string) (g : globals) :
  load_strategy_table py_float py_int np_wide fs year_str
  = Ok (strat, area, depth, niexp) ->
  (forall pref c, figpref = Some pref ->
     diagnostic_plots pref area depth niexp (interp2d ga gd gf) c = None) ->
  (0 <? renorm_value g)%float = true \/ In name strat ->
  exists out g',
    emulate_fom interp2d diagnostic_plots (Some name) area depth ga gd gf
      niexp figpref (Some strat) g = (Ok out, g') /\
    List.length out = List.length strat.
Proof.
  intros Ht Hq Hs.
  destruct (load_strategy_table_lengths _ _ _ _ _ _ _ _ _ Ht) as (La & Ld & _).
  now apply emulate_fom_total.
Qed.

Lemma emulate_fom_returns_on_table_witness :
  exists out g',
    emulate_fom Sample.flat_interp Sample.no_plots renorm_strategy
      [18000; 15000; 14000]%float [25.1; 26; 25.5]%float
      (plot_areas 0) (plot_depths 0) (Sample.flat_grid 30%float)
      [42; 15; 0]%Z (Some "test_noprior_Y1")
      (Some ["baseline2018a"; "kraken_2026"; "my_strategy"]) initial_globals
    = (Ok out, g') /\
    List.length out = 3.
Proof.
  apply (emulate_fom_returns_on_table Decimal.float_of_decimal
           Decimal.int_of_decimal Sample.exact_ints Sample.flat_interp Sample.no_plots
           Sample.fs_table "Y1" "kraken_2026"
           ["baseline2018a"; "kraken_2026"; "my_strategy"]
           [18000; 15000; 14000]%float [25.1; 26; 25.5]%float [42; 15; 0]%Z
           (plot_areas 0) (plot_depths 0) (Sample.flat_grid 30%float)
           (Some "test_noprior_Y1") initial_globals).
  - vm_compute. reflexivity.
  - reflexivity.
  - right. simpl. auto.
Defined.

Section ScriptReturns.
Variable py_float : string -> option float.
Variable py_int : string -> option Z.
Variable np_wide : list Z -> Z -> Z.
Variable interp2d :
  list (list float) -> list (list float) -> list (list float) ->
  float -> float -> float.
Variable diagnostic_plots :
  string -> list float -> list float -> list Z ->
  (float -> float -> float) -> float -> option exn.
Variable year_figures :
  bool -> nat -> Np.array3 float -> Np.array3 float -> option exn.
Variable print_ranking : bool -> option string -> year_result -> option exn.
Variable fake : bool.
Variable name : string.
Variable fs : filesystem.
Variables foms_prior foms_noprior : Np.array3 float.

Hypothesis figures_quiet :
  forall yi, yi < 4 -> year_figures fake yi foms_prior foms_noprior = None.
Hypothesis plots_quiet :
  forall pref a d n f c, diagnostic_plots pref a d n f c = None.
Hypothesis ranking_quiet : forall r, print_ranking fake (Some name) r = None.
Hypothesis tables :
  forall yi, yi < 4 ->
    exists strat area depth niexp,
      load_strategy_table py_float py_int np_wide fs (year_token yi)
      = Ok (strat, area, depth, niexp) /\
      In name strat.

Lemma script_year_returns (yi : nat) (g : globals) :
  yi < 4 ->
  exists r g',
    script_year py_float py_int np_wide interp2d diagnostic_plots year_figures
      print_ranking fake (Some name) fs foms_prior foms_noprior yi g
    = (Ok r, g').
Proof.
  intros Hy. unfold script_year. rewrite (figures_quiet yi Hy).
  assert (Ey : Py.item year_vals yi = Ok (year_token yi)).
  { do 4 (destruct yi as [|yi]; [reflexivity|]). lia. }
  rewrite Ey. cbn [bind].
  destruct (tables yi Hy) as (strat & area & depth & niexp & Et & Hin).
  rewrite Et. cbn [bind]. cbv zeta.
  destruct (load_strategy_table_lengths _ _ _ _ _ _ _ _ _ Et) as (La & Ld & _).
  destruct (emulate_fom_total interp2d diagnostic_plots name area depth
              (plot_areas yi) (plot_depths yi)
              (Np.slice2 0%float foms_noprior yi) niexp
              (Some ("test_noprior_" ++ year_token yi)%string) strat g
              (fun pref c _ => plots_quiet _ _ _ _ _ _) La Ld
              (or_intror Hin))
    as (noprior & g1 & E1 & _).
  rewrite E1. destruct fake.
  - rewrite ranking_quiet. eauto.
  - destruct (emulate_fom_total interp2d diagnostic_plots name area depth
                (plot_areas yi) (plot_depths yi)
                (Np.slice2 0%float foms_prior yi) niexp
                (Some ("test_prior_" ++ year_token yi)%string) strat g1
                (fun pref c _ => plots_quiet _ _ _ _ _ _) La Ld
                (or_intror Hin))
      as (prior & g2 & E2 & _).
    rewrite E2, ranking_quiet. eauto.
Qed.

Lemma script_years_returns (n : nat) :
  forall (s : nat) (g : globals),
    s + n <= 4 ->
    exists results g',
      script_years py_float py_int np_wide interp2d diagnostic_plots year_figures
        print_ranking fake (Some name) fs foms_prior foms_noprior (seq s n) g
      = (Ok results, g') /\
      List.length results = n.
Proof.
  induction n as [|n IH]; intros s g Hs.
  - exists [], g. split; reflexivity.
  - cbn [seq script_years].
    destruct (script_year_returns s g ltac:(lia)) as (r & g1 & E1).
    rewrite E1.
    destruct (IH (S s) g1 ltac:(lia)) as (rest & g2 & E2 & L).
    rewrite E2. exists (r :: rest), g2. split; [reflexivity|].
    simpl. now rewrite L.
Qed.

End ScriptReturns.

(** X20. The script runs to its end, with four years of results, whenever
    both grids load, every year's strategy table loads and names the
    reference strategy, and neither the figures nor the printing raise:
    the calls of [emulate_fom] on those tables then all return. *)
Theorem script_returns
    (py_float : string -> option float) (py_int : string -> option Z)
    (np_wide : list Z -> Z -> Z)
    (interp2d : list (list float) -> list (list float) -> list (list float) ->
                float -> float -> float)
    (diagnostic_plots : string -> list float -> list float -> list Z ->
                        (float -> float -> float) -> float -> option exn)
    (year_figures : bool -> nat -> Np.array3 float -> Np.array3 float ->
                    option exn)
    (print_ranking : bool -> option string -> year_result -> option exn)
    (fake : bool) (name : string) (fs : filesystem)
    (foms_prior foms_noprior : Np.array3 float) :
  load_foms py_float fs "FoM" true fake = Ok foms_prior ->
  load_foms py_float fs "FoM" false fake = Ok foms_noprior ->
  (forall yi, yi < 4 -> year_figures fake yi foms_prior foms_noprior = None) ->
  (forall pref a d n f c, diagnostic_plots pref a d n f c = None) ->
  (forall r, print_ranking fake (Some name) r = None) ->
  (forall yi, yi < 4 ->
     exists strat area depth niexp,
       load_strategy_table py_float py_int np_wide fs (year_token yi)
       = Ok (strat, area, depth, niexp) /\
       In name strat) ->
  exists results g,
    script py_float py_int np_wide interp2d diagnostic_plots year_figures
      print_ranking fake (Some name) fs = (Ok results, g) /\
    List.length results = 4.
Proof.
  intros Hp Hn Hf Hq Hr Ht. unfold script. rewrite Hp, Hn. cbn [bind].
  change (seq 0 (List.length year_vals)) with (seq 0 4).
  apply (script_years_returns py_float py_int np_wide interp2d diagnostic_plots
           year_figures print_ranking fake name fs foms_prior foms_noprior
           Hf Hq Hr Ht 4 0 initial_globals).
  lia.
Qed.

Lemma script_returns_witness :
  exists results g,
    script Decimal.float_of_decimal Decimal.int_of_decimal Sample.exact_ints
      Sample.flat_interp Sample.no_plots Sample.no_figures
      Sample.quiet_ranking false renorm_strategy Sample.fs_script
    = (Ok results, g) /\
    List.length results = 4.
Proof.
  destruct (load_foms Decimal.float_of_decimal Sample.fs_script "FoM" true
              false) as [fp|] eqn:Ep; [|vm_compute in Ep; discriminate Ep].
  destruct (load_foms Decimal.float_of_decimal Sample.fs_script "FoM" false
              false) as [fn|] eqn:En; [|vm_compute in En; discriminate En].
  apply (script_returns Decimal.float_of_decimal Decimal.int_of_decimal Sample.exact_ints
           Sample.flat_interp Sample.no_plots Sample.no_figures
           Sample.quiet_ranking false "kraken_2026" Sample.fs_script fp fn
           Ep En).
  - reflexivity.
  - reflexivity.
  - reflexivity.
  - intros yi Hy.
    do 4 (destruct yi as [|yi];
          [do 4 eexists; split; [vm_compute; reflexivity|simpl; auto]|]).
    lia.
Defined.
